(** * PowerVR legacy native image support (rwlib/src/natimage.pvr.cpp)

    A shallow embedding of the PVR legacy container code: the pixel-format
    table, the sample codec [pvrColorDispatcher], the surface-dimension and
    data-size derivation, the legacy header reader, [IsStreamNativeImage],
    [ReadNativeImage], [WriteNativeImage], [ClearImageData] and the
    conversion loop of [ReadFromNativeTexture]; and, of rwinterface.cpp, the
    warning routing, the reference counts and the software information of
    the engine interface.

    Conventions.
    - [uint32], [uint8] and the enumeration [ePVRLegacyPixelFormat] are
      integers of [Z]; a size or a count that the code computes into a
      [uint32] is taken modulo 2^32.  An enumerator is the constant the C++
      compiler gives it, and a [switch] or a chain of comparisons is a
      membership test in the list of its case labels.
    - A texel buffer, a stream and the content of a heap block are lists of
      bytes.  A [struct color] of bit fields is the integer whose fields are
      packed in declaration order starting at the least significant bit,
      stored in [sizeof] bytes, least significant byte first.
    - Reference parameters ([uint8& redOut]) are passed in and returned.
    - [throw RwException( ... )] is the [Throw] result. *)

From Stdlib Require Import ZArith List Bool Lia Strings.String.
From stdpp Require Import base option list gmap.
Import ListNotations.
Local Open Scope Z_scope.

(** ** The legacy pixel formats *)

Module ePVRLegacyPixelFormat.
Definition t := Z.
Definition ARGB_4444 : t := 0.
Definition ARGB_1555 : t := 1.
Definition RGB_565 : t := 2.
Definition RGB_555 : t := 3.
Definition RGB_888 : t := 4.
Definition ARGB_8888 : t := 5.
Definition ARGB_8332 : t := 6.
Definition I8 : t := 7.
Definition AI88 : t := 8.
Definition MONOCHROME : t := 9.
Definition V_Y1_U_Y0 : t := 10.
Definition Y1_V_Y0_U : t := 11.
Definition PVRTC2 : t := 12.
Definition PVRTC4 : t := 13.
Definition ARGB_4444_SEC : t := 0x10.
Definition ARGB_1555_SEC : t := 0x11.
Definition ARGB_8888_SEC : t := 0x12.
Definition RGB_565_SEC : t := 0x13.
Definition RGB_555_SEC : t := 0x14.
Definition RGB_888_SEC : t := 0x15.
Definition I8_SEC : t := 0x16.
Definition AI88_SEC : t := 0x17.
Definition PVRTC2_SEC : t := 0x18.
Definition PVRTC4_SEC : t := 0x19.
Definition BGRA_8888 : t := 0x1a.
Definition DXT1 : t := 0x20.
Definition DXT2 : t := 0x21.
Definition DXT3 : t := 0x22.
Definition DXT4 : t := 0x23.
Definition DXT5 : t := 0x24.
Definition RGB332 : t := 0x25.
Definition AL_44 : t := 0x26.
Definition LVU_655 : t := 0x27.
Definition XLVU_8888 : t := 0x28.
Definition QWVU_8888 : t := 0x29.
Definition ABGR_2101010 : t := 0x2a.
Definition ARGB_2101010 : t := 0x2b.
Definition AWVU_2101010 : t := 0x2c.
Definition GR_1616 : t := 0x2d.
Definition VU_1616 : t := 0x2e.
Definition ABGR_16161616 : t := 0x2f.
Definition R_16F : t := 0x30.
Definition GR_1616F : t := 0x31.
Definition ABGR_16161616F : t := 0x32.
Definition R_32F : t := 0x33.
Definition GR_3232F : t := 0x34.
Definition ABGR_32323232F : t := 0x35.
Definition ETC : t := 0x36.
Definition A8 : t := 0x40.
Definition VU_88 : t := 0x41.
Definition L16 : t := 0x42.
Definition L8 : t := 0x43.
Definition AL_88 : t := 0x44.
Definition UYVY : t := 0x45.
Definition YUY2 : t := 0x46.

(** Every enumerator of the declaration, in declaration order. *)
Definition enumerators : list t :=
  [ ARGB_4444; ARGB_1555; RGB_565; RGB_555; RGB_888; ARGB_8888; ARGB_8332;
    I8; AI88; MONOCHROME; V_Y1_U_Y0; Y1_V_Y0_U; PVRTC2; PVRTC4;
    ARGB_4444_SEC; ARGB_1555_SEC; ARGB_8888_SEC; RGB_565_SEC; RGB_555_SEC;
    RGB_888_SEC; I8_SEC; AI88_SEC; PVRTC2_SEC; PVRTC4_SEC; BGRA_8888;
    DXT1; DXT2; DXT3; DXT4; DXT5; RGB332; AL_44; LVU_655; XLVU_8888;
    QWVU_8888; ABGR_2101010; ARGB_2101010; AWVU_2101010; GR_1616; VU_1616;
    ABGR_16161616; R_16F; GR_1616F; ABGR_16161616F; R_32F; GR_3232F;
    ABGR_32323232F; ETC;
    A8; VU_88; L16; L8; AL_88; UYVY; YUY2 ].
End ePVRLegacyPixelFormat.
Import ePVRLegacyPixelFormat.

(** [case_of f labels]: control reaches one of the given case labels. *)
Definition case_of (f : Z) (labels : list Z) : bool := existsb (Z.eqb f) labels.

Definition getPVRNativeImageRowAlignment : Z := 1.

Inductive ePVRLegacyPixelFormatType := UNKNOWN | RGBA | LUMINANCE | COMPRESSED.

Definition getPVRLegacyPixelFormatType (format : ePVRLegacyPixelFormat.t)
  : ePVRLegacyPixelFormatType :=
  if case_of format
       [ ARGB_4444; ARGB_1555; RGB_565; RGB_555; RGB_888; ARGB_8888; ARGB_8332;
         ARGB_4444_SEC; ARGB_1555_SEC; ARGB_8888_SEC; RGB_565_SEC; RGB_555_SEC;
         RGB_888_SEC; BGRA_8888; RGB332; ABGR_2101010; ARGB_2101010; GR_1616;
         ABGR_16161616; R_16F; GR_1616F; ABGR_16161616F; R_32F; GR_3232F;
         ABGR_32323232F ]
  then RGBA
  else if case_of format
       [ I8; AI88; MONOCHROME; I8_SEC; AI88_SEC; AL_44; L16; L8; AL_88 ]
  then LUMINANCE
  else if case_of format
       [ V_Y1_U_Y0; Y1_V_Y0_U; PVRTC2; PVRTC4; PVRTC2_SEC; PVRTC4_SEC;
         DXT1; DXT2; DXT3; DXT4; DXT5; ETC; UYVY; YUY2 ]
  then COMPRESSED
  else UNKNOWN.

Definition doesPVRLegacyFormatHaveAlphaChannel (pixelFormat : ePVRLegacyPixelFormat.t) : bool :=
  case_of pixelFormat
    [ ARGB_4444; ARGB_4444_SEC; ARGB_1555; ARGB_1555_SEC; ARGB_8888;
      ARGB_8888_SEC; ARGB_8332; AI88; AI88_SEC; PVRTC2; PVRTC2_SEC; PVRTC4;
      PVRTC4_SEC; BGRA_8888; AL_44; ABGR_2101010; ARGB_2101010; AWVU_2101010;
      ABGR_16161616; ABGR_16161616F; ABGR_32323232F; A8; AL_88 ].

(** [assert( 0 ); return 0;] after the switch is the final [0]. *)
Definition getPVRLegacyFormatDepth (format : ePVRLegacyPixelFormat.t) : Z :=
  if case_of format
       [ ARGB_4444; ARGB_1555; RGB_565; RGB_555; ARGB_8332; AI88;
         ARGB_4444_SEC; ARGB_1555_SEC; RGB_565_SEC; RGB_555_SEC; AI88_SEC;
         LVU_655; R_16F; VU_88; L16; AL_88 ]
  then 16
  else if case_of format [ RGB_888; RGB_888_SEC ] then 24
  else if case_of format
       [ ARGB_8888; ARGB_8888_SEC; BGRA_8888; XLVU_8888; QWVU_8888;
         ABGR_2101010; ARGB_2101010; AWVU_2101010; GR_1616; VU_1616;
         GR_1616F; R_32F ]
  then 32
  else if case_of format
       [ I8; V_Y1_U_Y0; Y1_V_Y0_U; UYVY; YUY2; I8_SEC; DXT2; DXT3; DXT4;
         DXT5; RGB332; AL_44; A8; L8 ]
  then 8
  else if case_of format [ MONOCHROME ] then 1
  else if case_of format [ PVRTC2; PVRTC2_SEC ] then 2
  else if case_of format [ PVRTC4; PVRTC4_SEC; DXT1; ETC ] then 4
  else if case_of format [ ABGR_16161616; ABGR_16161616F; GR_3232F ] then 64
  else if case_of format [ ABGR_32323232F ] then 128
  else 0.

(** The condition of the source is a conjunction of [pixelFormat != X]; it
    holds exactly when the format is none of the listed [X]. *)
Definition isValidPVRLegacyPixelFormat (pixelFormat : ePVRLegacyPixelFormat.t) : bool :=
  if negb (case_of pixelFormat
       [ ARGB_4444; ARGB_1555; RGB_565; RGB_555; ARGB_8888; ARGB_8332; I8;
         AI88; MONOCHROME; V_Y1_U_Y0; Y1_V_Y0_U; PVRTC2; PVRTC4;
         ARGB_4444_SEC; ARGB_1555_SEC; ARGB_8888_SEC; RGB_565_SEC;
         RGB_555_SEC; RGB_888_SEC; I8_SEC; AI88_SEC; PVRTC2_SEC; PVRTC4_SEC;
         BGRA_8888; DXT1; DXT2; DXT3; DXT4; DXT5; RGB332; AL_44; LVU_655;
         XLVU_8888; QWVU_8888; ABGR_2101010; ARGB_2101010; AWVU_2101010;
         GR_1616; VU_1616; ABGR_16161616; R_16F; GR_1616F; ABGR_16161616F;
         R_32F; GR_3232F; ABGR_32323232F; ETC; A8; VU_88; L16; L8; AL_88;
         UYVY; YUY2 ])
  then false
  else true.

(** ** Results of operations that may throw *)

Inductive result (A : Type) : Type :=
| Ok (a : A)
| Throw (what : String.string).
Arguments Ok {A} a.
Arguments Throw {A} what%_string.

(** ** Sample scaling *)

(** Modelled from the spec: [destscalecolor] and [putscalecolor] come from
    pixelutil.hxx, which is not among the sources.  Section 4.3: "scaling
    between an N-bit channel and an 8-bit output channel is linear
    round-to-nearest using the channel's maximum representable value as
    divisor (e.g., a 5-bit field scales via value x 255 / 31)". *)
Definition scalecolor (color curMax newMax : Z) : Z :=
  (2 * color * newMax + curMax) / (2 * curMax).

Definition destscalecolor (color curMax : Z) : Z := scalecolor color curMax 255.

Definition putscalecolor (color desiredMax : Z) : Z := scalecolor color 255 desiredMax.

(** ** Bit-field structs and their bytes *)

(** A [struct color] is given by the bit widths of its members in declaration
    order; [pack] stores the first member in the least significant bits, as
    the compilers of the little-endian hosts of the library do.  Assigning to
    a bit field keeps the low bits of the value. *)
Fixpoint pack (widths values : list Z) : Z :=
  match widths, values with
  | w :: widths', v :: values' => v mod 2 ^ w + 2 ^ w * pack widths' values'
  | _, _ => 0
  end.

Fixpoint unpack (widths : list Z) (word : Z) : list Z :=
  match widths with
  | [] => []
  | w :: widths' => word mod 2 ^ w :: unpack widths' (word / 2 ^ w)
  end.

Definition sizeof (widths : list Z) : nat := Z.to_nat (fold_right Z.add 0 widths / 8).

Definition member (k : nat) (item : list Z) : Z := nth k item 0.

Fixpoint bytes_of (n : nat) (word : Z) : list Z :=
  match n with
  | O => []
  | S n' => word mod 256 :: bytes_of n' (word / 256)
  end.

Fixpoint word_of (bytes : list Z) : Z :=
  match bytes with
  | [] => 0
  | b :: bytes' => b + 256 * word_of bytes'
  end.

(** Modelled from the spec: the wrappers [endian::little_endian] and
    [endian::big_endian] come from a header that is not among the sources.
    Section 4.1: a value "can be constructed tagged little or big;
    reading/writing through it performs any necessary byte-swap
    transparently". *)
Inductive endianness := little_endian | big_endian.

Definition endian_store (e : endianness) (n : nat) (word : Z) : list Z :=
  match e with
  | little_endian => bytes_of n word
  | big_endian => rev (bytes_of n word)
  end.

Definition endian_load (e : endianness) (bytes : list Z) : Z :=
  match e with
  | little_endian => word_of bytes
  | big_endian => word_of (rev bytes)
  end.

(** The texel at [colorIndex] of a buffer seen as an array of
    [endianness <color>].  The source checks no bounds; a read past the end of the list sees the bytes that are
    there, and a write that does not fit is dropped. *)
Definition load_item (e : endianness) (color : list Z) (srcTexels : list Z) (colorIndex : Z) : list Z :=
  let n := sizeof color in
  unpack color (endian_load e (take n (drop (Z.to_nat colorIndex * n) srcTexels))).

Definition store_item (e : endianness) (color : list Z) (dstTexels : list Z) (colorIndex : Z)
    (item : list Z) : list Z :=
  let n := sizeof color in
  let off := (Z.to_nat colorIndex * n)%nat in
  if (off + n <=? length dstTexels)%nat
  then take off dstTexels ++ endian_store e n (pack color item) ++ drop (off + n) dstTexels
  else dstTexels.

Definition load1 e color src idx : Z :=
  member 0 (load_item e color src idx).
Definition load2 e color src idx : Z * Z :=
  let item := load_item e color src idx in (member 0 item, member 1 item).
Definition load3 e color src idx : Z * Z * Z :=
  let item := load_item e color src idx in (member 0 item, member 1 item, member 2 item).
Definition load4 e color src idx : Z * Z * Z * Z :=
  let item := load_item e color src idx in
  (member 0 item, member 1 item, member 2 item, member 3 item).

(** The four [uint8&] outputs of a colour fetch. *)
Record rgba_refs := { redOut : Z; greenOut : Z; blueOut : Z; alphaOut : Z }.

Definition set_redOut (v : Z) (o : rgba_refs) : rgba_refs :=
  {| redOut := v; greenOut := greenOut o; blueOut := blueOut o; alphaOut := alphaOut o |}.
Definition set_greenOut (v : Z) (o : rgba_refs) : rgba_refs :=
  {| redOut := redOut o; greenOut := v; blueOut := blueOut o; alphaOut := alphaOut o |}.
Definition set_blueOut (v : Z) (o : rgba_refs) : rgba_refs :=
  {| redOut := redOut o; greenOut := greenOut o; blueOut := v; alphaOut := alphaOut o |}.
Definition set_alphaOut (v : Z) (o : rgba_refs) : rgba_refs :=
  {| redOut := redOut o; greenOut := greenOut o; blueOut := blueOut o; alphaOut := v |}.

(** The two [uint8&] outputs of a luminance fetch. *)
Record lum_refs := { lumOut : Z; lumAlphaOut : Z }.

Record pvrColorDispatcher := {
  pixelFormat : ePVRLegacyPixelFormat.t;
  colorModel : ePVRLegacyPixelFormatType;
  isLittleEndian : bool
}.

Definition endianness_of (isLittleEndian : bool) : endianness :=
  if isLittleEndian then little_endian else big_endian.

(** ** Containers, engine interface and streams *)

(** [genmip::mipmapLayer]; [texels] is a heap block or [NULL]. *)
Module mipmapLayer.
Record t := {
  width : Z;
  height : Z;
  layerWidth : Z;
  layerHeight : Z;
  texels : option positive;
  dataSize : Z
}.

(** A default-constructed layer, as [resize] creates it. *)
Definition empty : t :=
  {| width := 0; height := 0; layerWidth := 0; layerHeight := 0;
     texels := None; dataSize := 0 |}.
End mipmapLayer.

Module pvr_legacy_formatField.
Record t := {
  pixelFormat : Z;
  mipmapsPresent : bool;
  dataIsTwiddled : bool;
  containsNormalData : bool;
  hasBorder : bool;
  isCubeMap : bool;
  mipmapsHaveDebugColoring : bool;
  isVolumeTexture : bool;
  hasAlphaChannel_pvrtc : bool;
  isVerticallyFlipped : bool;
  pad : Z
}.

(** Bit widths of the members in declaration order. *)
Definition layout : list Z := [8; 1; 1; 1; 1; 1; 1; 1; 1; 1; 15].

Definition of_word (word : Z) : t :=
  let item := unpack layout word in
  let flag k := negb (member k item =? 0) in
  {| pixelFormat := member 0 item;
     mipmapsPresent := flag 1%nat;
     dataIsTwiddled := flag 2%nat;
     containsNormalData := flag 3%nat;
     hasBorder := flag 4%nat;
     isCubeMap := flag 5%nat;
     mipmapsHaveDebugColoring := flag 6%nat;
     isVolumeTexture := flag 7%nat;
     hasAlphaChannel_pvrtc := flag 8%nat;
     isVerticallyFlipped := flag 9%nat;
     pad := member 10 item |}.

Definition to_word (f : t) : Z :=
  let bit (b : bool) := if b then 1 else 0 in
  pack layout
    [ pixelFormat f; bit (mipmapsPresent f); bit (dataIsTwiddled f);
      bit (containsNormalData f); bit (hasBorder f); bit (isCubeMap f);
      bit (mipmapsHaveDebugColoring f); bit (isVolumeTexture f);
      bit (hasAlphaChannel_pvrtc f); bit (isVerticallyFlipped f); pad f ].
End pvr_legacy_formatField.

Module pvrNativeImage.
Record t := {
  pixelFormat : ePVRLegacyPixelFormat.t;
  dataIsTwiddled : bool;
  containsNormalData : bool;
  hasBorder : bool;
  isCubeMap : bool;
  mipmapsHaveDebugColoring : bool;
  isVolumeTexture : bool;
  hasAlphaChannel_pvrtc : bool;
  isVerticallyFlipped : bool;
  bitDepth : Z;
  mipmaps : list mipmapLayer.t;
  isLittleEndian : bool
}.

(** The image after its constructor: [resetFormat] and no mipmaps. *)
Definition constructed : t :=
  {| pixelFormat := ARGB_4444;
     dataIsTwiddled := false;
     containsNormalData := false;
     hasBorder := false;
     isCubeMap := false;
     mipmapsHaveDebugColoring := false;
     isVolumeTexture := false;
     hasAlphaChannel_pvrtc := false;
     isVerticallyFlipped := false;
     bitDepth := 0;
     mipmaps := [];
     isLittleEndian := true |}.

Definition push_back (layer : mipmapLayer.t) (img : t) : t :=
  {| pixelFormat := pixelFormat img;
     dataIsTwiddled := dataIsTwiddled img;
     containsNormalData := containsNormalData img;
     hasBorder := hasBorder img;
     isCubeMap := isCubeMap img;
     mipmapsHaveDebugColoring := mipmapsHaveDebugColoring img;
     isVolumeTexture := isVolumeTexture img;
     hasAlphaChannel_pvrtc := hasAlphaChannel_pvrtc img;
     isVerticallyFlipped := isVerticallyFlipped img;
     bitDepth := bitDepth img;
     mipmaps := mipmaps img ++ [layer];
     isLittleEndian := isLittleEndian img |}.
End pvrNativeImage.

(** The engine interface as far as this file uses it: the pixel heap, the
    sizes passed to [PixelAllocate] so far (latest first), the warnings pushed
    so far (latest first), and the script [oom] that says which of the coming
    [PixelAllocate] calls return [NULL] (none once it is used up). *)
Module Interface.
Record t := {
  heap : gmap positive (list Z);
  next_block : positive;
  requests : list Z;
  warnings : list String.string;
  oom : list bool
}.

Definition start (oom : list bool) : t :=
  {| heap := ∅; next_block := 1%positive; requests := []; warnings := []; oom := oom |}.

Definition PushWarning (msg : String.string) (e : t) : t :=
  {| heap := heap e; next_block := next_block e; requests := requests e;
     warnings := msg :: warnings e; oom := oom e |}.

Definition PixelAllocate (fill : Z) (size : Z) (e : t) : option positive * t :=
  let fails := match oom e with b :: _ => b | [] => false end in
  if fails
  then (None,
        {| heap := heap e; next_block := next_block e; requests := size :: requests e;
           warnings := warnings e; oom := tail (oom e) |})
  else (Some (next_block e),
        {| heap := <[next_block e := replicate (Z.to_nat size) fill]> (heap e);
           next_block := Pos.succ (next_block e);
           requests := size :: requests e;
           warnings := warnings e; oom := tail (oom e) |}).

Definition PixelFree (p : positive) (e : t) : t :=
  {| heap := delete p (heap e); next_block := next_block e; requests := requests e;
     warnings := warnings e; oom := oom e |}.

Definition write (p : positive) (bytes : list Z) (e : t) : t :=
  {| heap := <[p := bytes]> (heap e); next_block := next_block e;
     requests := requests e; warnings := warnings e; oom := oom e |}.
End Interface.

(** A stream is the list of the bytes still to be read. *)
Definition Stream := list Z.

Definition stream_read (n : Z) (s : Stream) : list Z * Stream :=
  (take (Z.to_nat n) s, drop (Z.to_nat n) s).

Definition stream_skip (n : Z) (s : Stream) : Stream := drop (Z.to_nat n) s.

(** The outputs of [readLegacyVersionHeader]. *)
Record legacy_header := {
  widthOut : Z;
  heightOut : Z;
  mipmapCountOut : Z;
  formatFieldOut : pvr_legacy_formatField.t;
  surfaceSizeOut : Z;
  bitsPerPixelOut : Z;
  redMaskOut : Z;
  greenMaskOut : Z;
  blueMaskOut : Z;
  alphaMaskOut : Z;
  isLittleEndianOut : bool
}.

(** ** Instances of the parameters, for the closed examples

    The sources at hand do not contain the float conversions, the luma
    conversion, the PVRTC block table or the texel conversion; the examples
    fix them as follows. *)
Definition sample_destscalecolorf (bits : Z) : Z := 0.

Definition sample_rgb2lum (red green blue : Z) : Z := (red + green + blue) / 3.

(** Stand-ins for the two float conversions: the single of a channel is the
    32-bit pattern of its value, the channel of a single its low byte. *)
Definition sample_single_of_channel (v : Z) : Z := v mod 2 ^ 32.

Definition sample_channel_of_single (bits : Z) : Z := bits mod 256.

Definition sample_blocks (depth : Z) : Z * Z := if depth =? 2 then (16, 8) else (8, 8).

(** * rwinterface.cpp: the engine interface

    The software information, the routing of warnings and the reference
    counts of objects, with the members of [Interface] that these read or
    write.  The receivers of warnings (handlers of the library, the manager
    of the runtime) and the objects are known by their addresses; what a
    receiver is given is recorded in [delivered], latest first. *)
Module EngineInterface.

Inductive receiver :=
| to_handler (h : positive)
| to_manager (w : positive).

(** [softwareMetaInfo]: three C strings, each of which may be NULL. *)
Record softwareMetaInfo := {
  mi_applicationName : option String.string;
  mi_applicationVersion : option String.string;
  mi_description : option String.string
}.

Section Engine.

(** The library version and its printer are declared outside of this file. *)
Variable LibraryVersion : Type.
Variable toString : LibraryVersion -> String.string.

(** The number of values of [unsigned long], the type of a reference count. *)
Variable ulong_max : Z.

(** [warningHandlerStack] is [None] when the engine has no warning handler
    plugin, [refMan] tells whether it has the reference count plugin; an
    object of the type system is mapped to its reference count, or to [None]
    when it has no plugin struct. *)
Record t := {
  version : LibraryVersion;
  applicationName : String.string;
  applicationVersion : String.string;
  applicationDescription : String.string;
  warningManager : option positive;
  warningLevel : Z;
  enableMetaDataTagging : bool;
  warningHandlerStack : option (list (option positive));
  refMan : bool;
  objects : gmap positive (option Z);
  delivered : list (receiver * String.string)
}.

(** What the constructor sets of these members; the version, the two plugins
    and the objects are not its business. *)
Definition Interface (v : LibraryVersion) (stack : option (list (option positive)))
    (hasRefMan : bool) : t :=
  {| version := v;
     applicationName := ""; applicationVersion := ""; applicationDescription := "";
     warningManager := None;
     warningLevel := 3;
     enableMetaDataTagging := true;
     warningHandlerStack := stack;
     refMan := hasRefMan;
     objects := ∅;
     delivered := [] |}.

Definition SetApplicationInfo (metaInfo : softwareMetaInfo) (e : t) : t :=
  {| version := version e;
     applicationName := default ""%string (mi_applicationName metaInfo);
     applicationVersion := default ""%string (mi_applicationVersion metaInfo);
     applicationDescription := default ""%string (mi_description metaInfo);
     warningManager := warningManager e; warningLevel := warningLevel e;
     enableMetaDataTagging := enableMetaDataTagging e;
     warningHandlerStack := warningHandlerStack e; refMan := refMan e;
     objects := objects e; delivered := delivered e |}.

Definition SetMetaDataTagging (enabled : bool) (e : t) : t :=
  {| version := version e;
     applicationName := applicationName e;
     applicationVersion := applicationVersion e;
     applicationDescription := applicationDescription e;
     warningManager := warningManager e; warningLevel := warningLevel e;
     enableMetaDataTagging := enabled;
     warningHandlerStack := warningHandlerStack e; refMan := refMan e;
     objects := objects e; delivered := delivered e |}.

Definition GetRunningSoftwareInformation (e : t) : String.string :=
  if enableMetaDataTagging e
  then
    let hasAppName := negb (String.length (applicationName e) =? 0)%nat in
    let infoOut := (if hasAppName then applicationName e else "RenderWare (generic)")%string in
    let infoOut := (infoOut ++ (" [rwver: " ++ toString (version e) ++ "]"))%string in
    let infoOut :=
      if hasAppName && negb (String.length (applicationVersion e) =? 0)%nat
      then (infoOut ++ (" version: " ++ applicationVersion e))%string
      else infoOut in
    if negb (String.length (applicationDescription e) =? 0)%nat
    then (infoOut ++ (" " ++ applicationDescription e))%string
    else infoOut
  else ""%string.

Definition SetWarningManager (warningMan : option positive) (e : t) : t :=
  {| version := version e;
     applicationName := applicationName e;
     applicationVersion := applicationVersion e;
     applicationDescription := applicationDescription e;
     warningManager := warningMan; warningLevel := warningLevel e;
     enableMetaDataTagging := enableMetaDataTagging e;
     warningHandlerStack := warningHandlerStack e; refMan := refMan e;
     objects := objects e; delivered := delivered e |}.

Definition SetWarningLevel (level : Z) (e : t) : t :=
  {| version := version e;
     applicationName := applicationName e;
     applicationVersion := applicationVersion e;
     applicationDescription := applicationDescription e;
     warningManager := warningManager e; warningLevel := level;
     enableMetaDataTagging := enableMetaDataTagging e;
     warningHandlerStack := warningHandlerStack e; refMan := refMan e;
     objects := objects e; delivered := delivered e |}.

Definition with_delivered (log : list (receiver * String.string)) (e : t) : t :=
  {| version := version e;
     applicationName := applicationName e;
     applicationVersion := applicationVersion e;
     applicationDescription := applicationDescription e;
     warningManager := warningManager e; warningLevel := warningLevel e;
     enableMetaDataTagging := enableMetaDataTagging e;
     warningHandlerStack := warningHandlerStack e; refMan := refMan e;
     objects := objects e; delivered := log |}.

(** [OnWarningMessage] of a handler and [OnWarning] of the manager. *)
Definition deliver (to : receiver) (message : String.string) (e : t) : t :=
  with_delivered ((to, message) :: delivered e) e.

Definition with_warningHandlerStack (stack : list (option positive)) (e : t) : t :=
  {| version := version e;
     applicationName := applicationName e;
     applicationVersion := applicationVersion e;
     applicationDescription := applicationDescription e;
     warningManager := warningManager e; warningLevel := warningLevel e;
     enableMetaDataTagging := enableMetaDataTagging e;
     warningHandlerStack := Some stack; refMan := refMan e;
     objects := objects e; delivered := delivered e |}.

Definition with_objects (objs : gmap positive (option Z)) (e : t) : t :=
  {| version := version e;
     applicationName := applicationName e;
     applicationVersion := applicationVersion e;
     applicationDescription := applicationDescription e;
     warningManager := warningManager e; warningLevel := warningLevel e;
     enableMetaDataTagging := enableMetaDataTagging e;
     warningHandlerStack := warningHandlerStack e; refMan := refMan e;
     objects := objs; delivered := delivered e |}.

(** The handler at the back of the stack, if the stack has one and it is not
    NULL. *)
Definition currentWarningHandler (e : t) : option positive :=
  match warningHandlerStack e with
  | Some stack => match last stack with Some h => h | None => None end
  | None => None
  end.

Definition PushWarning (message : String.string) (e : t) : t :=
  if 0 <? warningLevel e
  then
    match currentWarningHandler e with
    | Some h => deliver (to_handler h) message e
    | None =>
        match warningManager e with
        | Some warningMan => deliver (to_manager warningMan) message e
        | None => e
        end
    end
  else e.

Definition GlobalPushWarningHandler (theHandler : option positive) (e : t) : t :=
  match warningHandlerStack e with
  | Some stack => with_warningHandlerStack (stack ++ [theHandler]) e
  | None => e
  end.

(** [None] is the failure of the assertion that the stack is not empty. *)
Definition GlobalPopWarningHandler (e : t) : option t :=
  match warningHandlerStack e with
  | Some stack =>
      if (length stack =? 0)%nat then None
      else Some (with_warningHandlerStack (removelast stack) e)
  | None => Some e
  end.

(** ** Reference counts *)

(** [refCountPlugin::AddRef] and [RemoveRef] on the count itself. *)
Definition AddRef (refCount : Z) : Z := (refCount + 1) mod ulong_max.

Definition RemoveRef (refCount : Z) : bool * Z :=
  let refCount := (refCount - 1) mod ulong_max in
  (refCount =? 0, refCount).

(** The plugin struct of an object: there is one when the engine has the
    reference count plugin and the object has the struct. *)
Definition GetPluginStruct (obj : positive) (e : t) : option Z :=
  if refMan e then match objects e !! obj with Some plugin => plugin | None => None end
  else None.

Definition AcquireObject (obj : positive) (e : t) : t :=
  match GetPluginStruct obj e with
  | Some refCount => with_objects (<[obj := Some (AddRef refCount)]> (objects e)) e
  | None => e
  end.

(** The type system destroys an object by taking it out of [objects]. *)
Definition DeleteRwObject (obj : positive) (e : t) : t :=
  match objects e !! obj with
  | Some plugin =>
      let '(canDestroy, plugin) :=
        match (if refMan e then plugin else None) with
        | Some refCount =>
            let '(isZero, refCount) := RemoveRef refCount in (isZero, Some refCount)
        | None => (true, plugin)
        end in
      if canDestroy then with_objects (delete obj (objects e)) e
      else with_objects (<[obj := plugin]> (objects e)) e
  | None => e
  end.

Definition ReleaseObject (obj : positive) (e : t) : t :=
  match GetPluginStruct obj e with
  | Some _ => DeleteRwObject obj e
  | None => e
  end.

Definition GetRefCount (obj : positive) (e : t) : Z :=
  match GetPluginStruct obj e with
  | Some refCount => refCount mod 2 ^ 32
  | None => 1
  end.

End Engine.

Arguments version {LibraryVersion} _.
Arguments applicationName {LibraryVersion} _.
Arguments applicationVersion {LibraryVersion} _.
Arguments applicationDescription {LibraryVersion} _.
Arguments warningManager {LibraryVersion} _.
Arguments warningLevel {LibraryVersion} _.
Arguments enableMetaDataTagging {LibraryVersion} _.
Arguments warningHandlerStack {LibraryVersion} _.
Arguments refMan {LibraryVersion} _.
Arguments objects {LibraryVersion} _.
Arguments delivered {LibraryVersion} _.
Arguments Interface {LibraryVersion} _ _ _.
Arguments SetApplicationInfo {LibraryVersion} _ _.
Arguments SetMetaDataTagging {LibraryVersion} _ _.
Arguments GetRunningSoftwareInformation {LibraryVersion} _ _.
Arguments SetWarningManager {LibraryVersion} _ _.
Arguments SetWarningLevel {LibraryVersion} _ _.
Arguments with_delivered {LibraryVersion} _ _.
Arguments deliver {LibraryVersion} _ _ _.
Arguments with_warningHandlerStack {LibraryVersion} _ _.
Arguments with_objects {LibraryVersion} _ _.
Arguments currentWarningHandler {LibraryVersion} _.
Arguments PushWarning {LibraryVersion} _ _.
Arguments GlobalPushWarningHandler {LibraryVersion} _ _.
Arguments GlobalPopWarningHandler {LibraryVersion} _.
Arguments GetPluginStruct {LibraryVersion} _ _.
Arguments AcquireObject {LibraryVersion} _ _ _.
Arguments DeleteRwObject {LibraryVersion} _ _ _.
Arguments ReleaseObject {LibraryVersion} _ _ _.
Arguments GetRefCount {LibraryVersion} _ _.

End EngineInterface.

Section PVR.

(** Parts of the library that the sources at hand only call.  The float
    overloads of [destscalecolorf] act on the 32 bits of an IEEE single;
    [rgb2lum] is the luma conversion of pixelutil.hxx.  A member that the
    source leaves uninitialised holds [indeterminate]. *)
Variable destscalecolorf : Z -> Z.
Variable destscalecolorf_store : Z -> Z.
Variable rgb2lum : Z -> Z -> Z -> Z.
Variable indeterminate : Z.

(** A lemma depends on the parameters that its statement names. *)
Set Default Proof Using "Type".

(** *** pvrColorDispatcher::browsetexelrgba

    Each branch names the members of its [struct color] in declaration
    order. *)
Definition browsetexelrgba (e : endianness) (srcTexels : list Z) (colorIndex : Z)
    (pixelFormat : ePVRLegacyPixelFormat.t) (out : rgba_refs) : bool * rgba_refs :=
  if case_of pixelFormat [ ARGB_4444; ARGB_4444_SEC ] then
    let '(alpha, blue, green, red) := load4 e [4; 4; 4; 4] srcTexels colorIndex in
    let out := set_alphaOut (destscalecolor alpha 15) out in
    let out := set_redOut (destscalecolor red 15) out in
    let out := set_greenOut (destscalecolor green 15) out in
    let out := set_blueOut (destscalecolor blue 15) out in
    (true, out)
  else if case_of pixelFormat [ ARGB_1555; ARGB_1555_SEC ] then
    let '(alpha, blue, green, red) := load4 e [1; 5; 5; 5] srcTexels colorIndex in
    let out := set_alphaOut (if alpha =? 0 then 0 else 255) out in
    let out := set_redOut (destscalecolor red 31) out in
    let out := set_greenOut (destscalecolor green 31) out in
    let out := set_blueOut (destscalecolor blue 31) out in
    (true, out)
  else if case_of pixelFormat [ RGB_565; RGB_565_SEC ] then
    let '(blue, green, red) := load3 e [5; 6; 5] srcTexels colorIndex in
    let out := set_redOut (destscalecolor red 31) out in
    let out := set_greenOut (destscalecolor green 63) out in
    let out := set_blueOut (destscalecolor blue 31) out in
    let out := set_alphaOut 255 out in
    (true, out)
  else if case_of pixelFormat [ RGB_555; RGB_555_SEC ] then
    let '(unused, blue, green, red) := load4 e [1; 5; 5; 5] srcTexels colorIndex in
    let out := set_redOut (destscalecolor red 31) out in
    let out := set_greenOut (destscalecolor green 31) out in
    let out := set_blueOut (destscalecolor blue 31) out in
    let out := set_alphaOut 255 out in
    (true, out)
  else if case_of pixelFormat [ RGB_888; RGB_888_SEC ] then
    let '(blue, green, red) := load3 e [8; 8; 8] srcTexels colorIndex in
    let out := set_redOut (destscalecolor red 255) out in
    let out := set_greenOut (destscalecolor green 255) out in
    let out := set_blueOut (destscalecolor blue 255) out in
    let out := set_alphaOut 255 out in
    (true, out)
  else if case_of pixelFormat [ ARGB_8888; ARGB_8888_SEC ] then
    let '(red, green, blue, alpha) := load4 e [8; 8; 8; 8] srcTexels colorIndex in
    let out := set_alphaOut (destscalecolor alpha 255) out in
    let out := set_redOut (destscalecolor red 255) out in
    let out := set_greenOut (destscalecolor green 255) out in
    let out := set_blueOut (destscalecolor blue 255) out in
    (true, out)
  else if case_of pixelFormat [ ARGB_8332 ] then
    let '(alpha, red, green, blue) := load4 e [8; 3; 3; 2] srcTexels colorIndex in
    let out := set_alphaOut (destscalecolor alpha 255) out in
    let out := set_redOut (destscalecolor red 7) out in
    let out := set_greenOut (destscalecolor green 7) out in
    let out := set_blueOut (destscalecolor blue 3) out in
    (true, out)
  else if case_of pixelFormat [ BGRA_8888 ] then
    let '(blue, green, red, alpha) := load4 e [8; 8; 8; 8] srcTexels colorIndex in
    let out := set_blueOut (destscalecolor blue 255) out in
    let out := set_greenOut (destscalecolor green 255) out in
    let out := set_redOut (destscalecolor red 255) out in
    let out := set_alphaOut (destscalecolor alpha 255) out in
    (true, out)
  else if case_of pixelFormat [ RGB332 ] then
    let '(red, green, blue) := load3 e [3; 3; 2] srcTexels colorIndex in
    let out := set_redOut (destscalecolor red 7) out in
    let out := set_greenOut (destscalecolor green 7) out in
    let out := set_blueOut (destscalecolor blue 3) out in
    let out := set_alphaOut 255 out in
    (true, out)
  else if case_of pixelFormat [ ABGR_2101010 ] then
    let '(alpha, red, green, blue) := load4 e [2; 10; 10; 10] srcTexels colorIndex in
    let out := set_alphaOut (destscalecolor alpha 3) out in
    let out := set_redOut (destscalecolor red 1023) out in
    let out := set_greenOut (destscalecolor green 1023) out in
    let out := set_blueOut (destscalecolor blue 1023) out in
    (true, out)
  else if case_of pixelFormat [ ARGB_2101010 ] then
    let '(alpha, blue, green, red) := load4 e [2; 10; 10; 10] srcTexels colorIndex in
    let out := set_alphaOut (destscalecolor alpha 3) out in
    let out := set_redOut (destscalecolor red 1023) out in
    let out := set_greenOut (destscalecolor green 1023) out in
    let out := set_blueOut (destscalecolor blue 1023) out in
    (true, out)
  else if case_of pixelFormat [ GR_1616 ] then
    let '(green, red) := load2 e [16; 16] srcTexels colorIndex in
    let out := set_greenOut (destscalecolor green 65535) out in
    let out := set_redOut (destscalecolor red 65535) out in
    let out := set_blueOut 0 out in
    let out := set_alphaOut 255 out in
    (true, out)
  else if case_of pixelFormat [ ABGR_16161616 ] then
    let '(alpha, blue, green, red) := load4 e [16; 16; 16; 16] srcTexels colorIndex in
    let out := set_alphaOut (destscalecolor alpha 65535) out in
    let out := set_blueOut (destscalecolor blue 65535) out in
    let out := set_greenOut (destscalecolor green 65535) out in
    let out := set_blueOut (destscalecolor blue 65535) out in
    (true, out)
  else if case_of pixelFormat [ R_32F ] then
    let red := load1 e [32] srcTexels colorIndex in
    let out := set_redOut (destscalecolorf red) out in
    let out := set_blueOut 0 out in
    let out := set_greenOut 0 out in
    let out := set_alphaOut 255 out in
    (true, out)
  else if case_of pixelFormat [ GR_3232F ] then
    let '(green, red) := load2 e [32; 32] srcTexels colorIndex in
    let out := set_greenOut (destscalecolorf green) out in
    let out := set_redOut (destscalecolorf red) out in
    let out := set_blueOut 0 out in
    let out := set_alphaOut 255 out in
    (true, out)
  else if case_of pixelFormat [ ABGR_32323232F ] then
    let '(alpha, blue, green, red) := load4 e [32; 32; 32; 32] srcTexels colorIndex in
    let out := set_alphaOut (destscalecolorf alpha) out in
    let out := set_blueOut (destscalecolorf blue) out in
    let out := set_greenOut (destscalecolorf green) out in
    let out := set_redOut (destscalecolorf red) out in
    (true, out)
  else if case_of pixelFormat [ A8 ] then
    let alpha := load1 e [8] srcTexels colorIndex in
    let out := set_alphaOut (destscalecolor alpha 255) out in
    let out := set_redOut 0 out in
    let out := set_greenOut 0 out in
    let out := set_blueOut 0 out in
    (true, out)
  else (false, out).

(** *** pvrColorDispatcher::puttexelrgba

    The stored item lists the members in the declaration order of the
    branch's own [struct color]. *)
Definition puttexelrgba (e : endianness) (dstTexels : list Z) (colorIndex : Z)
    (pixelFormat : ePVRLegacyPixelFormat.t) (red green blue alpha : Z) : bool * list Z :=
  if case_of pixelFormat [ ARGB_4444; ARGB_4444_SEC ] then
    (true, store_item e [4; 4; 4; 4] dstTexels colorIndex
       [ putscalecolor alpha 15; putscalecolor blue 15;
         putscalecolor green 15; putscalecolor red 15 ])
  else if case_of pixelFormat [ ARGB_1555; ARGB_1555_SEC ] then
    (true, store_item e [1; 5; 5; 5] dstTexels colorIndex
       [ (if alpha =? 255 then 1 else 0); putscalecolor blue 31;
         putscalecolor green 31; putscalecolor red 31 ])
  else if case_of pixelFormat [ RGB_565; RGB_565_SEC ] then
    (true, store_item e [5; 6; 5] dstTexels colorIndex
       [ putscalecolor blue 31; putscalecolor green 63; putscalecolor red 31 ])
  else if case_of pixelFormat [ RGB_555; RGB_555_SEC ] then
    (true, store_item e [1; 5; 5; 5] dstTexels colorIndex
       [ indeterminate; putscalecolor blue 31;
         putscalecolor green 31; putscalecolor red 31 ])
  else if case_of pixelFormat [ RGB_888; RGB_888_SEC ] then
    (true, store_item e [8; 8; 8] dstTexels colorIndex
       [ putscalecolor red 255; putscalecolor green 255; putscalecolor blue 255 ])
  else if case_of pixelFormat [ ARGB_8888; ARGB_8888_SEC ] then
    (true, store_item e [8; 8; 8; 8] dstTexels colorIndex
       [ putscalecolor red 255; putscalecolor green 255;
         putscalecolor blue 255; putscalecolor alpha 255 ])
  else if case_of pixelFormat [ ARGB_8332 ] then
    (true, store_item e [8; 3; 3; 2] dstTexels colorIndex
       [ putscalecolor alpha 255; putscalecolor red 7;
         putscalecolor green 7; putscalecolor blue 3 ])
  else if case_of pixelFormat [ BGRA_8888 ] then
    (true, store_item e [8; 8; 8; 8] dstTexels colorIndex
       [ putscalecolor blue 255; putscalecolor green 255;
         putscalecolor red 255; putscalecolor alpha 255 ])
  else if case_of pixelFormat [ RGB332 ] then
    (true, store_item e [3; 3; 2] dstTexels colorIndex
       [ putscalecolor red 7; putscalecolor green 7; putscalecolor blue 3 ])
  else if case_of pixelFormat [ ABGR_2101010 ] then
    (true, store_item e [2; 10; 10; 10] dstTexels colorIndex
       [ putscalecolor alpha 3; putscalecolor blue 1023;
         putscalecolor green 1023; putscalecolor red 1023 ])
  else if case_of pixelFormat [ ARGB_2101010 ] then
    (true, store_item e [2; 10; 10; 10] dstTexels colorIndex
       [ putscalecolor alpha 3; putscalecolor red 1023;
         putscalecolor green 1023; putscalecolor blue 1023 ])
  else if case_of pixelFormat [ GR_1616 ] then
    (true, store_item e [16; 16] dstTexels colorIndex
       [ putscalecolor green 65535; putscalecolor red 65535 ])
  else if case_of pixelFormat [ ABGR_16161616 ] then
    (true, store_item e [16; 16; 16; 16] dstTexels colorIndex
       [ putscalecolor alpha 65535; putscalecolor blue 65535;
         putscalecolor green 65535; putscalecolor red 65535 ])
  else if case_of pixelFormat [ R_32F ] then
    (true, store_item e [32] dstTexels colorIndex [ destscalecolorf_store red ])
  else if case_of pixelFormat [ GR_3232F ] then
    (true, store_item e [32; 32] dstTexels colorIndex
       [ destscalecolorf_store green; destscalecolorf_store red ])
  else if case_of pixelFormat [ ABGR_32323232F ] then
    (true, store_item e [32; 32; 32; 32] dstTexels colorIndex
       [ destscalecolorf_store alpha; destscalecolorf_store blue;
         destscalecolorf_store green; destscalecolorf_store red ])
  else (false, dstTexels).

(** *** pvrColorDispatcher::browsetexellum and puttexellum *)
Definition browsetexellum (e : endianness) (srcTexels : list Z) (colorIndex : Z)
    (pixelFormat : ePVRLegacyPixelFormat.t) (out : lum_refs) : bool * lum_refs :=
  if case_of pixelFormat [ I8; I8_SEC; L8 ] then
    let intensity := load1 e [8] srcTexels colorIndex in
    (true, {| lumOut := destscalecolor intensity 255; lumAlphaOut := 255 |})
  else if case_of pixelFormat [ AI88; AI88_SEC; AL_88 ] then
    let '(intensity, alpha) := load2 e [8; 8] srcTexels colorIndex in
    (true, {| lumOut := destscalecolor intensity 255;
              lumAlphaOut := destscalecolor alpha 255 |})
  else if case_of pixelFormat [ AL_44 ] then
    let '(luminance, alpha) := load2 e [4; 4] srcTexels colorIndex in
    (true, {| lumOut := destscalecolor luminance 15;
              lumAlphaOut := destscalecolor alpha 15 |})
  else if case_of pixelFormat [ L16 ] then
    let luminance := load1 e [16] srcTexels colorIndex in
    (true, {| lumOut := destscalecolor luminance 65535; lumAlphaOut := 255 |})
  else (false, out).

Definition puttexellum (e : endianness) (dstTexels : list Z) (colorIndex : Z)
    (pixelFormat : ePVRLegacyPixelFormat.t) (lum alpha : Z) : bool * list Z :=
  if case_of pixelFormat [ I8; I8_SEC; L8 ] then
    (true, store_item e [8] dstTexels colorIndex [ putscalecolor lum 255 ])
  else if case_of pixelFormat [ AI88; AI88_SEC; AL_88 ] then
    (true, store_item e [8; 8] dstTexels colorIndex
       [ putscalecolor lum 255; putscalecolor alpha 255 ])
  else if case_of pixelFormat [ AL_44 ] then
    (true, store_item e [4; 4] dstTexels colorIndex
       [ putscalecolor lum 15; putscalecolor alpha 15 ])
  else if case_of pixelFormat [ L16 ] then
    (true, store_item e [16] dstTexels colorIndex [ putscalecolor lum 65535 ])
  else (false, dstTexels).

(** *** The public fetch and store methods

    [getRGBA] and [getLuminance] call each other, each from the branch of the
    colour model the other one handles itself; [getLuminance_LUMINANCE] is
    the branch of [getLuminance] that [getRGBA] reaches. *)
Definition getLuminance_LUMINANCE (d : pvrColorDispatcher) (srcTexels : list Z)
    (colorIndex : Z) (out : lum_refs) : bool * lum_refs :=
  browsetexellum (endianness_of (isLittleEndian d)) srcTexels colorIndex (pixelFormat d) out.

Definition getRGBA (d : pvrColorDispatcher) (srcTexels : list Z) (colorIndex : Z)
    (out : rgba_refs) : result (bool * rgba_refs) :=
  match colorModel d with
  | RGBA =>
      Ok (browsetexelrgba (endianness_of (isLittleEndian d)) srcTexels colorIndex
            (pixelFormat d) out)
  | LUMINANCE =>
      let '(gotColor, l) :=
        getLuminance_LUMINANCE d srcTexels colorIndex
          {| lumOut := indeterminate; lumAlphaOut := alphaOut out |} in
      let out := set_alphaOut (lumAlphaOut l) out in
      if gotColor
      then Ok (gotColor,
               set_blueOut (lumOut l) (set_greenOut (lumOut l) (set_redOut (lumOut l) out)))
      else Ok (gotColor, out)
  | _ => Throw "invalid color model in RGBA pixel fetch algorithm of PVR native image data"
  end.

Definition getLuminance (d : pvrColorDispatcher) (srcTexels : list Z) (colorIndex : Z)
    (out : lum_refs) : result (bool * lum_refs) :=
  match colorModel d with
  | RGBA =>
      match getRGBA d srcTexels colorIndex
              {| redOut := indeterminate; greenOut := indeterminate;
                 blueOut := indeterminate; alphaOut := lumAlphaOut out |} with
      | Ok (gotColor, c) =>
          if gotColor
          then Ok (gotColor, {| lumOut := rgb2lum (redOut c) (greenOut c) (blueOut c);
                                lumAlphaOut := alphaOut c |})
          else Ok (gotColor, {| lumOut := lumOut out; lumAlphaOut := alphaOut c |})
      | Throw what => Throw what
      end
  | LUMINANCE => Ok (getLuminance_LUMINANCE d srcTexels colorIndex out)
  | _ => Throw "invalid color model in LUM pixel fetch algorithm of PVR native image data"
  end.

(** The luminance branch of [setRGBA] computes [lum] and then sets
    [didPut = false] without touching [dstTexels]. *)
Definition setRGBA (d : pvrColorDispatcher) (dstTexels : list Z) (colorIndex : Z)
    (red green blue alpha : Z) : result (bool * list Z) :=
  match colorModel d with
  | RGBA =>
      Ok (puttexelrgba (endianness_of (isLittleEndian d)) dstTexels colorIndex
            (pixelFormat d) red green blue alpha)
  | LUMINANCE =>
      let lum := rgb2lum red green blue in
      Ok (false, dstTexels)
  | _ => Throw "invalid color model in RGBA pixel set algorithm of PVR native image data"
  end.

Definition setLuminance (d : pvrColorDispatcher) (dstTexels : list Z) (colorIndex : Z)
    (lum alpha : Z) : result (bool * list Z) :=
  match colorModel d with
  | RGBA => setRGBA d dstTexels colorIndex lum lum lum alpha
  | LUMINANCE =>
      Ok (puttexellum (endianness_of (isLittleEndian d)) dstTexels colorIndex
            (pixelFormat d) lum alpha)
  | _ => Throw "invalid color model in LUM pixel put algorithm of PVR native image data"
  end.

(** The dispatcher the library builds for a format, as in
    [pvrColorDispatcher dstDispatch( pvrPixelFormat, pvrColorModel, isLittleEndian )]. *)
Definition dispatcher_for (format : ePVRLegacyPixelFormat.t) (isLE : bool) : pvrColorDispatcher :=
  {| pixelFormat := format;
     colorModel := getPVRLegacyPixelFormatType format;
     isLittleEndian := isLE |}.

(** ** Surface dimensions and data sizes *)

Definition uint32_max : Z := 2 ^ 32.

(** What a [uint32] holds of a number that is stored in it. *)
Definition uint32 (n : Z) : Z := n mod uint32_max.

(** Modelled from the spec: the macro [ALIGN_SIZE] is not among the sources.
    Section 4.5: "rounds up to the nearest multiple of" the sector.  The
    formula is that of the spec, over unbounded integers; the [uint32] that
    this file stores its result in takes it modulo 2^32. *)
Definition ALIGN_SIZE (num sector : Z) : Z := (num + sector - 1) / sector * sector.

(** Modelled from the spec: [getRasterDataRowSize] and
    [getRasterDataSizeByRowSize] are not among the sources.  Section 4.5:
    "rowSize(surfWidth, bitDepth) = ceil(surfWidth * bitDepth / 8)", padded to
    the row alignment, and "layerDataSize = rowSize x surfHeight".  Here too
    the formulas are over unbounded integers and the [uint32] results and
    locals of this file take them modulo 2^32. *)
Definition getRasterDataRowSize (planeWidth depth alignment : Z) : Z :=
  ALIGN_SIZE (ALIGN_SIZE (planeWidth * depth) 8 / 8) alignment.

Definition getRasterDataSizeByRowSize (rowSize height : Z) : Z := rowSize * height.

Definition getPVRNativeImageRasterDataRowSize (surfWidth depth : Z) : Z :=
  uint32 (getRasterDataRowSize surfWidth depth getPVRNativeImageRowAlignment).

(** The block dimensions of the PVRTC formats by bit depth; the function is
    not among the sources and stays a parameter. *)
Variable getPVRCompressionBlockDimensions : Z -> Z * Z.

Definition getPVRLegacyFormatSurfaceDimensions (format : ePVRLegacyPixelFormat.t)
    (layerWidth layerHeight : Z) : Z * Z :=
  if case_of format [ V_Y1_U_Y0; Y1_V_Y0_U; UYVY; YUY2 ] then
    (uint32 (ALIGN_SIZE layerWidth 2), uint32 (ALIGN_SIZE layerHeight 2))
  else if case_of format [ DXT1; DXT2; DXT3; DXT4; DXT5; ETC ] then
    (uint32 (ALIGN_SIZE layerWidth 4), uint32 (ALIGN_SIZE layerHeight 4))
  else if case_of format [ PVRTC2; PVRTC4; PVRTC2_SEC; PVRTC4_SEC ] then
    let '(comprBlockWidth, comprBlockHeight) :=
      getPVRCompressionBlockDimensions (getPVRLegacyFormatDepth format) in
    (uint32 (ALIGN_SIZE layerWidth comprBlockWidth),
     uint32 (ALIGN_SIZE layerHeight comprBlockHeight))
  else (layerWidth, layerHeight).

(** Modelled from the spec: [mipGenLevelGenerator] is not among the sources.
    Section 4.5: "a standard base-width/height halving-with-floor-at-1
    generator"; a level is valid when neither dimension is zero, and no
    further level exists below 1 x 1. *)
Record mipGenLevelGenerator := { getLevelWidth : Z; getLevelHeight : Z }.

Definition isValidLevel (g : mipGenLevelGenerator) : bool :=
  negb (getLevelWidth g =? 0) && negb (getLevelHeight g =? 0).

Definition incrementLevel (g : mipGenLevelGenerator) : bool * mipGenLevelGenerator :=
  if (getLevelWidth g =? 1) && (getLevelHeight g =? 1)
  then (false, g)
  else (true, {| getLevelWidth := Z.max 1 (getLevelWidth g / 2);
                 getLevelHeight := Z.max 1 (getLevelHeight g / 2) |}).

(** Modelled from the spec: [nativeTextureSizeRules::IsMipmapSizeValid] is not
    among the sources.  Section 4.6, for the rules [powerOfTwo] and [squared]:
    "width and height must both be an equal power of two". *)
Definition is_power_of_two (n : Z) : bool := (0 <? n) && (2 ^ Z.log2 n =? n).

Definition IsMipmapSizeValid_pot_squared (width height : Z) : bool :=
  is_power_of_two width && is_power_of_two height && (width =? height).

(** ** The legacy header *)

Definition readStreamStruct (size : Z) (inputStream : Stream) : option (list Z) * Stream :=
  let '(bytes, rest) := stream_read size inputStream in
  (if Z.of_nat (length bytes) =? size then Some bytes else None, rest).

(** The fields that [pvr_header_ver1] and [pvr_header_ver2] share, each an
    [endianness <uint32>] at four times its position. *)
Definition header_u32 (e : endianness) (header : list Z) (k : nat) : Z :=
  endian_load e (take 4 (drop (4 * k) header)).

Definition header_fields (e : endianness) (header : list Z) (isLE : bool) : legacy_header :=
  {| heightOut := header_u32 e header 0;
     widthOut := header_u32 e header 1;
     mipmapCountOut := header_u32 e header 2;
     formatFieldOut := pvr_legacy_formatField.of_word (header_u32 e header 3);
     surfaceSizeOut := header_u32 e header 4;
     bitsPerPixelOut := header_u32 e header 5;
     redMaskOut := header_u32 e header 6;
     greenMaskOut := header_u32 e header 7;
     blueMaskOut := header_u32 e header 8;
     alphaMaskOut := header_u32 e header 9;
     isLittleEndianOut := isLE |}.

Definition pvr_id (e : endianness) (header : list Z) : Z := header_u32 e header 10.

Definition read_ver1 (e : endianness) (isLE : bool) (s : Stream) : option legacy_header * Stream :=
  match readStreamStruct 40 s with
  | (None, s') => (None, s')
  | (Some header, s') => (Some (header_fields e header isLE), s')
  end.

Definition read_ver2 (e : endianness) (isLE : bool) (s : Stream) : option legacy_header * Stream :=
  match readStreamStruct 48 s with
  | (None, s') => (None, s')
  | (Some header, s') =>
      if negb (pvr_id e header =? 0x21525650)
      then (None, s')
      else (Some (header_fields e header isLE), s')
  end.

(** [header_data_union] declares both [le_header_size] and [be_header_size]
    as [endian::little_endian <uint32>] over the same four bytes; the model
    reads each member through the type it is declared with.  [None] is the
    result [false]. *)
Definition readLegacyVersionHeader (inputStream : Stream) : option legacy_header * Stream :=
  match readStreamStruct 4 inputStream with
  | (None, s) => (None, s)
  | (Some header_size_data, s) =>
      let le_header_size := endian_load little_endian header_size_data in
      let be_header_size := endian_load little_endian header_size_data in
      if le_header_size =? 44 then read_ver1 little_endian true s
      else if le_header_size =? 52 then read_ver2 little_endian true s
      else if be_header_size =? 44 then read_ver1 big_endian false s
      else if be_header_size =? 52 then read_ver2 big_endian false s
      else (None, s)
  end.

(** ** ReadNativeImage *)

(** What a call works on: the engine interface, the native image behind
    [imageMem] and the input stream.  A computation returns its result or the
    exception thrown, and the state reached at that point. *)
Record machine := {
  engine : Interface.t;
  image : pvrNativeImage.t;
  input : Stream
}.

(** Computations over a state [St] that return or throw. *)
Definition M (St A : Type) : Type := St -> result A * St.

Definition ret {St A} (a : A) : M St A := fun m => (Ok a, m).

Definition bind {St A B} (c : M St A) (k : A -> M St B) : M St B :=
  fun m => match c m with
           | (Ok a, m') => k a m'
           | (Throw what, m') => (Throw what, m')
           end.

Definition throw {St A} (what : String.string) : M St A := fun m => (Throw what, m).

(** [try { c } catch( ... ) { handler; throw; }] *)
Definition try_catch_rethrow {St A} (c : M St A) (handler : St -> St) : M St A :=
  fun m => match c m with
           | (Ok a, m') => (Ok a, m')
           | (Throw what, m') => (Throw what, handler m')
           end.

Notation "x <- c ;; k" := (bind c (fun x => k))
  (at level 100, c at next level, right associativity).
Notation "c ;;; k" := (bind c (fun _ => k))
  (at level 100, right associativity).

Definition when {St} (b : bool) (c : M St unit) : M St unit := if b then c else ret tt.

Definition with_engine {A} (f : Interface.t -> A * Interface.t) : M machine A :=
  fun m => let '(a, e) := f (engine m) in
           (Ok a, {| engine := e; image := image m; input := input m |}).

Definition PushWarning (msg : String.string) : M machine unit :=
  with_engine (fun e => (tt, Interface.PushWarning msg e)).

Definition PixelAllocate (size : Z) : M machine (option positive) :=
  with_engine (Interface.PixelAllocate indeterminate size).

Definition PixelFree (p : positive) : M machine unit :=
  with_engine (fun e => (tt, Interface.PixelFree p e)).

Definition with_input {A} (f : Stream -> A * Stream) : M machine A :=
  fun m => let '(a, s) := f (input m) in
           (Ok a, {| engine := engine m; image := image m; input := s |}).

Definition update_image (f : pvrNativeImage.t -> pvrNativeImage.t) : M machine unit :=
  fun m => (Ok tt, {| engine := engine m; image := f (image m); input := input m |}).

(** Modelled from the spec: [checkAhead] is not among the sources.
    Section 4.6: "reject if the stream has insufficient remaining bytes". *)
Definition checkAhead (count : Z) : M machine unit :=
  fun m => if Z.of_nat (length (input m)) <? count
           then (Throw "stream does not hold the bytes that are to be read", m)
           else (Ok tt, m).

(** [inputStream->read( mipTexels, texDataSize )]: the bytes go to the block
    and their number is returned. *)
Definition read_into (mipTexels : positive) (count : Z) : M machine Z :=
  fun m => let '(bytes, rest) := stream_read count (input m) in
           (Ok (Z.of_nat (length bytes)),
            {| engine := Interface.write mipTexels bytes (engine m);
               image := image m; input := rest |}).

(** The body of [while ( mip_index < mipmapCount )]; [n] counts the
    iterations that [mip_index] is still away from [mipmapCount].  The result
    is what the code after the loop reads: [remaining_surfDataSize] and
    [mip_index]. *)
Fixpoint read_levels (n : nat) (pixelFormat format_bitDepth : Z)
    (mipGen : mipGenLevelGenerator) (remaining_surfDataSize mip_index : Z) : M machine (Z * Z) :=
  match n with
  | O => ret (remaining_surfDataSize, mip_index)
  | S n' =>
      let '(didEstablishLevel, mipGen) :=
        if negb (mip_index =? 0) then incrementLevel mipGen else (true, mipGen) in
      if negb didEstablishLevel then ret (remaining_surfDataSize, mip_index)
      else
        let mipLayerWidth := getLevelWidth mipGen in
        let mipLayerHeight := getLevelHeight mipGen in
        let '(mipSurfWidth, mipSurfHeight) :=
          getPVRLegacyFormatSurfaceDimensions pixelFormat mipLayerWidth mipLayerHeight in
        let texRowSize := getPVRNativeImageRasterDataRowSize mipSurfWidth format_bitDepth in
        let texDataSize := uint32 (getRasterDataSizeByRowSize texRowSize mipSurfHeight) in
        if remaining_surfDataSize <? texDataSize
        then throw "too little surface data in PVR native image"
        else
          let remaining_surfDataSize := remaining_surfDataSize - texDataSize in
          checkAhead texDataSize ;;;
          mipTexels <- PixelAllocate texDataSize ;;
          match mipTexels with
          | None => throw "failed to allocate mipmap surface in PVR native image deserialization"
          | Some block =>
              readCount <- read_into block texDataSize ;;
              (if negb (readCount =? texDataSize)
               then PixelFree block ;;;
                    throw "impartial mipmap surface read exception in PVR native image deserialization"
               else update_image (pvrNativeImage.push_back
                      {| mipmapLayer.width := mipSurfWidth;
                         mipmapLayer.height := mipSurfHeight;
                         mipmapLayer.layerWidth := mipLayerWidth;
                         mipmapLayer.layerHeight := mipLayerHeight;
                         mipmapLayer.texels := Some block;
                         mipmapLayer.dataSize := texDataSize |})) ;;;
              read_levels n' pixelFormat format_bitDepth mipGen
                remaining_surfDataSize (mip_index + 1)
          end
  end.

Definition store_properties (pixelFormat : Z) (isTwiddled : bool)
    (formatField : pvr_legacy_formatField.t) (format_bitDepth : Z) (isLittleEndian : bool)
    (natImg : pvrNativeImage.t) : pvrNativeImage.t :=
  {| pvrNativeImage.pixelFormat := pixelFormat;
     pvrNativeImage.dataIsTwiddled := isTwiddled;
     pvrNativeImage.containsNormalData := pvr_legacy_formatField.containsNormalData formatField;
     pvrNativeImage.hasBorder := pvr_legacy_formatField.hasBorder formatField;
     pvrNativeImage.isCubeMap := false;
     pvrNativeImage.mipmapsHaveDebugColoring :=
       pvr_legacy_formatField.mipmapsHaveDebugColoring formatField;
     pvrNativeImage.isVolumeTexture := false;
     pvrNativeImage.hasAlphaChannel_pvrtc :=
       pvr_legacy_formatField.hasAlphaChannel_pvrtc formatField;
     pvrNativeImage.isVerticallyFlipped :=
       pvr_legacy_formatField.isVerticallyFlipped formatField;
     pvrNativeImage.bitDepth := format_bitDepth;
     pvrNativeImage.mipmaps := pvrNativeImage.mipmaps natImg;
     pvrNativeImage.isLittleEndian := isLittleEndian |}.

(** The checks between the header and the stores to the image; [width] and
    [height] are those of the header. *)
Definition verify_properties (formatField : pvr_legacy_formatField.t)
    (width height bitsPerPixel : Z) : M machine unit :=
  let pixelFormat := pvr_legacy_formatField.pixelFormat formatField in
  when (negb (isValidPVRLegacyPixelFormat pixelFormat))
       (throw "invalid PVR native image (legacy) pixel format") ;;;
  let format_bitDepth := getPVRLegacyFormatDepth pixelFormat in
  when (negb (bitsPerPixel =? format_bitDepth))
       (PushWarning "PVR native texture has an invalid bitsPerPixel value") ;;;
  when (pvr_legacy_formatField.isCubeMap formatField)
       (throw "cubemap PVR native images not supported yet") ;;;
  when (pvr_legacy_formatField.isVolumeTexture formatField)
       (throw "volume texture PVR native images not supported yet") ;;;
  when (pvr_legacy_formatField.isVerticallyFlipped formatField)
       (throw "vertically flipped PVR native images not supported yet") ;;;
  let isTwiddled := pvr_legacy_formatField.dataIsTwiddled formatField in
  when isTwiddled
       (when (negb (IsMipmapSizeValid_pot_squared width height))
             (throw "malformed PVR native image: image says it is twiddled but width and height are not POT and squared")) ;;;
  let colorFormatType := getPVRLegacyPixelFormatType pixelFormat in
  when isTwiddled
       (when (match colorFormatType with COMPRESSED => false | _ => true end)
             (throw "twiddled PVR native images are not supported")).

(** The code after the loop: warnings and the skip of the bytes left over. *)
Definition after_levels (mipmapCount : Z) (r : Z * Z) : M machine unit :=
  let '(remaining_surfDataSize, mip_index) := r in
  when (negb (mip_index =? mipmapCount))
       (PushWarning "PVR native image specified more mipmap layers than could be read") ;;;
  when (negb (remaining_surfDataSize =? 0))
       (PushWarning "PVR native image has surface meta-data" ;;;
        with_input (fun s => (tt, stream_skip remaining_surfDataSize s))).

(** The part of [ReadNativeImage] after a header was read. *)
Definition read_body (h : legacy_header) : M machine unit :=
  let width := widthOut h in
  let height := heightOut h in
  let mipmapCount := (mipmapCountOut h + 1) mod uint32_max in
  let formatField := formatFieldOut h in
  let pixelFormat := pvr_legacy_formatField.pixelFormat formatField in
  verify_properties formatField width height (bitsPerPixelOut h) ;;;
  let format_bitDepth := getPVRLegacyFormatDepth pixelFormat in
  let isTwiddled := pvr_legacy_formatField.dataIsTwiddled formatField in
  update_image (store_properties pixelFormat isTwiddled formatField format_bitDepth
                  (isLittleEndianOut h)) ;;;
  let mipGen := {| getLevelWidth := width; getLevelHeight := height |} in
  when (negb (isValidLevel mipGen))
       (throw "invalid image dimensions in PVR native image") ;;;
  r <- read_levels (Z.to_nat mipmapCount) pixelFormat format_bitDepth mipGen
         (surfaceSizeOut h) 0 ;;
  after_levels mipmapCount r.

Definition ReadNativeImage : M machine unit :=
  hasLegacyFormatHeader <- with_input readLegacyVersionHeader ;;
  match hasLegacyFormatHeader with
  | None => throw "invalid PVR native image"
  | Some h => read_body h
  end.

(** ** ReadFromNativeTexture *)

(** The enumerations of the framework are declared in headers that are not
    among the sources; each is given the enumerators this file names and one
    more for all the others. *)
Inductive eRasterFormat :=
| RASTER_DEFAULT | RASTER_1555 | RASTER_565 | RASTER_4444 | RASTER_LUM
| RASTER_8888 | RASTER_888 | RASTER_555 | RASTER_LUM_ALPHA | RASTER_other.

Inductive eColorOrdering := COLOR_RGBA | COLOR_BGRA | COLOR_ABGR.

Inductive ePaletteType := PALETTE_NONE | PALETTE_other.

Inductive eCompressionType :=
| RWCOMPRESS_NONE | RWCOMPRESS_DXT1 | RWCOMPRESS_DXT2 | RWCOMPRESS_DXT3
| RWCOMPRESS_DXT4 | RWCOMPRESS_DXT5 | RWCOMPRESS_other.

Inductive ePVRInternalFormat :=
| GL_COMPRESSED_RGB_PVRTC_2BPPV1_IMG | GL_COMPRESSED_RGBA_PVRTC_2BPPV1_IMG
| GL_COMPRESSED_RGB_PVRTC_4BPPV1_IMG | GL_COMPRESSED_RGBA_PVRTC_4BPPV1_IMG
| GL_other.

Definition is_RASTER (a b : eRasterFormat) : bool :=
  match a, b with
  | RASTER_DEFAULT, RASTER_DEFAULT | RASTER_1555, RASTER_1555
  | RASTER_565, RASTER_565 | RASTER_4444, RASTER_4444 | RASTER_LUM, RASTER_LUM
  | RASTER_8888, RASTER_8888 | RASTER_888, RASTER_888 | RASTER_555, RASTER_555
  | RASTER_LUM_ALPHA, RASTER_LUM_ALPHA => true
  | _, _ => false
  end.

Definition is_COLOR (a b : eColorOrdering) : bool :=
  match a, b with
  | COLOR_RGBA, COLOR_RGBA | COLOR_BGRA, COLOR_BGRA | COLOR_ABGR, COLOR_ABGR => true
  | _, _ => false
  end.

(** The result is ([pixelFormatOut], [canDirectlyAcquireOut]). *)
Definition getPVRLegacyRawColorFormatLink (rasterFormat : eRasterFormat) (depth : Z)
    (colorOrder : eColorOrdering) : ePVRLegacyPixelFormat.t * bool :=
  if is_RASTER rasterFormat RASTER_1555 then (ARGB_1555_SEC, false)
  else if is_RASTER rasterFormat RASTER_565 then
    (RGB_565_SEC, (depth =? 16) && is_COLOR colorOrder COLOR_BGRA)
  else if is_RASTER rasterFormat RASTER_4444 then
    (ARGB_4444_SEC, (depth =? 16) && is_COLOR colorOrder COLOR_ABGR)
  else if is_RASTER rasterFormat RASTER_LUM then (I8_SEC, depth =? 8)
  else if is_RASTER rasterFormat RASTER_8888 then
    let '(pixelFormatOut, isColorOrderFine) :=
      if is_COLOR colorOrder COLOR_RGBA then (ARGB_8888_SEC, true)
      else if is_COLOR colorOrder COLOR_BGRA then (BGRA_8888, true)
      else (ARGB_8888_SEC, false) in
    (pixelFormatOut, isColorOrderFine && (depth =? 32))
  else if is_RASTER rasterFormat RASTER_888 then
    (RGB_888_SEC, (depth =? 24) && is_COLOR colorOrder COLOR_RGBA)
  else if is_RASTER rasterFormat RASTER_555 then (RGB_555_SEC, false)
  else if is_RASTER rasterFormat RASTER_LUM_ALPHA then
    if depth =? 8 then (AL_44, true)
    else if depth =? 16 then (AL_88, true)
    else (AL_88, false)
  else (BGRA_8888, false).

(** What the fetch from the native texture left in the locals of
    [ReadFromNativeTexture] when the [try] block is entered.  Each branch of
    the fetch sets exactly one of [isFrameworkData] and [isPVRTC]. *)
Inductive source_kind := isFrameworkData | isPVRTC.

Record fetched := {
  kind : source_kind;
  frm_pvrRasterFormat : eRasterFormat;
  frm_pvrDepth : Z;
  frm_pvrRowAlignment : Z;
  frm_pvrColorOrder : eColorOrdering;
  frm_pvrPaletteType : ePaletteType;
  frm_pvrPaletteData : option positive;
  frm_pvrPaletteSize : Z;
  frm_isPaletteNewlyAllocated : bool;
  frm_pvrCompressionType : eCompressionType;
  pvrtc_comprType : ePVRInternalFormat;
  texCubeMap : bool
}.

Record colorModelDispatcher := {
  cmd_rasterFormat : eRasterFormat;
  cmd_colorOrder : eColorOrdering;
  cmd_depth : Z;
  cmd_paletteData : option positive;
  cmd_paletteSize : Z;
  cmd_paletteType : ePaletteType
}.

(** The texel conversion and the row-alignment test come from pixelutil.hxx,
    which is not among the sources.  [copyTexelDataEx] gets the content of
    the source block (if there is one) and of the destination block and
    returns the converted destination, or throws. *)
Variable copyTexelDataEx :
  colorModelDispatcher -> pvrColorDispatcher -> option (list Z) -> list Z ->
  Z -> Z -> Z -> Z -> result (list Z).
Variable doesPixelDataNeedAddressabilityAdjustment :
  list mipmapLayer.t -> Z -> Z -> Z -> Z -> bool.

(** The locals that the handlers of [ReadFromNativeTexture] look at. *)
Record frame := {
  mach : machine;
  srcLayers : list mipmapLayer.t;
  srcLayersIsNewlyAllocated : bool;
  convLayers : list mipmapLayer.t
}.

Definition on_machine (f : machine -> machine) (fr : frame) : frame :=
  {| mach := f (mach fr); srcLayers := srcLayers fr;
     srcLayersIsNewlyAllocated := srcLayersIsNewlyAllocated fr;
     convLayers := convLayers fr |}.

Definition on_engine (f : Interface.t -> Interface.t) (m : machine) : machine :=
  {| engine := f (engine m); image := image m; input := input m |}.

Definition lift {A} (c : M machine A) : M frame A :=
  fun fr => let '(r, m) := c (mach fr) in (r, on_machine (fun _ => m) fr).

Definition set_srcLayers (l : list mipmapLayer.t) (flag : bool) : M frame unit :=
  fun fr => (Ok tt, {| mach := mach fr; srcLayers := l;
                       srcLayersIsNewlyAllocated := flag;
                       convLayers := convLayers fr |}).

Definition set_convLayers (l : list mipmapLayer.t) : M frame unit :=
  fun fr => (Ok tt, {| mach := mach fr; srcLayers := srcLayers fr;
                       srcLayersIsNewlyAllocated := srcLayersIsNewlyAllocated fr;
                       convLayers := l |}).

Definition get {St} : M St St := fun s => (Ok s, s).

(** [PixelFree] of a pointer that may be [NULL]; nothing is freed then. *)
Definition free_pointer (p : option positive) (e : Interface.t) : Interface.t :=
  match p with
  | Some block => Interface.PixelFree block e
  | None => e
  end.

(** Modelled from the spec: [genmip::deleteMipmapLayers] is not among the
    sources.  Section 4.7: the orchestrator "frees exactly the buffers it
    allocated": the texels of every layer of the list are freed. *)
Definition deleteMipmapLayers (layers : list mipmapLayer.t) (e : Interface.t) : Interface.t :=
  fold_left (fun e layer => free_pointer (mipmapLayer.texels layer) e) layers e.

Definition with_texels (p : option positive) (l : mipmapLayer.t) : mipmapLayer.t :=
  {| mipmapLayer.width := mipmapLayer.width l;
     mipmapLayer.height := mipmapLayer.height l;
     mipmapLayer.layerWidth := mipmapLayer.layerWidth l;
     mipmapLayer.layerHeight := mipmapLayer.layerHeight l;
     mipmapLayer.texels := p;
     mipmapLayer.dataSize := mipmapLayer.dataSize l |}.

(** The call of [copyTexelDataEx] inside its [try]: on an exception the
    destination block is freed and the exception goes on. *)
Definition convert_texels (srcDispatch : colorModelDispatcher) (dstDispatch : pvrColorDispatcher)
    (srcTexels : option positive) (dstTexels : positive)
    (layerWidth layerHeight srcRowSize dstRowSize : Z) : M machine unit :=
  fun m =>
    let content (p : option positive) := p ≫= fun block => Interface.heap (engine m) !! block in
    match copyTexelDataEx srcDispatch dstDispatch (content srcTexels)
            (default [] (content (Some dstTexels)))
            layerWidth layerHeight srcRowSize dstRowSize with
    | Ok bytes => (Ok tt, on_engine (Interface.write dstTexels bytes) m)
    | Throw what => (Throw what, on_engine (Interface.PixelFree dstTexels) m)
    end.

(** One turn of [for ( size_t n = 0; n < mipmapCount; n++ )]. *)
Definition convert_level (f : fetched) (srcDispatch : colorModelDispatcher)
    (dstDispatch : pvrColorDispatcher) (pvrDepth : Z) (n : nat) : M frame unit :=
  fr <- get ;;
  let srcLayer := nth n (srcLayers fr) mipmapLayer.empty in
  let layerWidth := mipmapLayer.layerWidth srcLayer in
  let layerHeight := mipmapLayer.layerHeight srcLayer in
  let srcTexels := mipmapLayer.texels srcLayer in
  let srcRowSize :=
    uint32 (getRasterDataRowSize layerWidth (frm_pvrDepth f) (frm_pvrRowAlignment f)) in
  let dstRowSize := getPVRNativeImageRasterDataRowSize layerWidth pvrDepth in
  let dstDataSize := uint32 (getRasterDataSizeByRowSize dstRowSize layerHeight) in
  dstTexels <- lift (PixelAllocate dstDataSize) ;;
  match dstTexels with
  | None => throw "failed to allocate destination conversion layer in PVR native image color data acquisition"
  | Some block =>
      lift (convert_texels srcDispatch dstDispatch srcTexels block
              layerWidth layerHeight srcRowSize dstRowSize) ;;;
      (if srcLayersIsNewlyAllocated fr
       then lift (with_engine (fun e => (tt, free_pointer srcTexels e))) ;;;
            set_srcLayers (<[n := with_texels None srcLayer]> (srcLayers fr)) true
       else ret tt) ;;;
      fr' <- get ;;
      set_convLayers
        (<[n := {| mipmapLayer.width := layerWidth;
                   mipmapLayer.height := layerHeight;
                   mipmapLayer.layerWidth := layerWidth;
                   mipmapLayer.layerHeight := layerHeight;
                   mipmapLayer.texels := Some block;
                   mipmapLayer.dataSize := dstDataSize |}]> (convLayers fr'))
  end.

Fixpoint convert_levels (f : fetched) (srcDispatch : colorModelDispatcher)
    (dstDispatch : pvrColorDispatcher) (pvrDepth : Z) (todo n : nat) : M frame unit :=
  match todo with
  | O => ret tt
  | S todo' =>
      convert_level f srcDispatch dstDispatch pvrDepth n ;;;
      convert_levels f srcDispatch dstDispatch pvrDepth todo' (S n)
  end.

(** The block [if ( !canDirectlyAcquire )]. *)
Definition convert_layers (f : fetched) (pvrPixelFormat pvrDepth : Z) (isLittleEndian : bool)
    (mipmapCount : nat) : M frame unit :=
  let srcDispatch :=
    {| cmd_rasterFormat := frm_pvrRasterFormat f; cmd_colorOrder := frm_pvrColorOrder f;
       cmd_depth := frm_pvrDepth f; cmd_paletteData := frm_pvrPaletteData f;
       cmd_paletteSize := frm_pvrPaletteSize f; cmd_paletteType := frm_pvrPaletteType f |} in
  let pvrColorModel := getPVRLegacyPixelFormatType pvrPixelFormat in
  let dstDispatch :=
    {| pixelFormat := pvrPixelFormat; colorModel := pvrColorModel;
       isLittleEndian := isLittleEndian |} in
  set_convLayers (replicate mipmapCount mipmapLayer.empty) ;;;
  try_catch_rethrow
    (convert_levels f srcDispatch dstDispatch pvrDepth mipmapCount 0)
    (fun fr => on_machine (on_engine (deleteMipmapLayers (convLayers fr))) fr) ;;;
  fr <- get ;;
  set_srcLayers (convLayers fr) true.

(** The format link of uncompressed framework data: [pvrPixelFormat],
    [pvrDepth] and the final value of [canDirectlyAcquire]. *)
Definition raw_color_link (f : fetched) (srcLayers : list mipmapLayer.t) : Z * Z * bool :=
  let dstRowAlignment := getPVRNativeImageRowAlignment in
  let '(pvrPixelFormat, canDirectlyAcquireColor) :=
    getPVRLegacyRawColorFormatLink (frm_pvrRasterFormat f) (frm_pvrDepth f)
      (frm_pvrColorOrder f) in
  let pvrDepth := getPVRLegacyFormatDepth pvrPixelFormat in
  let canDirectlyAcquire :=
    match frm_pvrPaletteType f with PALETTE_NONE => true | _ => false end
    && canDirectlyAcquireColor in
  let canDirectlyAcquire :=
    if canDirectlyAcquire
    then negb (doesPixelDataNeedAddressabilityAdjustment srcLayers
                 (frm_pvrDepth f) (frm_pvrRowAlignment f) pvrDepth dstRowAlignment)
    else canDirectlyAcquire in
  (pvrPixelFormat, pvrDepth, canDirectlyAcquire).

(** The choice of the format; the result is ([pvrPixelFormat], [pvrDepth],
    [pvr_hasAlphaChannel_pvrtc]). *)
Definition choose_format (f : fetched) (isLittleEndian : bool) : M frame (Z * Z * bool) :=
  fr <- get ;;
  let mipmapCount := length (srcLayers fr) in
  match kind f with
  | isFrameworkData =>
      match frm_pvrCompressionType f with
      | RWCOMPRESS_NONE =>
          let '(pvrPixelFormat, pvrDepth, canDirectlyAcquire) :=
            raw_color_link f (srcLayers fr) in
          when (negb canDirectlyAcquire)
               (convert_layers f pvrPixelFormat pvrDepth isLittleEndian mipmapCount) ;;;
          ret (pvrPixelFormat, pvrDepth, false)
      | RWCOMPRESS_DXT1 => ret (DXT1, 4, false)
      | RWCOMPRESS_DXT2 => ret (DXT2, 8, false)
      | RWCOMPRESS_DXT3 => ret (DXT3, 8, false)
      | RWCOMPRESS_DXT4 => ret (DXT4, 8, false)
      | RWCOMPRESS_DXT5 => ret (DXT5, 8, false)
      | RWCOMPRESS_other =>
          throw "unsupported RW compression type in PVR native image texel acquisition"
      end
  | isPVRTC =>
      match pvrtc_comprType f with
      | GL_COMPRESSED_RGB_PVRTC_2BPPV1_IMG => ret (PVRTC2_SEC, 2, false)
      | GL_COMPRESSED_RGBA_PVRTC_2BPPV1_IMG => ret (PVRTC2_SEC, 2, true)
      | GL_COMPRESSED_RGB_PVRTC_4BPPV1_IMG => ret (PVRTC4_SEC, 4, false)
      | GL_COMPRESSED_RGBA_PVRTC_4BPPV1_IMG => ret (PVRTC4_SEC, 4, true)
      | GL_other =>
          throw "invalid PowerVR native texture compression type in PVR native image texel acquisition"
      end
  end.

Definition write_image (f : fetched) (layers : list mipmapLayer.t)
    (pvrPixelFormat pvrDepth : Z) (pvr_hasAlphaChannel_pvrtc isLittleEndian : bool)
    (natImg : pvrNativeImage.t) : pvrNativeImage.t :=
  {| pvrNativeImage.mipmaps := layers;
     pvrNativeImage.pixelFormat := pvrPixelFormat;
     pvrNativeImage.dataIsTwiddled := false;
     pvrNativeImage.containsNormalData := false;
     pvrNativeImage.hasBorder := false;
     pvrNativeImage.isCubeMap := texCubeMap f;
     pvrNativeImage.mipmapsHaveDebugColoring := false;
     pvrNativeImage.isVolumeTexture := false;
     pvrNativeImage.hasAlphaChannel_pvrtc := pvr_hasAlphaChannel_pvrtc;
     pvrNativeImage.isVerticallyFlipped := false;
     pvrNativeImage.bitDepth := pvrDepth;
     pvrNativeImage.isLittleEndian := isLittleEndian |}.

Record acquireFeedback_t := {
  hasDirectlyAcquired : bool;
  hasDirectlyAcquiredPalette : bool
}.

(** [ReadFromNativeTexture] from its outer [try] on. *)
Definition ReadFromNativeTexture (f : fetched) : M frame acquireFeedback_t :=
  let isLittleEndian := true in
  try_catch_rethrow
    (chosen <- choose_format f isLittleEndian ;;
     let '(pvrPixelFormat, pvrDepth, pvr_hasAlphaChannel_pvrtc) := chosen in
     fr <- get ;;
     lift (update_image (write_image f (srcLayers fr) pvrPixelFormat pvrDepth
                           pvr_hasAlphaChannel_pvrtc isLittleEndian)))
    (fun fr =>
       if srcLayersIsNewlyAllocated fr
       then on_machine (on_engine (fun e =>
              free_pointer (frm_pvrPaletteData f) (deleteMipmapLayers (srcLayers fr) e))) fr
       else fr) ;;;
  when (frm_isPaletteNewlyAllocated f)
       (lift (with_engine (fun e => (tt, free_pointer (frm_pvrPaletteData f) e)))) ;;;
  fr <- get ;;
  ret {| hasDirectlyAcquired := negb (srcLayersIsNewlyAllocated fr);
         hasDirectlyAcquiredPalette := false |}.

(** The state in which the [try] block is entered. *)
Definition entry (e : Interface.t) (natImg : pvrNativeImage.t) (layers : list mipmapLayer.t)
    (newlyAllocated : bool) : frame :=
  {| mach := {| engine := e; image := natImg; input := [] |};
     srcLayers := layers;
     srcLayersIsNewlyAllocated := newlyAllocated;
     convLayers := [] |}.

(** ** Statements of the specification *)

(** What a colour channel of a format keeps of an 8-bit value: a field
    scaled to its maximum, a constant the fetch supplies for a channel the
    format does not store, or the one-bit alpha that is set for 255 only. *)
Inductive channel := scaled (max : Z) | constant (v : Z) | presence.

Definition requantize (c : channel) (v : Z) : Z :=
  match c with
  | scaled max => destscalecolor (putscalecolor v max) max
  | constant k => k
  | presence => if v =? 255 then 255 else 0
  end.

(** Channels (red, green, blue, alpha) of the formats whose store and fetch
    agree on the layout. *)
Definition rgba_channels (f : ePVRLegacyPixelFormat.t)
  : option (channel * channel * channel * channel) :=
  if case_of f [ ARGB_4444; ARGB_4444_SEC ] then
    Some (scaled 15, scaled 15, scaled 15, scaled 15)
  else if case_of f [ ARGB_1555; ARGB_1555_SEC ] then
    Some (scaled 31, scaled 31, scaled 31, presence)
  else if case_of f [ RGB_565; RGB_565_SEC ] then
    Some (scaled 31, scaled 63, scaled 31, constant 255)
  else if case_of f [ RGB_555; RGB_555_SEC ] then
    Some (scaled 31, scaled 31, scaled 31, constant 255)
  else if case_of f [ ARGB_8888; ARGB_8888_SEC; BGRA_8888 ] then
    Some (scaled 255, scaled 255, scaled 255, scaled 255)
  else if case_of f [ ARGB_8332 ] then
    Some (scaled 7, scaled 7, scaled 3, scaled 255)
  else if case_of f [ RGB332 ] then
    Some (scaled 7, scaled 7, scaled 3, constant 255)
  else if case_of f [ GR_1616 ] then
    Some (scaled 65535, scaled 65535, constant 0, constant 255)
  else None.

(** Channels (luminance, alpha) of the luminance formats the codec handles. *)
Definition lum_channels (f : ePVRLegacyPixelFormat.t) : option (channel * channel) :=
  if case_of f [ I8; I8_SEC; L8 ] then Some (scaled 255, constant 255)
  else if case_of f [ AI88; AI88_SEC; AL_88 ] then Some (scaled 255, scaled 255)
  else if case_of f [ AL_44 ] then Some (scaled 15, scaled 15)
  else if case_of f [ L16 ] then Some (scaled 65535, constant 255)
  else None.

(** Whether [ReadFromNativeTexture] transcodes the layers into new buffers:
    the source is uncompressed framework data that cannot be acquired
    directly. *)
Definition converts (f : fetched) (srcLayers : list mipmapLayer.t) : bool :=
  match kind f, frm_pvrCompressionType f with
  | isFrameworkData, RWCOMPRESS_NONE => negb (snd (raw_color_link f srcLayers))
  | _, _ => false
  end.

(** The two colour pipelines that the conversion block of
    [ReadFromNativeTexture] prepares. *)
Definition srcDispatch_of (f : fetched) : colorModelDispatcher :=
  {| cmd_rasterFormat := frm_pvrRasterFormat f; cmd_colorOrder := frm_pvrColorOrder f;
     cmd_depth := frm_pvrDepth f; cmd_paletteData := frm_pvrPaletteData f;
     cmd_paletteSize := frm_pvrPaletteSize f; cmd_paletteType := frm_pvrPaletteType f |}.

Definition dstDispatch_of (pvrPixelFormat : Z) (isLittleEndian : bool) : pvrColorDispatcher :=
  {| pixelFormat := pvrPixelFormat;
     colorModel := getPVRLegacyPixelFormatType pvrPixelFormat;
     isLittleEndian := isLittleEndian |}.

(** The locals when the conversion loop is entered from [entry]:
    [convLayers] was resized to the number of the levels. *)
Definition loop_entry (e : Interface.t) (natImg : pvrNativeImage.t)
    (layers : list mipmapLayer.t) (newlyAllocated : bool) : frame :=
  {| mach := {| engine := e; image := natImg; input := [] |};
     srcLayers := layers;
     srcLayersIsNewlyAllocated := newlyAllocated;
     convLayers := replicate (length layers) mipmapLayer.empty |}.

(** The layer [newLayer] that a turn of the conversion loop makes of a source
    layer, its texels in the block [dstTexels]. *)
Definition converted_layer (pvrDepth : Z) (srcLayer : mipmapLayer.t) (dstTexels : positive)
  : mipmapLayer.t :=
  let layerWidth := mipmapLayer.layerWidth srcLayer in
  let layerHeight := mipmapLayer.layerHeight srcLayer in
  {| mipmapLayer.width := layerWidth;
     mipmapLayer.height := layerHeight;
     mipmapLayer.layerWidth := layerWidth;
     mipmapLayer.layerHeight := layerHeight;
     mipmapLayer.texels := Some dstTexels;
     mipmapLayer.dataSize :=
       uint32 (getRasterDataSizeByRowSize
                 (getPVRNativeImageRasterDataRowSize layerWidth pvrDepth) layerHeight) |}.

(** The blocks of the heap lie below the next block to be handed out. *)
Definition heap_below_next (e : Interface.t) : Prop :=
  forall p, Interface.heap e !! p <> None -> (p < Interface.next_block e)%positive.

(** What holds of the locals of [ReadFromNativeTexture] while the first [n]
    levels are converted, [e0] being the engine at the entry: the image and
    the ownership flag are as at the entry; no block was handed out twice;
    every block handed out since the entry that is still allocated is the
    texels of one of the first [n] conversion layers; the texels of the
    conversion layers were handed out since the entry; and the blocks of
    the entry are untouched if the source layers are borrowed. *)
Definition conversion_invariant (e0 : Interface.t) (natImg : pvrNativeImage.t)
    (newly : bool) (count n : nat) (fr : frame) : Prop :=
  let e := engine (mach fr) in
  image (mach fr) = natImg /\
  srcLayersIsNewlyAllocated fr = newly /\
  (Interface.next_block e0 <= Interface.next_block e)%positive /\
  heap_below_next e /\
  length (convLayers fr) = count /\
  (forall p, (Interface.next_block e0 <= p)%positive -> Interface.heap e !! p <> None ->
     exists k l, (k < n)%nat /\ convLayers fr !! k = Some l /\ mipmapLayer.texels l = Some p) /\
  (forall k l p, convLayers fr !! k = Some l -> mipmapLayer.texels l = Some p ->
     (Interface.next_block e0 <= p)%positive) /\
  (newly = false ->
   forall p, (p < Interface.next_block e0)%positive ->
     Interface.heap e !! p = Interface.heap e0 !! p).

(** What a failed acquisition leaves behind, [e0] being the engine at the
    entry: the image as it was, none of the blocks handed out since the
    entry, and the blocks of the entry untouched if the source layers are
    borrowed. *)
Definition rolled_back (e0 : Interface.t) (natImg : pvrNativeImage.t) (newly : bool)
    (fr : frame) : Prop :=
  image (mach fr) = natImg /\
  srcLayersIsNewlyAllocated fr = newly /\
  (forall p, (Interface.next_block e0 <= p)%positive ->
     Interface.heap (engine (mach fr)) !! p = None) /\
  (newly = false ->
   forall p, (p < Interface.next_block e0)%positive ->
     Interface.heap (engine (mach fr)) !! p = Interface.heap e0 !! p).

(** [r] is [n] rounded up to the nearest multiple of [s]. *)
Definition is_round_up (n s r : Z) : Prop := (s | r) /\ n <= r < n + s.

(** [r] is the ceiling of [a / 8]. *)
Definition is_ceil_div8 (a r : Z) : Prop := a <= 8 * r < a + 8.

(** The invariant of a mipmap layer for an image of the given bit depth. *)
Definition layer_invariant (bitDepth : Z) (l : mipmapLayer.t) : Prop :=
  mipmapLayer.layerWidth l <= mipmapLayer.width l /\
  mipmapLayer.layerHeight l <= mipmapLayer.height l /\
  mipmapLayer.dataSize l =
    getPVRNativeImageRasterDataRowSize (mipmapLayer.width l) bitDepth * mipmapLayer.height l.

(** The block that the surface dimensions of a format are rounded up to. *)
Definition block_dimensions (format : ePVRLegacyPixelFormat.t) : Z * Z :=
  if case_of format [ V_Y1_U_Y0; Y1_V_Y0_U; UYVY; YUY2 ] then (2, 2)
  else if case_of format [ DXT1; DXT2; DXT3; DXT4; DXT5; ETC ] then (4, 4)
  else if case_of format [ PVRTC2; PVRTC4; PVRTC2_SEC; PVRTC4_SEC ] then
    getPVRCompressionBlockDimensions (getPVRLegacyFormatDepth format)
  else (1, 1).

(** No [uint32] wraps when the surface dimensions and the size of a layer of
    the given format are computed from its logical dimensions. *)
Definition layer_fits (format : ePVRLegacyPixelFormat.t) (l : mipmapLayer.t) : Prop :=
  let '(blockWidth, blockHeight) := block_dimensions format in
  0 <= mipmapLayer.layerWidth l /\ 0 <= mipmapLayer.layerHeight l /\
  mipmapLayer.layerWidth l + blockWidth <= uint32_max /\
  mipmapLayer.layerHeight l + blockHeight <= uint32_max /\
  getRasterDataRowSize (ALIGN_SIZE (mipmapLayer.layerWidth l) blockWidth)
    (getPVRLegacyFormatDepth format) getPVRNativeImageRowAlignment
  * ALIGN_SIZE (mipmapLayer.layerHeight l) blockHeight < uint32_max.

Definition all_ids : list Z := map Z.of_nat (seq 0 256).

(** The size of the level that a turn of the loop is about to read. *)
Definition level_size (pixelFormat : Z) (mipGen : mipGenLevelGenerator) : Z :=
  let '(mipSurfWidth, mipSurfHeight) :=
    getPVRLegacyFormatSurfaceDimensions pixelFormat
      (getLevelWidth mipGen) (getLevelHeight mipGen) in
  uint32
    (getRasterDataSizeByRowSize
       (getPVRNativeImageRasterDataRowSize mipSurfWidth (getPVRLegacyFormatDepth pixelFormat))
       mipSurfHeight).

(** The layer that a turn of the loop stores. *)
Definition level_layer (pixelFormat : Z) (mipGen : mipGenLevelGenerator) (block : positive)
  : mipmapLayer.t :=
  let '(mipSurfWidth, mipSurfHeight) :=
    getPVRLegacyFormatSurfaceDimensions pixelFormat
      (getLevelWidth mipGen) (getLevelHeight mipGen) in
  {| mipmapLayer.width := mipSurfWidth;
     mipmapLayer.height := mipSurfHeight;
     mipmapLayer.layerWidth := getLevelWidth mipGen;
     mipmapLayer.layerHeight := getLevelHeight mipGen;
     mipmapLayer.texels := Some block;
     mipmapLayer.dataSize := level_size pixelFormat mipGen |}.

(** The generator a turn of the loop works with, if it establishes a level. *)
Definition next_level (mipGen : mipGenLevelGenerator) (mip_index : Z)
  : bool * mipGenLevelGenerator :=
  if negb (mip_index =? 0) then incrementLevel mipGen else (true, mipGen).

(** The block dimensions of the two PVRTC depths are positive. *)
Definition pvrtc_blocks_positive : Prop :=
  forall depth, depth = 2 \/ depth = 4 ->
    0 < fst (getPVRCompressionBlockDimensions depth) /\
    0 < snd (getPVRCompressionBlockDimensions depth).

(** ** Data for the closed examples *)

(** A version 1, little-endian header: size 44, then height, width, level
    count minus one, flags, surface size, bits per pixel and four masks. *)
Definition sample_header (height width levels flags surfaceSize bitsPerPixel : Z) : list Z :=
  bytes_of 4 44 ++ bytes_of 4 height ++ bytes_of 4 width ++ bytes_of 4 levels ++
  bytes_of 4 flags ++ bytes_of 4 surfaceSize ++ bytes_of 4 bitsPerPixel ++ replicate 16 0.

Definition sample_machine (s : Stream) : machine :=
  {| engine := Interface.start []; image := pvrNativeImage.constructed; input := s |}.

(** The flag [dataIsTwiddled] is bit 9 of the format field. *)
Definition twiddled : Z := 512.

(** 100 x 50, DXT1, twiddled. *)
Definition sample_twiddled_not_square : machine :=
  sample_machine (sample_header 50 100 0 (DXT1 + twiddled) 2704 4 ++ replicate (Z.to_nat 2704) 0).

(** 64 x 64, ARGB_8888, twiddled. *)
Definition sample_twiddled_raw : machine :=
  sample_machine (sample_header 64 64 0 (ARGB_8888 + twiddled) 16384 32 ++ replicate (Z.to_nat 16384) 0).

(** 64 x 64, DXT1, twiddled. *)
Definition sample_twiddled_compressed : machine :=
  sample_machine (sample_header 64 64 0 (DXT1 + twiddled) 2048 4 ++ replicate (Z.to_nat 2048) 0).

(** 4 x 4, ARGB_8888, three levels of 64, 16 and 4 bytes. *)
Definition sample_three_levels : machine :=
  sample_machine (sample_header 4 4 2 ARGB_8888 84 32 ++ replicate 84 7).

(** 4 x 4, ARGB_8888, one level, with a surface size of 16 where the level
    takes 64 bytes. *)
Definition sample_small_surfaceSize : machine :=
  sample_machine (sample_header 4 4 0 ARGB_8888 16 32 ++ replicate 64 7).

Definition no_color : rgba_refs :=
  {| redOut := 0; greenOut := 0; blueOut := 0; alphaOut := 0 |}.

Definition no_luminance : lum_refs := {| lumOut := 0; lumAlphaOut := 0 |}.

(** A conversion that leaves the destination as it is and never throws, and
    buffers that never need an adjustment of their rows. *)
Definition sample_copyTexelDataEx (srcDispatch : colorModelDispatcher)
    (dstDispatch : pvrColorDispatcher) (src : option (list Z)) (dst : list Z)
    (layerWidth layerHeight srcRowSize dstRowSize : Z) : result (list Z) :=
  Ok dst.

Definition sample_adjustment (layers : list mipmapLayer.t)
    (srcDepth srcRowAlignment dstDepth dstRowAlignment : Z) : bool := false.

(** Borrowed RASTER_1555 layers of 2 x 2 and 1 x 1 in the blocks 1 and 2 of
    an engine whose second allocation fails. *)
Definition sample_fetched : fetched :=
  {| kind := isFrameworkData;
     frm_pvrRasterFormat := RASTER_1555;
     frm_pvrDepth := 16;
     frm_pvrRowAlignment := 4;
     frm_pvrColorOrder := COLOR_BGRA;
     frm_pvrPaletteType := PALETTE_NONE;
     frm_pvrPaletteData := None;
     frm_pvrPaletteSize := 0;
     frm_isPaletteNewlyAllocated := false;
     frm_pvrCompressionType := RWCOMPRESS_NONE;
     pvrtc_comprType := GL_other;
     texCubeMap := false |}.

Definition sample_layers : list mipmapLayer.t :=
  [ {| mipmapLayer.width := 2; mipmapLayer.height := 2;
       mipmapLayer.layerWidth := 2; mipmapLayer.layerHeight := 2;
       mipmapLayer.texels := Some 1%positive; mipmapLayer.dataSize := 8 |};
    {| mipmapLayer.width := 1; mipmapLayer.height := 1;
       mipmapLayer.layerWidth := 1; mipmapLayer.layerHeight := 1;
       mipmapLayer.texels := Some 2%positive; mipmapLayer.dataSize := 4 |} ].

Definition sample_engine : Interface.t :=
  {| Interface.heap := <[1%positive := replicate 8 0]> (<[2%positive := replicate 4 0]> ∅);
     Interface.next_block := 3%positive;
     Interface.requests := [];
     Interface.warnings := [];
     Interface.oom := [false; true] |}.

(** A texel conversion that throws for a layer of width 1, and the same
    engine with allocations that all succeed. *)
Definition sample_throwing_copyTexelDataEx (srcDispatch : colorModelDispatcher)
    (dstDispatch : pvrColorDispatcher) (src : option (list Z)) (dst : list Z)
    (layerWidth layerHeight srcRowSize dstRowSize : Z) : result (list Z) :=
  if layerWidth =? 1 then Throw "texel conversion failed" else Ok dst.

Definition sample_engine_with_memory : Interface.t :=
  {| Interface.heap := <[1%positive := replicate 8 0]> (<[2%positive := replicate 4 0]> ∅);
     Interface.next_block := 3%positive;
     Interface.requests := [];
     Interface.warnings := [];
     Interface.oom := [] |}.

(** ** The mapping to framework raster formats *)

(** The result is ([rasterFormatOut], [colorOrderingOut],
    [compressionTypeOut], [isDirectMappingOut]). *)
Definition getPVRRasterFormatMapping (format : ePVRLegacyPixelFormat.t) (isLittleEndian : bool)
  : eRasterFormat * eColorOrdering * eCompressionType * bool :=
  if case_of format [ ARGB_4444; ARGB_4444_SEC ] then
    (RASTER_4444, COLOR_ABGR, RWCOMPRESS_NONE, Bool.eqb isLittleEndian true)
  else if case_of format [ ARGB_1555; ARGB_1555_SEC ] then
    (RASTER_1555, COLOR_BGRA, RWCOMPRESS_NONE, false)
  else if case_of format [ RGB_555; RGB_555_SEC ] then
    (RASTER_555, COLOR_BGRA, RWCOMPRESS_NONE, false)
  else if case_of format [ RGB_565; RGB_565_SEC ] then
    (RASTER_565, COLOR_BGRA, RWCOMPRESS_NONE, Bool.eqb isLittleEndian true)
  else if case_of format [ ARGB_8888; ARGB_8888_SEC ] then
    (RASTER_8888, COLOR_RGBA, RWCOMPRESS_NONE, Bool.eqb isLittleEndian true)
  else if case_of format [ RGB_888; RGB_888_SEC ] then
    (RASTER_888, COLOR_RGBA, RWCOMPRESS_NONE, Bool.eqb isLittleEndian true)
  else if case_of format [ I8; I8_SEC; L8 ] then
    (RASTER_LUM, COLOR_RGBA, RWCOMPRESS_NONE, Bool.eqb isLittleEndian true)
  else if case_of format [ AI88; AI88_SEC; AL_88 ] then
    (RASTER_LUM_ALPHA, COLOR_RGBA, RWCOMPRESS_NONE, Bool.eqb isLittleEndian true)
  else if case_of format [ AL_44 ] then
    (RASTER_LUM_ALPHA, COLOR_RGBA, RWCOMPRESS_NONE, Bool.eqb isLittleEndian true)
  else if case_of format [ BGRA_8888 ] then
    (RASTER_8888, COLOR_BGRA, RWCOMPRESS_NONE, Bool.eqb isLittleEndian true)
  else if case_of format [ DXT1 ] then
    (RASTER_DEFAULT, COLOR_RGBA, RWCOMPRESS_DXT1, Bool.eqb isLittleEndian true)
  else if case_of format [ DXT2 ] then
    (RASTER_DEFAULT, COLOR_RGBA, RWCOMPRESS_DXT2, Bool.eqb isLittleEndian true)
  else if case_of format [ DXT3 ] then
    (RASTER_DEFAULT, COLOR_RGBA, RWCOMPRESS_DXT3, Bool.eqb isLittleEndian true)
  else if case_of format [ DXT4 ] then
    (RASTER_DEFAULT, COLOR_RGBA, RWCOMPRESS_DXT4, Bool.eqb isLittleEndian true)
  else if case_of format [ DXT5 ] then
    (RASTER_DEFAULT, COLOR_RGBA, RWCOMPRESS_DXT5, Bool.eqb isLittleEndian true)
  else (RASTER_8888, COLOR_BGRA, RWCOMPRESS_NONE, false).

Definition getPVRLegacyFormatDXTType (pixelFormat : ePVRLegacyPixelFormat.t) : Z :=
  if case_of pixelFormat [ DXT1 ] then 1
  else if case_of pixelFormat [ DXT2 ] then 2
  else if case_of pixelFormat [ DXT3 ] then 3
  else if case_of pixelFormat [ DXT4 ] then 4
  else if case_of pixelFormat [ DXT5 ] then 5
  else 0.

(** The number in the name of a DXT compression type, 0 for the others. *)
Definition dxt_number (c : eCompressionType) : Z :=
  match c with
  | RWCOMPRESS_DXT1 => 1 | RWCOMPRESS_DXT2 => 2 | RWCOMPRESS_DXT3 => 3
  | RWCOMPRESS_DXT4 => 4 | RWCOMPRESS_DXT5 => 5
  | _ => 0
  end.

(** ** The generic colour fetch and store of the dispatcher *)

(** [abstractColorItem] is declared in a header that is not among the
    sources; it has the members that [getColor] and [setColor] name.  The
    record keeps the two colours apart; only the one that [model] names is
    spoken of below.  The colour models other than the two that this file
    names are one enumerator. *)
Inductive eColorModel := COLORMODEL_RGBA | COLORMODEL_LUMINANCE | COLORMODEL_other.

Record abstractColorItem := {
  model : eColorModel;
  rgbaColor : rgba_refs;
  luminance : lum_refs
}.

(** [colorOut] is passed in and returned.  A fetch that finds no branch for
    the format leaves the active member zeroed. *)
Definition getColor (d : pvrColorDispatcher) (srcTexels : list Z) (colorIndex : Z)
    (colorOut : abstractColorItem) : result abstractColorItem :=
  match colorModel d with
  | RGBA =>
      match getRGBA d srcTexels colorIndex (rgbaColor colorOut) with
      | Ok (gotColor, c) =>
          Ok {| model := COLORMODEL_RGBA;
                rgbaColor :=
                  if negb gotColor
                  then {| redOut := 0; greenOut := 0; blueOut := 0; alphaOut := 0 |}
                  else c;
                luminance := luminance colorOut |}
      | Throw what => Throw what
      end
  | LUMINANCE =>
      match getLuminance d srcTexels colorIndex (luminance colorOut) with
      | Ok (gotColor, c) =>
          Ok {| model := COLORMODEL_LUMINANCE;
                rgbaColor := rgbaColor colorOut;
                luminance :=
                  if negb gotColor then {| lumOut := 0; lumAlphaOut := 0 |} else c |}
      | Throw what => Throw what
      end
  | _ => Throw "invalid color model in abstract color fetch algorithm of PVR native image data"
  end.

(** The results of [setRGBA] and [setLuminance] are not looked at. *)
Definition setColor (d : pvrColorDispatcher) (dstTexels : list Z) (colorIndex : Z)
    (color : abstractColorItem) : result (list Z) :=
  match model color with
  | COLORMODEL_RGBA =>
      match setRGBA d dstTexels colorIndex
              (redOut (rgbaColor color)) (greenOut (rgbaColor color))
              (blueOut (rgbaColor color)) (alphaOut (rgbaColor color)) with
      | Ok (_, dstTexels) => Ok dstTexels
      | Throw what => Throw what
      end
  | COLORMODEL_LUMINANCE =>
      match setLuminance d dstTexels colorIndex
              (lumOut (luminance color)) (lumAlphaOut (luminance color)) with
      | Ok (_, dstTexels) => Ok dstTexels
      | Throw what => Throw what
      end
  | COLORMODEL_other =>
      Throw "invalid color model in abstract color put algorithm of PVR native image data"
  end.

(** A buffer after a store at [colorIndex] with texels of [n] bytes: it has
    the length it had, and the bytes outside of that texel are the same. *)
Definition only_texel_changed (n : nat) (colorIndex : Z) (buf buf' : list Z) : Prop :=
  length buf' = length buf /\
  forall i : nat,
    (i < Z.to_nat colorIndex * n \/ Z.to_nat colorIndex * n + n <= i)%nat ->
    buf' !! i = buf !! i.

(** ** The life cycle of a native image *)

Definition resetFormat (natImg : pvrNativeImage.t) : pvrNativeImage.t :=
  {| pvrNativeImage.pixelFormat := ARGB_4444;
     pvrNativeImage.dataIsTwiddled := false;
     pvrNativeImage.containsNormalData := false;
     pvrNativeImage.hasBorder := false;
     pvrNativeImage.isCubeMap := false;
     pvrNativeImage.mipmapsHaveDebugColoring := false;
     pvrNativeImage.isVolumeTexture := false;
     pvrNativeImage.hasAlphaChannel_pvrtc := false;
     pvrNativeImage.isVerticallyFlipped := false;
     pvrNativeImage.bitDepth := 0;
     pvrNativeImage.mipmaps := pvrNativeImage.mipmaps natImg;
     pvrNativeImage.isLittleEndian := true |}.

(** [natImg->mipmaps.clear()] *)
Definition clear_mipmaps (natImg : pvrNativeImage.t) : pvrNativeImage.t :=
  {| pvrNativeImage.pixelFormat := pvrNativeImage.pixelFormat natImg;
     pvrNativeImage.dataIsTwiddled := pvrNativeImage.dataIsTwiddled natImg;
     pvrNativeImage.containsNormalData := pvrNativeImage.containsNormalData natImg;
     pvrNativeImage.hasBorder := pvrNativeImage.hasBorder natImg;
     pvrNativeImage.isCubeMap := pvrNativeImage.isCubeMap natImg;
     pvrNativeImage.mipmapsHaveDebugColoring := pvrNativeImage.mipmapsHaveDebugColoring natImg;
     pvrNativeImage.isVolumeTexture := pvrNativeImage.isVolumeTexture natImg;
     pvrNativeImage.hasAlphaChannel_pvrtc := pvrNativeImage.hasAlphaChannel_pvrtc natImg;
     pvrNativeImage.isVerticallyFlipped := pvrNativeImage.isVerticallyFlipped natImg;
     pvrNativeImage.bitDepth := pvrNativeImage.bitDepth natImg;
     pvrNativeImage.mipmaps := [];
     pvrNativeImage.isLittleEndian := pvrNativeImage.isLittleEndian natImg |}.

Definition ClearImageData (deallocate : bool) : M machine unit :=
  m <- get ;;
  when deallocate
       (with_engine (fun e =>
          (tt, deleteMipmapLayers (pvrNativeImage.mipmaps (image m)) e))) ;;;
  update_image clear_mipmaps ;;;
  update_image resetFormat.

(** PVR native images do not support palette. *)
Definition ClearPaletteData (deallocate : bool) : M machine unit := ret tt.

(** ** IsStreamNativeImage *)

(** [skipAvailable] is not among the sources and stays a parameter: what it
    makes of the stream when it is asked to skip a number of bytes. *)
Variable skipAvailable : Stream -> Z -> Stream.

(** The loop of [IsStreamNativeImage], [n] counting the iterations that
    [mip_index] is still away from [mipmapCount]; it only moves the stream. *)
Fixpoint skip_levels (n : nat) (pixelFormat format_bitDepth : Z)
    (mipGen : mipGenLevelGenerator) (mip_index : Z) (inputStream : Stream) : Stream :=
  match n with
  | O => inputStream
  | S n' =>
      let '(didEstablishLevel, mipGen) :=
        if negb (mip_index =? 0) then incrementLevel mipGen else (true, mipGen) in
      if negb didEstablishLevel then inputStream
      else
        let mipLayerWidth := getLevelWidth mipGen in
        let mipLayerHeight := getLevelHeight mipGen in
        let '(mipSurfWidth, mipSurfHeight) :=
          getPVRLegacyFormatSurfaceDimensions pixelFormat mipLayerWidth mipLayerHeight in
        let texRowSize := getPVRNativeImageRasterDataRowSize mipSurfWidth format_bitDepth in
        let texDataSize := uint32 (getRasterDataSizeByRowSize texRowSize mipSurfHeight) in
        skip_levels n' pixelFormat format_bitDepth mipGen (mip_index + 1)
          (skipAvailable inputStream texDataSize)
  end.

(** The result and the stream as the call leaves it.  The source asserts
    [format_bitDepth != 0] after the validity check. *)
Definition IsStreamNativeImage (inputStream : Stream) : bool * Stream :=
  match readLegacyVersionHeader inputStream with
  | (None, s) => (false, s)
  | (Some h, s) =>
      let mipmapCount := (mipmapCountOut h + 1) mod uint32_max in
      let pixelFormat := pvr_legacy_formatField.pixelFormat (formatFieldOut h) in
      if negb (isValidPVRLegacyPixelFormat pixelFormat) then (false, s)
      else
        let format_bitDepth := getPVRLegacyFormatDepth pixelFormat in
        let mipGen := {| getLevelWidth := widthOut h; getLevelHeight := heightOut h |} in
        if Bool.eqb (isValidLevel mipGen) false then (false, s)
        else (true, skip_levels (Z.to_nat mipmapCount) pixelFormat format_bitDepth mipGen 0 s)
  end.

(** ** WriteNativeImage *)

(** The bytes that [outputStream->write( mipTexels, mipDataSize )] takes from
    a block.  The source checks nothing; of a block that is shorter than
    [mipDataSize], or of a pointer that is no block, the model takes the bytes
    that are there. *)
Definition block_bytes (e : Interface.t) (mipTexels : option positive) (mipDataSize : Z)
  : list Z :=
  take (Z.to_nat mipDataSize) (default [] (mipTexels ≫= fun block => Interface.heap e !! block)).

(** The format field that [WriteNativeImage] prepares. *)
Definition prepared_formatField (natImg : pvrNativeImage.t) (mipmapCount : nat)
  : pvr_legacy_formatField.t :=
  {| pvr_legacy_formatField.pixelFormat := pvrNativeImage.pixelFormat natImg mod 256;
     pvr_legacy_formatField.mipmapsPresent := (1 <? mipmapCount)%nat;
     pvr_legacy_formatField.dataIsTwiddled := pvrNativeImage.dataIsTwiddled natImg;
     pvr_legacy_formatField.containsNormalData := pvrNativeImage.containsNormalData natImg;
     pvr_legacy_formatField.hasBorder := pvrNativeImage.hasBorder natImg;
     pvr_legacy_formatField.isCubeMap := pvrNativeImage.isCubeMap natImg;
     pvr_legacy_formatField.mipmapsHaveDebugColoring :=
       pvrNativeImage.mipmapsHaveDebugColoring natImg;
     pvr_legacy_formatField.isVolumeTexture := pvrNativeImage.isVolumeTexture natImg;
     pvr_legacy_formatField.hasAlphaChannel_pvrtc := pvrNativeImage.hasAlphaChannel_pvrtc natImg;
     pvr_legacy_formatField.isVerticallyFlipped := pvrNativeImage.isVerticallyFlipped natImg;
     pvr_legacy_formatField.pad := 0 |}.

(** The bytes of a [pvr_header_ver2 <endianness>] with the members that
    [WriteNativeImage] assigns. *)
Definition pvr_header_ver2 (e : endianness) (height width mipmapCount : Z)
    (flags : pvr_legacy_formatField.t) (surfaceSize bitsPerPixel : Z) : list Z :=
  endian_store e 4 height ++ endian_store e 4 width ++ endian_store e 4 mipmapCount ++
  endian_store e 4 (pvr_legacy_formatField.to_word flags) ++
  endian_store e 4 surfaceSize ++ endian_store e 4 bitsPerPixel ++
  endian_store e 4 0 ++ endian_store e 4 0 ++ endian_store e 4 0 ++ endian_store e 4 0 ++
  endian_store e 4 0x21525650 ++ endian_store e 4 1.

(** The output stream is the list of the bytes written so far; [write]
    appends.  The two branches of the source on [isLittleEndian] differ in the
    endianness of the members only. *)
Definition WriteNativeImage (engineInterface : Interface.t) (natImg : pvrNativeImage.t)
    (outputStream : list Z) : result unit * list Z :=
  let isLittleEndian := pvrNativeImage.isLittleEndian natImg in
  let mipmapCount := length (pvrNativeImage.mipmaps natImg) in
  if (mipmapCount =? 0)%nat
  then (Throw "attempt to write empty PVR native image file", outputStream)
  else
    let formatField := prepared_formatField natImg mipmapCount in
    let totalSurfaceSize :=
      fold_left (fun total srcLayer => (total + mipmapLayer.dataSize srcLayer) mod uint32_max)
        (pvrNativeImage.mipmaps natImg) 0 in
    let ver2_headerSize := 52 in
    let baseLayer := nth 0 (pvrNativeImage.mipmaps natImg) mipmapLayer.empty in
    let e := endianness_of isLittleEndian in
    let outputStream := outputStream ++ endian_store e 4 ver2_headerSize in
    let outputStream :=
      outputStream ++
      pvr_header_ver2 e (mipmapLayer.layerHeight baseLayer) (mipmapLayer.layerWidth baseLayer)
        ((Z.of_nat mipmapCount - 1) mod uint32_max) formatField totalSurfaceSize
        (pvrNativeImage.bitDepth natImg) in
    let outputStream :=
      fold_left (fun out mipLayer =>
                   out ++ block_bytes engineInterface (mipmapLayer.texels mipLayer)
                            (mipmapLayer.dataSize mipLayer))
        (pvrNativeImage.mipmaps natImg) outputStream in
    (Ok tt, outputStream).

(** ** Statements about the level loop, the reader and the writer *)

(** The image after [push_back] of each of the layers in turn. *)
Definition push_all (new : list mipmapLayer.t) (natImg : pvrNativeImage.t) : pvrNativeImage.t :=
  fold_left (fun img layer => pvrNativeImage.push_back layer img) new natImg.

(** What a run that started with the engine [e0] and stored the layers [new]
    has done to the heap when it has reached [e]: the blocks of [e0] are as
    they were, every block handed out since that is still allocated is the
    texels of one of the layers, and the texels of each layer are a block
    handed out since. *)
Definition holds_new_blocks (e0 e : Interface.t) (new : list mipmapLayer.t) : Prop :=
  (Interface.next_block e0 <= Interface.next_block e)%positive /\
  (forall p, (p < Interface.next_block e0)%positive ->
     Interface.heap e !! p = Interface.heap e0 !! p) /\
  (forall p, (Interface.next_block e0 <= p)%positive -> Interface.heap e !! p <> None ->
     Exists (fun l => mipmapLayer.texels l = Some p) new) /\
  Forall (fun l => exists p, mipmapLayer.texels l = Some p /\
                     (Interface.next_block e0 <= p < Interface.next_block e)%positive) new.

(** The layers are those of consecutive levels from the generator [gen] at
    the index [idx] on, and their blocks hold consecutive pieces of the
    stream [s], each of the size of its level. *)
Fixpoint level_chain (fmt : Z) (gen : mipGenLevelGenerator) (idx : Z)
    (layers : list mipmapLayer.t) (s : Stream) (heap : gmap positive (list Z)) : Prop :=
  match layers with
  | [] => True
  | layer :: layers' =>
      fst (next_level gen idx) = true /\
      let gen' := snd (next_level gen idx) in
      let size := level_size fmt gen' in
      Z.of_nat (length (take (Z.to_nat size) s)) = size /\
      exists block,
        layer = level_layer fmt gen' block /\
        heap !! block = Some (take (Z.to_nat size) s) /\
        level_chain fmt gen' (idx + 1) layers' (drop (Z.to_nat size) s) heap
  end.

(** The sum of the data sizes of the layers. *)
Definition total_size (layers : list mipmapLayer.t) : Z :=
  fold_right (fun layer total => mipmapLayer.dataSize layer + total) 0 layers.

(** A stream of bytes. *)
Definition is_byte (b : Z) : Prop := 0 <= b < 256.

(** Two layers have the same dimensions and data size, and their blocks, the
    first in the heap [h], the second in [h'], hold the same bytes. *)
Definition same_layer (h h' : gmap positive (list Z)) (l l' : mipmapLayer.t) : Prop :=
  mipmapLayer.width l' = mipmapLayer.width l /\
  mipmapLayer.height l' = mipmapLayer.height l /\
  mipmapLayer.layerWidth l' = mipmapLayer.layerWidth l /\
  mipmapLayer.layerHeight l' = mipmapLayer.layerHeight l /\
  mipmapLayer.dataSize l' = mipmapLayer.dataSize l /\
  exists p p' bytes,
    mipmapLayer.texels l = Some p /\ mipmapLayer.texels l' = Some p' /\
    h !! p = Some bytes /\ h' !! p' = Some bytes /\
    Z.of_nat (length bytes) = mipmapLayer.dataSize l.

(** Two images agree in everything but their layers. *)
Definition same_properties (a b : pvrNativeImage.t) : Prop :=
  pvrNativeImage.pixelFormat a = pvrNativeImage.pixelFormat b /\
  pvrNativeImage.dataIsTwiddled a = pvrNativeImage.dataIsTwiddled b /\
  pvrNativeImage.containsNormalData a = pvrNativeImage.containsNormalData b /\
  pvrNativeImage.hasBorder a = pvrNativeImage.hasBorder b /\
  pvrNativeImage.isCubeMap a = pvrNativeImage.isCubeMap b /\
  pvrNativeImage.mipmapsHaveDebugColoring a = pvrNativeImage.mipmapsHaveDebugColoring b /\
  pvrNativeImage.isVolumeTexture a = pvrNativeImage.isVolumeTexture b /\
  pvrNativeImage.hasAlphaChannel_pvrtc a = pvrNativeImage.hasAlphaChannel_pvrtc b /\
  pvrNativeImage.isVerticallyFlipped a = pvrNativeImage.isVerticallyFlipped b /\
  pvrNativeImage.bitDepth a = pvrNativeImage.bitDepth b /\
  pvrNativeImage.isLittleEndian a = pvrNativeImage.isLittleEndian b.

(** * Properties *)

(** ** The validity predicate *)

Lemma case_of_In (f : Z) (labels : list Z) : case_of f labels = true <-> In f labels.
Proof.
  unfold case_of. rewrite existsb_exists. split.
  - intros (x & Hin & Heq). apply Z.eqb_eq in Heq. now subst.
  - intros Hin. exists f. split; [assumption | apply Z.eqb_refl].
Qed.

Lemma case_of_subset (f : Z) (labels labels' : list Z) :
  forallb (fun x => case_of x labels') labels = true ->
  case_of f labels = true -> case_of f labels' = true.
Proof.
  intros Hall Hf. apply case_of_In in Hf. rewrite forallb_forall in Hall.
  exact (Hall f Hf).
Qed.

Lemma all_ids_complete (f : Z) : 0 <= f < 256 -> In f all_ids.
Proof.
  intros Hf. unfold all_ids. apply in_map_iff. exists (Z.to_nat f). split.
  - lia.
  - apply in_seq. lia.
Qed.

(** The predicate accepts exactly the enumerators other than [RGB_888]. *)
Lemma isValidPVRLegacyPixelFormat_spec (f : Z) :
  0 <= f < 256 ->
  isValidPVRLegacyPixelFormat f = case_of f enumerators && negb (f =? RGB_888).
Proof.
  intros Hf.
  assert (Hall : forallb (fun f => Bool.eqb (isValidPVRLegacyPixelFormat f)
                      (case_of f enumerators && negb (f =? RGB_888))) all_ids = true)
    by (vm_compute; reflexivity).
  rewrite forallb_forall in Hall.
  specialize (Hall f (all_ids_complete f Hf)).
  now apply Bool.eqb_prop in Hall.
Qed.

(** C2: the validity predicate is claimed to accept all 55 enumerators,
    [RGB_888 = 4] among them, and to reject every other 8-bit id.  The
    predicate rejects [RGB_888]: it is missing from the chain of comparisons.
    On every other 8-bit id the predicate is as claimed: it accepts the other
    54 enumerators and rejects the ids that are no enumerator. *)
Theorem isValidPVRLegacyPixelFormat_rejects_RGB_888 :
  isValidPVRLegacyPixelFormat RGB_888 = false /\
  getPVRLegacyPixelFormatType RGB_888 = RGBA /\
  getPVRLegacyFormatDepth RGB_888 = 24 /\
  length enumerators = 55%nat /\
  forallb (fun f => Bool.eqb (isValidPVRLegacyPixelFormat f)
                      (case_of f enumerators && negb (f =? RGB_888))) all_ids = true.
Proof. repeat split; vm_compute; reflexivity. Qed.

(** ** The legacy header *)

(** Whatever the stream, an accepted header is reported as little-endian:
    the branches for big-endian files test the same number as the branches
    for little-endian files and are never taken. *)
Lemma readLegacyVersionHeader_never_big_endian (s s' : Stream) (h : legacy_header) :
  readLegacyVersionHeader s = (Some h, s') -> isLittleEndianOut h = true.
Proof.
  unfold readLegacyVersionHeader.
  destruct (readStreamStruct 4 s) as [[bytes|] s0]; [|discriminate].
  destruct (endian_load little_endian bytes =? 44) eqn:E44.
  - unfold read_ver1. destruct (readStreamStruct 40 s0) as [[hd|] s1]; [|discriminate].
    intros [= <- _]. reflexivity.
  - destruct (endian_load little_endian bytes =? 52) eqn:E52; [|discriminate].
    unfold read_ver2. destruct (readStreamStruct 48 s0) as [[hd|] s1]; [|discriminate].
    destruct (negb (pvr_id little_endian hd =? 559044176)); [discriminate|].
    intros [= <- _]. reflexivity.
Qed.

(** C1: a file whose size field is 44 or 52 under the big-endian reading only
    is claimed to be accepted with big-endian decoding.  The reader rejects
    every stream that starts with the big-endian size 44 or 52, whatever
    follows: [be_header_size] is declared little-endian like
    [le_header_size]. *)
Theorem readLegacyVersionHeader_rejects_big_endian_files (rest : Stream) :
  fst (readLegacyVersionHeader ([0; 0; 0; 44] ++ rest)) = None /\
  fst (readLegacyVersionHeader ([0; 0; 0; 52] ++ rest)) = None.
Proof. split; reflexivity. Qed.

(** A little-endian version 1 header is accepted. *)
Example readLegacyVersionHeader_little_endian_v1 :
  option_map isLittleEndianOut
    (fst (readLegacyVersionHeader ([44; 0; 0; 0] ++ replicate 40 0))) = Some true.
Proof. reflexivity. Qed.

(** ** The sample codec *)

(** C3: the fetch on [ABGR_16161616] is claimed to return red, green, blue
    and alpha from the stored 16-bit channels.  The branch writes [blueOut]
    twice and never [redOut]: whatever the texel holds, the red output is the
    value the caller's variable had before the call.  Green, blue and alpha
    are the scaled stored channels.  For the little-endian texel with red
    65535 and the other channels 0, a caller whose variable held 0 gets red 0
    where the claim says 255. *)
Theorem getRGBA_ABGR_16161616_leaves_red (isLE : bool) (srcTexels : list Z)
    (colorIndex : Z) (out : rgba_refs) :
  (exists out',
     getRGBA (dispatcher_for ABGR_16161616 isLE) srcTexels colorIndex out = Ok (true, out') /\
     redOut out' = redOut out /\
     let '(alpha, blue, green, red) :=
       load4 (endianness_of isLE) [16; 16; 16; 16] srcTexels colorIndex in
     greenOut out' = destscalecolor green 65535 /\
     blueOut out' = destscalecolor blue 65535 /\
     alphaOut out' = destscalecolor alpha 65535) /\
  getRGBA (dispatcher_for ABGR_16161616 true) [0; 0; 0; 0; 0; 0; 255; 255] 0
    {| redOut := 0; greenOut := 0; blueOut := 0; alphaOut := 0 |}
  = Ok (true, {| redOut := 0; greenOut := 0; blueOut := 0; alphaOut := 0 |}) /\
  destscalecolor 65535 65535 = 255.
Proof.
  split; [|split; reflexivity].
  unfold getRGBA, dispatcher_for; cbn [colorModel pixelFormat isLittleEndian].
  change (getPVRLegacyPixelFormatType ABGR_16161616) with RGBA. cbv iota.
  unfold browsetexelrgba.
  repeat match goal with
         | |- context [case_of ?f ?l] =>
             let b := eval vm_compute in (case_of f l) in
             change (case_of f l) with b; cbv iota
         end.
  destruct (load4 (endianness_of isLE) [16; 16; 16; 16] srcTexels colorIndex)
    as [[[alpha blue] green] red].
  eexists. split; [reflexivity|]. cbn. repeat split.
Qed.

(** C4: on every luminance-classified format [setRGBA] returns [false] and
    leaves the destination buffer as it was, for every texel index and every
    colour. *)
Theorem setRGBA_luminance_no_write (f : ePVRLegacyPixelFormat.t) (isLE : bool)
    (dstTexels : list Z) (colorIndex red green blue alpha : Z) :
  getPVRLegacyPixelFormatType f = LUMINANCE ->
  setRGBA (dispatcher_for f isLE) dstTexels colorIndex red green blue alpha
  = Ok (false, dstTexels).
Proof.
  intros Hlum. unfold setRGBA, dispatcher_for; cbn [colorModel].
  rewrite Hlum. reflexivity.
Qed.

(** ** Surface dimensions and data sizes *)

(** Evaluate the case tests on a format that is known. *)
Ltac eval_case_of :=
  repeat match goal with
         | |- context [case_of ?f ?l] =>
             let b := eval vm_compute in (case_of f l) in
             change (case_of f l) with b; cbv iota
         end.

Lemma ALIGN_SIZE_round_up (n s : Z) : 0 < s -> is_round_up n s (ALIGN_SIZE n s).
Proof.
  intros Hs. unfold is_round_up, ALIGN_SIZE.
  pose proof (Z.div_mod (n + s - 1) s ltac:(lia)) as Hdm.
  pose proof (Z.mod_pos_bound (n + s - 1) s Hs) as Hr.
  split.
  - exists ((n + s - 1) / s). reflexivity.
  - lia.
Qed.

Lemma ALIGN_SIZE_ge (n s : Z) : 0 < s -> n <= ALIGN_SIZE n s.
Proof. intros Hs. apply (ALIGN_SIZE_round_up n s Hs). Qed.

Lemma ALIGN_SIZE_one (n : Z) : ALIGN_SIZE n 1 = n.
Proof. unfold ALIGN_SIZE. rewrite Z.div_1_r. lia. Qed.

Lemma uint32_small (n : Z) : 0 <= n < uint32_max -> uint32 n = n.
Proof. intros H. unfold uint32. now apply Z.mod_small. Qed.

Lemma uint32_range (n : Z) : 0 <= uint32 n < uint32_max.
Proof. unfold uint32. apply Z.mod_pos_bound. reflexivity. Qed.

(** A dimension that leaves room for a block below 2^32 is rounded up. *)
Lemma rounded_dimension_fits (n s : Z) :
  0 < s -> 0 <= n -> n + s <= uint32_max ->
  is_round_up n s (uint32 (ALIGN_SIZE n s)).
Proof.
  intros Hs Hn Hfit. pose proof (ALIGN_SIZE_round_up n s Hs) as Hr.
  rewrite uint32_small; [exact Hr|]. destruct Hr as [_ Hr]. lia.
Qed.

(** One that does not, for a block that divides 2^32, is stored as 0. *)
Lemma rounded_dimension_wraps (n s : Z) :
  0 < s -> (s | uint32_max) -> uint32_max - s < n < uint32_max ->
  uint32 (ALIGN_SIZE n s) = 0.
Proof.
  intros Hs [q Hq] Hn. destruct (ALIGN_SIZE_round_up n s Hs) as [[k Hk] Hb].
  assert (k = q) as -> by nia.
  unfold uint32. rewrite Hk, <- Hq. apply Z.mod_same. discriminate.
Qed.

Lemma row_size_is_ceiling (surfWidth depth : Z) :
  0 <= surfWidth * depth <= 8 * (uint32_max - 1) ->
  is_ceil_div8 (surfWidth * depth) (getPVRNativeImageRasterDataRowSize surfWidth depth).
Proof.
  intros Hfit.
  unfold getPVRNativeImageRasterDataRowSize, getRasterDataRowSize,
    getPVRNativeImageRowAlignment, is_ceil_div8.
  rewrite ALIGN_SIZE_one.
  destruct (ALIGN_SIZE_round_up (surfWidth * depth) 8 ltac:(lia)) as [[k Hk] Hb].
  rewrite Hk, Z.div_mul by lia.
  rewrite uint32_small by lia. lia.
Qed.

Lemma block_formats_are_compressed (f : Z) :
  case_of f [ V_Y1_U_Y0; Y1_V_Y0_U; UYVY; YUY2; DXT1; DXT2; DXT3; DXT4; DXT5; ETC;
              PVRTC2; PVRTC4; PVRTC2_SEC; PVRTC4_SEC ] = true ->
  getPVRLegacyPixelFormatType f = COMPRESSED.
Proof.
  rewrite case_of_In. cbn [In]. intros H.
  repeat (destruct H as [<- | H]; [reflexivity|]). destruct H.
Qed.

Lemma raw_formats_keep_dimensions (f layerWidth layerHeight : Z) :
  getPVRLegacyPixelFormatType f <> COMPRESSED ->
  getPVRLegacyFormatSurfaceDimensions f layerWidth layerHeight = (layerWidth, layerHeight).
Proof.
  intros Hraw. unfold getPVRLegacyFormatSurfaceDimensions.
  destruct (case_of f [V_Y1_U_Y0; Y1_V_Y0_U; UYVY; YUY2]) eqn:E2.
  { exfalso. apply Hraw, block_formats_are_compressed.
    revert E2. apply case_of_subset. reflexivity. }
  destruct (case_of f [DXT1; DXT2; DXT3; DXT4; DXT5; ETC]) eqn:E4.
  { exfalso. apply Hraw, block_formats_are_compressed.
    revert E4. apply case_of_subset. reflexivity. }
  destruct (case_of f [PVRTC2; PVRTC4; PVRTC2_SEC; PVRTC4_SEC]) eqn:Ep.
  { exfalso. apply Hraw, block_formats_are_compressed.
    revert Ep. apply case_of_subset. reflexivity. }
  reflexivity.
Qed.

(** Where no [uint32] wraps, the surface dimensions are the layer dimensions
    for the RGBA and luminance formats; each is rounded up to a multiple of 2
    for the 2x2 block formats, of 4 for DXT1 to DXT5 and ETC (10x10 gives
    12x12 for DXT1), and of the block dimensions that the lookup by bit depth
    gives for the PVRTC formats.  The row size is the ceiling of
    width x depth / 8, the row alignment being 1. *)
Lemma surface_dimensions_when_representable (f layerWidth layerHeight : Z) :
  0 <= layerWidth -> 0 <= layerHeight ->
  let surf := getPVRLegacyFormatSurfaceDimensions f layerWidth layerHeight in
  (getPVRLegacyPixelFormatType f = RGBA \/ getPVRLegacyPixelFormatType f = LUMINANCE ->
   surf = (layerWidth, layerHeight)) /\
  (In f [ V_Y1_U_Y0; Y1_V_Y0_U; UYVY; YUY2 ] ->
   layerWidth + 2 <= uint32_max -> layerHeight + 2 <= uint32_max ->
   is_round_up layerWidth 2 (fst surf) /\ is_round_up layerHeight 2 (snd surf)) /\
  (In f [ DXT1; DXT2; DXT3; DXT4; DXT5; ETC ] ->
   layerWidth + 4 <= uint32_max -> layerHeight + 4 <= uint32_max ->
   is_round_up layerWidth 4 (fst surf) /\ is_round_up layerHeight 4 (snd surf)) /\
  (In f [ PVRTC2; PVRTC4; PVRTC2_SEC; PVRTC4_SEC ] ->
   let '(comprBlockWidth, comprBlockHeight) :=
     getPVRCompressionBlockDimensions (getPVRLegacyFormatDepth f) in
   0 < comprBlockWidth -> 0 < comprBlockHeight ->
   layerWidth + comprBlockWidth <= uint32_max ->
   layerHeight + comprBlockHeight <= uint32_max ->
   is_round_up layerWidth comprBlockWidth (fst surf) /\
   is_round_up layerHeight comprBlockHeight (snd surf)) /\
  getPVRLegacyFormatSurfaceDimensions DXT1 10 10 = (12, 12) /\
  getPVRNativeImageRowAlignment = 1 /\
  (forall surfWidth bitDepth,
     0 <= surfWidth * bitDepth <= 8 * (uint32_max - 1) ->
     is_ceil_div8 (surfWidth * bitDepth)
       (getPVRNativeImageRasterDataRowSize surfWidth bitDepth)) /\
  level_size DXT1 {| getLevelWidth := 10; getLevelHeight := 10 |} = 72.
Proof.
  intros Hw0 Hh0. cbv zeta. repeat apply conj.
  - intros Hraw. apply raw_formats_keep_dimensions.
    destruct Hraw as [-> | ->]; discriminate.
  - cbn [In]. intros H Hw Hh.
    repeat (destruct H as [<- | H];
            [unfold getPVRLegacyFormatSurfaceDimensions; eval_case_of;
             cbn [fst snd]; split; apply rounded_dimension_fits; lia|]).
    destruct H.
  - cbn [In]. intros H Hw Hh.
    repeat (destruct H as [<- | H];
            [unfold getPVRLegacyFormatSurfaceDimensions; eval_case_of;
             cbn [fst snd]; split; apply rounded_dimension_fits; lia|]).
    destruct H.
  - cbn [In]. intros H.
    repeat (destruct H as [<- | H];
            [unfold getPVRLegacyFormatSurfaceDimensions; eval_case_of;
             destruct (getPVRCompressionBlockDimensions _) as [bw bh];
             cbn [fst snd]; intros Hbw Hbh Hw Hh;
             split; apply rounded_dimension_fits; assumption|]).
    destruct H.
  - reflexivity.
  - reflexivity.
  - apply row_size_is_ceiling.
  - reflexivity.
Qed.

(** C5: the surface dimensions are claimed to be the layer dimensions
    rounded up to the block, and the size of a level the row size times the
    surface height, for every layer size.  The code keeps them in [uint32]:
    for every 2x2 and 4x4 block format the width 4294967295 rounds up to
    2^32, which is stored as 0, so that a DXT1 layer of 4294967295 x 1 gets
    the surface 0 x 4; the row size of a width of 2^31 at 32 bits is 0; and
    the level of 32768 x 32768 texels of ARGB_8888 has the size 0. *)
Theorem surface_dimensions_wrap_around :
  (forall f layerHeight,
     In f [ V_Y1_U_Y0; Y1_V_Y0_U; UYVY; YUY2; DXT1; DXT2; DXT3; DXT4; DXT5; ETC ] ->
     fst (getPVRLegacyFormatSurfaceDimensions f 4294967295 layerHeight) = 0) /\
  getPVRLegacyFormatSurfaceDimensions DXT1 4294967295 1 = (0, 4) /\
  ~ is_round_up 4294967295 4
      (fst (getPVRLegacyFormatSurfaceDimensions DXT1 4294967295 1)) /\
  getPVRNativeImageRasterDataRowSize 2147483648 32 = 0 /\
  level_size ARGB_8888 {| getLevelWidth := 32768; getLevelHeight := 32768 |} = 0.
Proof.
  repeat apply conj.
  - intros f layerHeight. cbn [In]. intros H.
    repeat (destruct H as [<- | H];
            [unfold getPVRLegacyFormatSurfaceDimensions; eval_case_of;
             cbn [fst]; reflexivity|]).
    destruct H.
  - reflexivity.
  - intros [_ Hbound].
    change (fst (getPVRLegacyFormatSurfaceDimensions DXT1 4294967295 1)) with 0 in Hbound.
    lia.
  - reflexivity.
  - reflexivity.
Qed.

(** ** ReadNativeImage *)

Ltac unfold_M :=
  unfold bind, ret, throw, when, PushWarning, PixelAllocate, PixelFree, with_engine,
    with_input, update_image, checkAhead, read_into.

(** A turn of the loop that does not throw either ends the loop, no level
    being left, or stores one layer and goes on. *)
Lemma read_levels_turn (n : nat) (fmt : Z) (gen : mipGenLevelGenerator) (rem idx : Z)
    (m m' : machine) (r : Z * Z) :
  read_levels (S n) fmt (getPVRLegacyFormatDepth fmt) gen rem idx m = (Ok r, m') ->
  (fst (next_level gen idx) = false /\ r = (rem, idx) /\ m' = m) \/
  (fst (next_level gen idx) = true /\
   let gen' := snd (next_level gen idx) in
   let size := level_size fmt gen' in
   size <= rem /\
   exists block e',
     Interface.PixelAllocate indeterminate size (engine m) = (Some block, e') /\
     read_levels n fmt (getPVRLegacyFormatDepth fmt) gen' (rem - size) (idx + 1)
       {| engine := Interface.write block (take (Z.to_nat size) (input m)) e';
          image := pvrNativeImage.push_back (level_layer fmt gen' block) (image m);
          input := drop (Z.to_nat size) (input m) |}
     = (Ok r, m')).
Proof.
  cbn [read_levels]. unfold next_level, level_layer; unfold level_size; cbv zeta.
  destruct (if negb (idx =? 0) then incrementLevel gen else (true, gen)) as [est gen'].
  cbn [fst snd].
  destruct est; cbn [negb].
  2:{ intros [= <- <-]. left. auto. }
  destruct (getPVRLegacyFormatSurfaceDimensions fmt (getLevelWidth gen') (getLevelHeight gen'))
    as [sw sh].
  destruct (rem <? _) eqn:Erem; [discriminate|].
  unfold_M.
  destruct (Z.of_nat (length (input m)) <? _) eqn:Eahead; [discriminate|].
  destruct (Interface.PixelAllocate _ _ _) as [[block|] e'] eqn:Ealloc; [|discriminate].
  cbn [engine image input stream_read].
  destruct (negb (_ =? _)) eqn:Ecount; [discriminate|].
  cbn [engine image input].
  intros Hrun. right. cbv zeta. split; [reflexivity|]. split; [lia|].
  exists block, e'. split; [reflexivity|]. exact Hrun.
Qed.

(** The checks on the properties neither touch the image and the stream nor
    allocate. *)
Lemma verify_properties_frame (ff : pvr_legacy_formatField.t) (w h bpp : Z)
    (m m' : machine) (r : result unit) :
  verify_properties ff w h bpp m = (r, m') ->
  image m' = image m /\ input m' = input m /\
  Interface.requests (engine m') = Interface.requests (engine m) /\
  Interface.heap (engine m') = Interface.heap (engine m).
Proof.
  unfold verify_properties. unfold_M.
  repeat match goal with
         | |- context [if ?b then _ else _] => destruct b
         | |- context [match ?c with UNKNOWN => _ | _ => _ end] => destruct c
         end;
    intros [= <- <-]; cbn; auto.
Qed.

Lemma compressed_formats_are_valid (f : Z) :
  getPVRLegacyPixelFormatType f = COMPRESSED -> isValidPVRLegacyPixelFormat f = true.
Proof.
  unfold getPVRLegacyPixelFormatType.
  destruct (case_of f _); [discriminate|].
  destruct (case_of f _); [discriminate|].
  destruct (case_of f _) eqn:E; [|discriminate].
  intros _. apply case_of_In in E. cbn [In] in E.
  repeat (destruct E as [<- | E]; [reflexivity|]). destruct E.
Qed.

(** A twiddled image whose size is no power-of-two square, or whose format
    is not compressed, does not pass the checks. *)
Lemma verify_properties_twiddled_throws (ff : pvr_legacy_formatField.t) (w h bpp : Z)
    (m : machine) :
  pvr_legacy_formatField.dataIsTwiddled ff = true ->
  IsMipmapSizeValid_pot_squared w h = false \/
  getPVRLegacyPixelFormatType (pvr_legacy_formatField.pixelFormat ff) <> COMPRESSED ->
  exists what m', verify_properties ff w h bpp m = (Throw what, m').
Proof.
  intros Htw Hbad. unfold verify_properties. rewrite Htw. unfold_M.
  destruct (negb (isValidPVRLegacyPixelFormat _)); [eauto|].
  destruct (negb (bpp =? _));
    (destruct (pvr_legacy_formatField.isCubeMap ff); [eauto|];
     destruct (pvr_legacy_formatField.isVolumeTexture ff); [eauto|];
     destruct (pvr_legacy_formatField.isVerticallyFlipped ff); [eauto|];
     destruct (IsMipmapSizeValid_pot_squared w h); cbn [negb]; [|eauto];
     destruct Hbad as [Hbad | Hbad]; [discriminate|];
     destruct (getPVRLegacyPixelFormatType _); try congruence; eauto).
Qed.

(** A twiddled power-of-two square image of a compressed format passes the
    checks when none of the unsupported flags is set. *)
Lemma verify_properties_twiddled_passes (ff : pvr_legacy_formatField.t) (w h bpp : Z)
    (m : machine) :
  IsMipmapSizeValid_pot_squared w h = true ->
  getPVRLegacyPixelFormatType (pvr_legacy_formatField.pixelFormat ff) = COMPRESSED ->
  pvr_legacy_formatField.isCubeMap ff = false ->
  pvr_legacy_formatField.isVolumeTexture ff = false ->
  pvr_legacy_formatField.isVerticallyFlipped ff = false ->
  exists m', verify_properties ff w h bpp m = (Ok tt, m').
Proof.
  intros Hsize Hclass Hcube Hvol Hflip. unfold verify_properties.
  rewrite (compressed_formats_are_valid _ Hclass), Hsize, Hclass, Hcube, Hvol, Hflip.
  unfold_M. cbn [negb].
  destruct (negb (bpp =? _)); destruct (pvr_legacy_formatField.dataIsTwiddled ff); eauto.
Qed.

(** What [ReadNativeImage] does once the header is read. *)
Lemma ReadNativeImage_after_header (m : machine) (h : legacy_header) (rest : Stream) :
  readLegacyVersionHeader (input m) = (Some h, rest) ->
  ReadNativeImage m = read_body h {| engine := engine m; image := image m; input := rest |}.
Proof.
  intros Hh. unfold ReadNativeImage, bind, with_input. rewrite Hh. reflexivity.
Qed.

(** A load that does not pass the checks throws; it has stored nothing in
    the image and has allocated nothing. *)
Lemma read_body_checks_throw (h : legacy_header) (m m1 : machine) (what : String.string) :
  verify_properties (formatFieldOut h) (widthOut h) (heightOut h) (bitsPerPixelOut h) m
  = (Throw what, m1) ->
  read_body h m = (Throw what, m1).
Proof.
  intros Hv. unfold read_body. cbv zeta. unfold bind at 1. rewrite Hv. reflexivity.
Qed.

(** The checks of a turn come before its allocation: with a remaining
    budget below the size of the level, the turn throws and leaves the engine,
    the image and the stream as they were. *)
Lemma read_levels_too_little_surface_data (n : nat) (fmt : Z) (gen : mipGenLevelGenerator)
    (rem idx : Z) (m : machine) :
  fst (next_level gen idx) = true ->
  rem < level_size fmt (snd (next_level gen idx)) ->
  read_levels (S n) fmt (getPVRLegacyFormatDepth fmt) gen rem idx m
  = (Throw "too little surface data in PVR native image", m).
Proof.
  cbn [read_levels]. unfold next_level, level_size. cbv zeta.
  destruct (if negb (idx =? 0) then incrementLevel gen else (true, gen)) as [est gen'].
  cbn [fst snd]. intros -> Hrem. cbn [negb].
  destruct (getPVRLegacyFormatSurfaceDimensions fmt (getLevelWidth gen') (getLevelHeight gen'))
    as [sw sh].
  apply Z.ltb_lt in Hrem. rewrite Hrem. reflexivity.
Qed.

(** Fewer levels than declared and a budget that is not used up are not
    errors: the code after the loop never throws, keeps the image and the
    heap, and skips the bytes of the budget that is left. *)
Lemma after_levels_succeeds (mipmapCount remaining mip_index : Z) (m : machine) :
  exists m',
    after_levels mipmapCount (remaining, mip_index) m = (Ok tt, m') /\
    image m' = image m /\
    Interface.heap (engine m') = Interface.heap (engine m) /\
    Interface.requests (engine m') = Interface.requests (engine m) /\
    input m' = (if remaining =? 0 then input m else stream_skip remaining (input m)) /\
    (mip_index <> mipmapCount ->
     In "PVR native image specified more mipmap layers than could be read"%string
        (Interface.warnings (engine m'))) /\
    (remaining <> 0 ->
     In "PVR native image has surface meta-data"%string (Interface.warnings (engine m'))).
Proof.
  unfold after_levels. unfold_M.
  destruct (mip_index =? mipmapCount) eqn:Eidx; destruct (remaining =? 0) eqn:Erem;
    cbn [negb]; eexists; (split; [reflexivity|]); cbn;
    repeat split; try reflexivity; intros Hne;
    try (apply Z.eqb_eq in Eidx; contradiction);
    try (apply Z.eqb_eq in Erem; contradiction); auto.
Qed.

(** [read_body] by its stages. *)
Lemma read_body_stages (h : legacy_header) (m m1 : machine) :
  verify_properties (formatFieldOut h) (widthOut h) (heightOut h) (bitsPerPixelOut h) m
  = (Ok tt, m1) ->
  let pixelFormat := pvr_legacy_formatField.pixelFormat (formatFieldOut h) in
  let mipmapCount := (mipmapCountOut h + 1) mod uint32_max in
  let mipGen := {| getLevelWidth := widthOut h; getLevelHeight := heightOut h |} in
  let m2 :=
    {| engine := engine m1;
       image := store_properties pixelFormat
                  (pvr_legacy_formatField.dataIsTwiddled (formatFieldOut h))
                  (formatFieldOut h) (getPVRLegacyFormatDepth pixelFormat)
                  (isLittleEndianOut h) (image m1);
       input := input m1 |} in
  read_body h m =
    if negb (isValidLevel mipGen)
    then (Throw "invalid image dimensions in PVR native image", m2)
    else match read_levels (Z.to_nat mipmapCount) pixelFormat
                 (getPVRLegacyFormatDepth pixelFormat) mipGen (surfaceSizeOut h) 0 m2 with
         | (Ok r, m3) => after_levels mipmapCount r m3
         | (Throw what, m3) => (Throw what, m3)
         end.
Proof.
  intros Hv. cbv zeta. unfold read_body. cbv zeta. unfold bind at 1. rewrite Hv.
  unfold bind at 1. unfold update_image at 1.
  unfold bind at 1. unfold when at 1.
  destruct (negb (isValidLevel _)); [reflexivity|].
  unfold ret at 1. unfold bind at 1.
  destruct (read_levels _ _ _ _ _ _ _) as [[[rem idx]|what] m3]; reflexivity.
Qed.

(** X1: a header that declares fewer bytes than the base level takes is
    rejected before anything is allocated, provided the loop is entered: the
    stored level count plus one must not wrap to zero.  The size of the base
    level is the one the loop computes in its [uint32], that is modulo
    2^32. *)
Lemma small_surfaceSize_rejected (h : legacy_header) (m m1 : machine) :
  verify_properties (formatFieldOut h) (widthOut h) (heightOut h) (bitsPerPixelOut h) m
  = (Ok tt, m1) ->
  let pixelFormat := pvr_legacy_formatField.pixelFormat (formatFieldOut h) in
  let mipGen := {| getLevelWidth := widthOut h; getLevelHeight := heightOut h |} in
  isValidLevel mipGen = true ->
  0 < (mipmapCountOut h + 1) mod uint32_max ->
  surfaceSizeOut h < level_size pixelFormat mipGen ->
  exists m',
    read_body h m = (Throw "too little surface data in PVR native image", m') /\
    Interface.requests (engine m') = Interface.requests (engine m) /\
    pvrNativeImage.mipmaps (image m') = pvrNativeImage.mipmaps (image m).
Proof.
  intros Hv. cbv zeta. intros Hvalid Hcount Hsmall.
  rewrite (read_body_stages h m m1 Hv). cbv zeta. rewrite Hvalid. cbn [negb].
  destruct (Z.to_nat ((mipmapCountOut h + 1) mod uint32_max)) as [|n] eqn:En; [lia|].
  rewrite read_levels_too_little_surface_data; [|reflexivity|exact Hsmall].
  eexists. split; [reflexivity|].
  apply verify_properties_frame in Hv. cbn. destruct Hv as (-> & _ & -> & _). auto.
Qed.

(** C7: a header whose [surfaceSize] is below the size of the base level is
    claimed to be rejected before any allocation.  The stored level count
    0xFFFFFFFF makes [mipmapCount++] wrap to 0: the loop and its check are
    skipped, and the load of a 4x4 ARGB_8888 image (base level 64 bytes) that
    declares 16 bytes succeeds with no layer, nothing allocated, and only
    the warning about bytes that were left. *)
Theorem ReadNativeImage_level_count_wrap :
  let header :=
    [ 44; 0; 0; 0;        4; 0; 0; 0;          4; 0; 0; 0;    255; 255; 255; 255;
      5; 0; 0; 0;         16; 0; 0; 0;         32; 0; 0; 0;
      0; 0; 0; 0;  0; 0; 0; 0;  0; 0; 0; 0;  0; 0; 0; 0 ] in
  let m := {| engine := Interface.start []; image := pvrNativeImage.constructed;
              input := header ++ replicate 64 0 |} in
  (exists h rest,
     readLegacyVersionHeader (input m) = (Some h, rest) /\
     surfaceSizeOut h = 16 /\ mipmapCountOut h = 4294967295 /\
     level_size (pvr_legacy_formatField.pixelFormat (formatFieldOut h))
       {| getLevelWidth := widthOut h; getLevelHeight := heightOut h |} = 64) /\
  exists m',
    ReadNativeImage m = (Ok tt, m') /\
    pvrNativeImage.mipmaps (image m') = [] /\
    Interface.requests (engine m') = [] /\
    Interface.warnings (engine m') = ["PVR native image has surface meta-data"%string].
Proof.
  cbv zeta. split.
  - eexists. eexists. repeat split; vm_compute; reflexivity.
  - eexists. repeat split; vm_compute; reflexivity.
Qed.

(** ** Round trip of the sample codec *)

Lemma unpack_pack (widths : list Z) : forall values,
  length values = length widths ->
  Forall (fun w => 0 <= w) widths ->
  unpack widths (pack widths values) = zip_with (fun w v => v mod 2 ^ w) widths values.
Proof.
  induction widths as [|w widths IH]; intros values Hlen Hpos.
  - reflexivity.
  - destruct values as [|v values]; [discriminate|].
    apply Forall_cons in Hpos as [Hw Hpos]. injection Hlen as Hlen.
    cbn [pack unpack zip_with].
    assert (H2 : 0 < 2 ^ w) by (apply Z.pow_pos_nonneg; lia).
    pose proof (Z.mod_pos_bound v (2 ^ w) H2) as Hv.
    f_equal.
    + rewrite Z.mul_comm, Z_mod_plus_full. apply Z.mod_small, Hv.
    + rewrite Z.mul_comm, Z.div_add by lia.
      rewrite Z.div_small by exact Hv. cbn. now apply IH.
Qed.

Lemma pack_bound (widths : list Z) : forall values,
  Forall (fun w => 0 <= w) widths ->
  0 <= pack widths values < 2 ^ fold_right Z.add 0 widths.
Proof.
  induction widths as [|w widths IH]; intros values Hpos.
  - cbn. destruct values; lia.
  - apply Forall_cons in Hpos as [Hw Hpos].
    destruct values as [|v values].
    + cbn [pack]. split; [lia|]. apply Z.pow_pos_nonneg; [lia|].
      cbn [fold_right]. clear IH. induction Hpos; cbn [fold_right]; lia.
    + cbn [pack fold_right].
      assert (Hsum : 0 <= fold_right Z.add 0 widths)
        by (clear IH; induction Hpos; cbn [fold_right]; lia).
      rewrite Z.pow_add_r by lia.
      assert (H2 : 0 < 2 ^ w) by (apply Z.pow_pos_nonneg; lia).
      pose proof (Z.mod_pos_bound v (2 ^ w) H2) as Hv.
      specialize (IH values Hpos). nia.
Qed.

Lemma length_bytes_of (n : nat) : forall word, length (bytes_of n word) = n.
Proof. induction n as [|n IH]; intros word; cbn; [reflexivity | now rewrite IH]. Qed.

Lemma word_of_bytes_of (n : nat) : forall word,
  0 <= word < 256 ^ Z.of_nat n -> word_of (bytes_of n word) = word.
Proof.
  induction n as [|n IH]; intros word Hword.
  - cbn in Hword |- *. lia.
  - cbn [bytes_of word_of].
    rewrite Nat2Z.inj_succ, Z.pow_succ_r in Hword by lia.
    rewrite IH.
    + pose proof (Z.div_mod word 256 ltac:(lia)). lia.
    + split; [apply Z.div_pos; lia|].
      apply Z.div_lt_upper_bound; lia.
Qed.

Lemma endian_load_store (e : endianness) (n : nat) (word : Z) :
  0 <= word < 256 ^ Z.of_nat n -> endian_load e (endian_store e n word) = word.
Proof.
  intros Hword. destruct e; cbn [endian_load endian_store].
  - now apply word_of_bytes_of.
  - rewrite rev_involutive. now apply word_of_bytes_of.
Qed.

Lemma length_endian_store (e : endianness) (n : nat) (word : Z) :
  length (endian_store e n word) = n.
Proof.
  destruct e; cbn [endian_store]; [|rewrite length_rev]; apply length_bytes_of.
Qed.

(** A texel that fits in the buffer is read back as it was stored, each
    member cut to the width of its field. *)
Lemma load_store_item (e : endianness) (color : list Z) (buf : list Z) (colorIndex : Z)
    (item : list Z) :
  Forall (fun w => 0 <= w) color ->
  fold_right Z.add 0 color = 8 * Z.of_nat (sizeof color) ->
  length item = length color ->
  0 <= colorIndex ->
  (colorIndex + 1) * Z.of_nat (sizeof color) <= Z.of_nat (length buf) ->
  load_item e color (store_item e color buf colorIndex item) colorIndex
  = zip_with (fun w v => v mod 2 ^ w) color item.
Proof.
  intros Hpos Hsize Hlen Hidx Hfit. unfold load_item, store_item.
  set (n := sizeof color) in Hsize, Hfit |- *. set (off := (Z.to_nat colorIndex * n)%nat).
  assert (Hoff : (off + n <= length buf)%nat) by (subst off; nia).
  apply Nat.leb_le in Hoff as Hoffb. rewrite Hoffb.
  rewrite drop_app_length' by (rewrite length_take_le; lia).
  rewrite take_app_length' by (now rewrite length_endian_store).
  rewrite endian_load_store.
  - now apply unpack_pack.
  - pose proof (pack_bound color item Hpos) as Hb. rewrite Hsize in Hb.
    replace (256 ^ Z.of_nat n) with (2 ^ (8 * Z.of_nat n)); [exact Hb|].
    rewrite Z.pow_mul_r by lia. reflexivity.
Qed.

Lemma length_store_item (e : endianness) (color : list Z) (buf : list Z) (colorIndex : Z)
    (item : list Z) :
  length (store_item e color buf colorIndex item) = length buf.
Proof.
  unfold store_item. destruct (_ <=? _)%nat eqn:E; [|reflexivity].
  apply Nat.leb_le in E.
  rewrite !length_app, length_endian_store, length_take_le, length_drop by lia. lia.
Qed.

Lemma putscalecolor_range (v max : Z) :
  0 <= v <= 255 -> 0 < max -> 0 <= putscalecolor v max <= max.
Proof.
  intros Hv Hmax. unfold putscalecolor, scalecolor.
  assert (H0 : 0 <= v * max) by (apply Z.mul_nonneg_nonneg; lia).
  assert (H1 : v * max <= 255 * max) by (apply Z.mul_le_mono_nonneg_r; lia).
  assert (H2 : (2 * v * max + 255) / (2 * 255) < max + 1)
    by (apply Z.div_lt_upper_bound; lia).
  split; [apply Z.div_pos|]; lia.
Qed.

Lemma putscalecolor_fits (v max width : Z) :
  0 <= v <= 255 -> 0 < max -> max < 2 ^ width ->
  putscalecolor v max mod 2 ^ width = putscalecolor v max.
Proof.
  intros Hv Hmax Hw. apply Z.mod_small.
  pose proof (putscalecolor_range v max Hv Hmax). lia.
Qed.

(** Evaluate the classification of a format that is known. *)
Ltac eval_class :=
  repeat match goal with
         | |- context [getPVRLegacyPixelFormatType ?f] =>
             let c := eval vm_compute in (getPVRLegacyPixelFormatType f) in
             change (getPVRLegacyPixelFormatType f) with c; cbv iota
         end.

(** The side conditions of [load_store_item] for a layout that is known. *)
Ltac layout_conditions Hidx Hfit :=
  first [ exact Hidx | exact Hfit | reflexivity
        | repeat constructor; lia ].

Ltac fits :=
  rewrite ?putscalecolor_fits by (first [assumption | lia | reflexivity]).

Lemma round_trip_rgba (f : Z) (isLE : bool) (buf : list Z)
    (colorIndex red green blue alpha : Z) (out : rgba_refs)
    (cr cg cb ca : channel) :
  rgba_channels f = Some (cr, cg, cb, ca) ->
  0 <= colorIndex ->
  (colorIndex + 1) * (getPVRLegacyFormatDepth f / 8) <= Z.of_nat (length buf) ->
  0 <= red <= 255 -> 0 <= green <= 255 -> 0 <= blue <= 255 -> 0 <= alpha <= 255 ->
  exists buf',
    setRGBA (dispatcher_for f isLE) buf colorIndex red green blue alpha = Ok (true, buf') /\
    length buf' = length buf /\
    getRGBA (dispatcher_for f isLE) buf' colorIndex out
    = Ok (true, {| redOut := requantize cr red; greenOut := requantize cg green;
                   blueOut := requantize cb blue; alphaOut := requantize ca alpha |}).
Proof.
  intros Hch Hidx Hfit Hr Hg Hb Ha.
  unfold rgba_channels in Hch.
  repeat match type of Hch with
         | (if case_of f ?l then _ else _) = _ =>
             let E := fresh "E" in
             destruct (case_of f l) eqn:E;
             [ apply case_of_In in E; cbn [In] in E;
               injection Hch as <- <- <- <-
             | ]
         end; [ .. | discriminate ].
  all: repeat match goal with
              | E : _ \/ _ |- _ => destruct E as [<- | E]
              | E : False |- _ => destruct E
              end.
  all: unfold setRGBA, getRGBA, dispatcher_for;
       cbn [colorModel pixelFormat isLittleEndian]; eval_class;
       unfold puttexelrgba; eval_case_of;
       (eexists; split; [reflexivity|]); split; [apply length_store_item|];
       unfold browsetexelrgba; eval_case_of;
       unfold load4, load3, load2, load1;
       rewrite load_store_item by layout_conditions Hidx Hfit;
       cbn [zip_with member nth];
       unfold set_redOut, set_greenOut, set_blueOut, set_alphaOut;
       cbn [redOut greenOut blueOut alphaOut requantize].
  all: fits.
  all: try reflexivity.
  all: destruct (alpha =? 255); reflexivity.
Qed.

Lemma round_trip_luminance (f : Z) (isLE : bool) (buf : list Z)
    (colorIndex lum alpha : Z) (out : lum_refs) (cl ca : channel) :
  lum_channels f = Some (cl, ca) ->
  0 <= colorIndex ->
  (colorIndex + 1) * (getPVRLegacyFormatDepth f / 8) <= Z.of_nat (length buf) ->
  0 <= lum <= 255 -> 0 <= alpha <= 255 ->
  exists buf',
    setLuminance (dispatcher_for f isLE) buf colorIndex lum alpha = Ok (true, buf') /\
    length buf' = length buf /\
    getLuminance (dispatcher_for f isLE) buf' colorIndex out
    = Ok (true, {| lumOut := requantize cl lum; lumAlphaOut := requantize ca alpha |}).
Proof.
  intros Hch Hidx Hfit Hl Ha.
  unfold lum_channels in Hch.
  repeat match type of Hch with
         | (if case_of f ?l then _ else _) = _ =>
             let E := fresh "E" in
             destruct (case_of f l) eqn:E;
             [ apply case_of_In in E; cbn [In] in E;
               injection Hch as <- <-
             | ]
         end; [ .. | discriminate ].
  all: repeat match goal with
              | E : _ \/ _ |- _ => destruct E as [<- | E]
              | E : False |- _ => destruct E
              end.
  all: unfold setLuminance, getLuminance, getLuminance_LUMINANCE, dispatcher_for;
       cbn [colorModel pixelFormat isLittleEndian]; eval_class;
       unfold puttexellum; eval_case_of;
       (eexists; split; [reflexivity|]); split; [apply length_store_item|];
       unfold browsetexellum; eval_case_of;
       unfold load2, load1;
       rewrite load_store_item by layout_conditions Hidx Hfit;
       cbn [zip_with member nth requantize].
  all: fits.
  all: reflexivity.
Qed.

(** The 32-bit float formats store a channel as [destscalecolorf] makes a
    single of it and fetch what [destscalecolorf] makes of the single. *)
Lemma round_trip_float (f : Z) (isLE : bool) (buf : list Z)
    (colorIndex red green blue alpha : Z) (out : rgba_refs) :
  In f [ R_32F; GR_3232F; ABGR_32323232F ] ->
  (forall v, 0 <= destscalecolorf_store v < 2 ^ 32) ->
  0 <= colorIndex ->
  (colorIndex + 1) * (getPVRLegacyFormatDepth f / 8) <= Z.of_nat (length buf) ->
  exists buf',
    setRGBA (dispatcher_for f isLE) buf colorIndex red green blue alpha = Ok (true, buf') /\
    length buf' = length buf /\
    getRGBA (dispatcher_for f isLE) buf' colorIndex out
    = Ok (true,
          {| redOut := destscalecolorf (destscalecolorf_store red);
             greenOut := if f =? R_32F then 0
                         else destscalecolorf (destscalecolorf_store green);
             blueOut := if f =? ABGR_32323232F
                        then destscalecolorf (destscalecolorf_store blue) else 0;
             alphaOut := if f =? ABGR_32323232F
                         then destscalecolorf (destscalecolorf_store alpha) else 255 |}).
Proof.
  intros Hf Hsingle Hidx Hfit. cbn [In] in Hf.
  repeat match type of Hf with
         | _ \/ _ => destruct Hf as [<- | Hf]
         | False => destruct Hf
         end.
  all: unfold setRGBA, getRGBA, dispatcher_for;
       cbn [colorModel pixelFormat isLittleEndian]; eval_class;
       unfold puttexelrgba; eval_case_of;
       (eexists; split; [reflexivity|]); split; [apply length_store_item|];
       unfold browsetexelrgba; eval_case_of;
       unfold load4, load3, load2, load1;
       rewrite load_store_item by layout_conditions Hidx Hfit;
       cbn [zip_with member nth];
       unfold set_redOut, set_greenOut, set_blueOut, set_alphaOut;
       cbn [redOut greenOut blueOut alphaOut];
       rewrite ?(Z.mod_small _ (2 ^ 32)) by apply Hsingle;
       reflexivity.
Qed.

(** C8, as the code has it: for the RGBA formats whose store and fetch agree
    on the layout ([rgba_channels]) and for the luminance formats the codec
    handles ([lum_channels]), a store followed by a fetch at the same index
    gives every stored channel scaled to the maximum of its field and back
    (130 gives 132 in a 5-bit field); a one-bit alpha comes back as 255 for
    the input 255 and as 0 otherwise, and a channel the format does not store
    comes back as the constant the fetch supplies.  The three 32-bit float
    formats give every stored channel as [destscalecolorf] converts it to a
    single and back.  The three half-float formats and [MONOCHROME] have no
    codec: the store writes nothing and the fetch finds no colour.  The
    buffer keeps its length. *)
Theorem sample_codec_round_trip (f : Z) (isLE : bool) (buf : list Z)
    (colorIndex red green blue alpha lum : Z) (out : rgba_refs) (lout : lum_refs) :
  0 <= colorIndex ->
  (colorIndex + 1) * (getPVRLegacyFormatDepth f / 8) <= Z.of_nat (length buf) ->
  0 <= red <= 255 -> 0 <= green <= 255 -> 0 <= blue <= 255 -> 0 <= alpha <= 255 ->
  0 <= lum <= 255 ->
  let d := dispatcher_for f isLE in
  (forall cr cg cb ca, rgba_channels f = Some (cr, cg, cb, ca) ->
   getPVRLegacyPixelFormatType f = RGBA /\
   exists buf',
     setRGBA d buf colorIndex red green blue alpha = Ok (true, buf') /\
     length buf' = length buf /\
     getRGBA d buf' colorIndex out
     = Ok (true, {| redOut := requantize cr red; greenOut := requantize cg green;
                    blueOut := requantize cb blue; alphaOut := requantize ca alpha |})) /\
  (forall cl ca, lum_channels f = Some (cl, ca) ->
   getPVRLegacyPixelFormatType f = LUMINANCE /\
   exists buf',
     setLuminance d buf colorIndex lum alpha = Ok (true, buf') /\
     length buf' = length buf /\
     getLuminance d buf' colorIndex lout
     = Ok (true, {| lumOut := requantize cl lum; lumAlphaOut := requantize ca alpha |})) /\
  (In f [ R_32F; GR_3232F; ABGR_32323232F ] ->
   (forall v, 0 <= destscalecolorf_store v < 2 ^ 32) ->
   getPVRLegacyPixelFormatType f = RGBA /\
   exists buf',
     setRGBA d buf colorIndex red green blue alpha = Ok (true, buf') /\
     length buf' = length buf /\
     getRGBA d buf' colorIndex out
     = Ok (true,
           {| redOut := destscalecolorf (destscalecolorf_store red);
              greenOut := if f =? R_32F then 0
                          else destscalecolorf (destscalecolorf_store green);
              blueOut := if f =? ABGR_32323232F
                         then destscalecolorf (destscalecolorf_store blue) else 0;
              alphaOut := if f =? ABGR_32323232F
                          then destscalecolorf (destscalecolorf_store alpha) else 255 |})) /\
  (In f [ R_16F; GR_1616F; ABGR_16161616F ] ->
   getPVRLegacyPixelFormatType f = RGBA /\
   setRGBA d buf colorIndex red green blue alpha = Ok (false, buf) /\
   getRGBA d buf colorIndex out = Ok (false, out)) /\
  (f = MONOCHROME ->
   getPVRLegacyPixelFormatType f = LUMINANCE /\
   setLuminance d buf colorIndex lum alpha = Ok (false, buf) /\
   getLuminance d buf colorIndex lout = Ok (false, lout)) /\
  requantize (scaled 31) 130 = 132.
Proof.
  intros Hidx Hfit Hr Hg Hb Ha Hl. cbv zeta.
  split; [|split; [|split; [|split; [|split]]]].
  - intros cr cg cb ca Hch. split; [|now apply round_trip_rgba].
    clear -Hch. unfold rgba_channels in Hch.
    repeat match type of Hch with
           | (if case_of f ?l then _ else _) = _ =>
               let E := fresh "E" in
               destruct (case_of f l) eqn:E;
               [ apply case_of_In in E; cbn [In] in E; clear Hch | ]
           end; [ .. | discriminate ].
    all: repeat match goal with
                | E : _ \/ _ |- _ => destruct E as [<- | E]
                | E : False |- _ => destruct E
                end; reflexivity.
  - intros cl ca Hch. split; [|now apply round_trip_luminance].
    clear -Hch. unfold lum_channels in Hch.
    repeat match type of Hch with
           | (if case_of f ?l then _ else _) = _ =>
               let E := fresh "E" in
               destruct (case_of f l) eqn:E;
               [ apply case_of_In in E; cbn [In] in E; clear Hch | ]
           end; [ .. | discriminate ].
    all: repeat match goal with
                | E : _ \/ _ |- _ => destruct E as [<- | E]
                | E : False |- _ => destruct E
                end; reflexivity.
  - intros Hf Hsingle. split; [|now apply round_trip_float].
    clear -Hf. cbn [In] in Hf.
    repeat match type of Hf with
           | _ \/ _ => destruct Hf as [<- | Hf]
           | False => destruct Hf
           end; reflexivity.
  - clear. cbn [In]. intros Hf.
    repeat match type of Hf with
           | _ \/ _ => destruct Hf as [<- | Hf]
           | False => destruct Hf
           end; repeat split; reflexivity.
  - clear. intros ->. repeat split; reflexivity.
  - reflexivity.
Qed.

(** Formats that [rgba_channels] leaves out.  The store and the fetch of
    [RGB_888] and of the two 2-10-10-10 formats declare the members of their
    [struct color] in different orders, so red and blue come back exchanged;
    the half-float formats have no branch in either direction. *)
Example round_trip_RGB_888_exchanges_red_and_blue :
  let d := dispatcher_for RGB_888 true in
  setRGBA d [0; 0; 0] 0 10 20 30 255 = Ok (true, [10; 20; 30]) /\
  getRGBA d [10; 20; 30] 0 {| redOut := 0; greenOut := 0; blueOut := 0; alphaOut := 0 |}
  = Ok (true, {| redOut := 30; greenOut := 20; blueOut := 10; alphaOut := 255 |}).
Proof. split; reflexivity. Qed.

Example round_trip_ABGR_2101010_exchanges_red_and_blue :
  let d := dispatcher_for ABGR_2101010 true in
  setRGBA d [0; 0; 0; 0] 0 255 0 0 255 = Ok (true, [3; 0; 192; 255]) /\
  getRGBA d [3; 0; 192; 255] 0 {| redOut := 0; greenOut := 0; blueOut := 0; alphaOut := 0 |}
  = Ok (true, {| redOut := 0; greenOut := 0; blueOut := 255; alphaOut := 255 |}).
Proof. split; reflexivity. Qed.

(** ** ReadFromNativeTexture *)

Lemma free_pointer_lookup (q : option positive) (e : Interface.t) (p : positive) :
  Interface.heap (free_pointer q e) !! p
  = if decide (q = Some p) then None else Interface.heap e !! p.
Proof.
  destruct q as [b|]; cbn.
  - destruct (decide (Some b = Some p)) as [[= ->] | Hne].
    + apply lookup_delete_eq.
    + apply lookup_delete_ne. congruence.
  - destruct (decide (None = Some p)); [discriminate | reflexivity].
Qed.

Lemma free_pointer_frame (q : option positive) (e : Interface.t) :
  Interface.next_block (free_pointer q e) = Interface.next_block e /\
  Interface.requests (free_pointer q e) = Interface.requests e.
Proof. destruct q; cbn; auto. Qed.

(** [deleteMipmapLayers] frees the texels of the layers and nothing else. *)
Lemma deleteMipmapLayers_lookup (layers : list mipmapLayer.t) : forall e p,
  Interface.heap (deleteMipmapLayers layers e) !! p
  = if decide (Exists (fun l => mipmapLayer.texels l = Some p) layers)
    then None else Interface.heap e !! p.
Proof.
  unfold deleteMipmapLayers.
  induction layers as [|l layers IH]; intros e p; cbn [fold_left].
  - destruct (decide _) as [H|]; [inversion H | reflexivity].
  - rewrite IH, free_pointer_lookup.
    destruct (decide (Exists _ layers)) as [Hex|Hnex].
    + rewrite decide_True by (now apply Exists_cons_tl). reflexivity.
    + destruct (decide (mipmapLayer.texels l = Some p)) as [Hl|Hnl].
      * rewrite decide_True by (now apply Exists_cons_hd). reflexivity.
      * rewrite decide_False; [reflexivity|].
        intros Hex. apply Exists_cons in Hex. destruct Hex; contradiction.
Qed.

Lemma deleteMipmapLayers_frame (layers : list mipmapLayer.t) : forall e,
  Interface.next_block (deleteMipmapLayers layers e) = Interface.next_block e /\
  Interface.requests (deleteMipmapLayers layers e) = Interface.requests e.
Proof.
  unfold deleteMipmapLayers.
  induction layers as [|l layers IH]; intros e; cbn [fold_left]; [auto|].
  destruct (IH (free_pointer (mipmapLayer.texels l) e)) as [-> ->].
  apply free_pointer_frame.
Qed.

Lemma PixelAllocate_cases (fill size : Z) (e : Interface.t) :
  (exists e', Interface.PixelAllocate fill size e = (None, e') /\
     Interface.heap e' = Interface.heap e /\
     Interface.next_block e' = Interface.next_block e /\
     Interface.requests e' = size :: Interface.requests e) \/
  (exists e', Interface.PixelAllocate fill size e = (Some (Interface.next_block e), e') /\
     Interface.heap e' = <[Interface.next_block e := replicate (Z.to_nat size) fill]>
                           (Interface.heap e) /\
     Interface.next_block e' = Pos.succ (Interface.next_block e) /\
     Interface.requests e' = size :: Interface.requests e).
Proof.
  unfold Interface.PixelAllocate.
  destruct (match Interface.oom e with b :: _ => b | [] => false end);
    [left | right]; eexists; cbn; auto.
Qed.

Ltac unfold_F :=
  unfold bind, ret, throw, when, get, lift, set_srcLayers, set_convLayers, on_machine,
    on_engine, PixelAllocate, with_engine, convert_texels, try_catch_rethrow.

(** One turn of the conversion loop keeps the invariant; a turn that does
    not throw has made one allocation and filled layer [n]. *)
Lemma convert_level_invariant (f : fetched) (sd : colorModelDispatcher)
    (dd : pvrColorDispatcher) (depth : Z) (e0 : Interface.t) (natImg : pvrNativeImage.t)
    (newly : bool) (count n : nat) (fr fr' : frame) (r : result unit) :
  conversion_invariant e0 natImg newly count n fr ->
  (n < count)%nat ->
  convert_level f sd dd depth n fr = (r, fr') ->
  match r with
  | Ok _ =>
      conversion_invariant e0 natImg newly count (S n) fr' /\
      length (Interface.requests (engine (mach fr')))
      = S (length (Interface.requests (engine (mach fr))))
  | Throw _ => conversion_invariant e0 natImg newly count n fr'
  end.
Proof.
  intros (Himg & Hflag & Hnext & Hbelow & Hlen & Hlive & Hconv & Hold) Hn.
  unfold convert_level. unfold_F.
  set (size := uint32 (getRasterDataSizeByRowSize _ _)).
  destruct (PixelAllocate_cases indeterminate size (engine (mach fr)))
    as [(e1 & -> & Hheap & Hnb & Hreq) | (e1 & -> & Hheap & Hnb & Hreq)].
  - intros [= <- <-]. cbn. unfold conversion_invariant. cbn.
    rewrite Hheap, Hnb. unfold heap_below_next in Hbelow |- *. rewrite Hheap, Hnb. auto 10.
  - set (b := Interface.next_block (engine (mach fr))) in Hnext, Hheap, Hnb |- *.
    destruct (copyTexelDataEx _ _ _ _ _ _ _ _) as [bytes|what].
    + cbn [mach engine image input srcLayers srcLayersIsNewlyAllocated convLayers].
      assert (Hstep :
        forall q : option positive,
          let e2 := (if newly then free_pointer q else fun e => e)
                      (Interface.write b bytes e1) in
          forall src,
          conversion_invariant e0 natImg newly count (S n)
            {| mach := {| engine := e2; image := image (mach fr); input := input (mach fr) |};
               srcLayers := src;
               srcLayersIsNewlyAllocated := newly;
               convLayers :=
                 <[n := {| mipmapLayer.width := mipmapLayer.layerWidth
                                                  (nth n (srcLayers fr) mipmapLayer.empty);
                           mipmapLayer.height := mipmapLayer.layerHeight
                                                   (nth n (srcLayers fr) mipmapLayer.empty);
                           mipmapLayer.layerWidth := mipmapLayer.layerWidth
                                                       (nth n (srcLayers fr) mipmapLayer.empty);
                           mipmapLayer.layerHeight := mipmapLayer.layerHeight
                                                        (nth n (srcLayers fr) mipmapLayer.empty);
                           mipmapLayer.texels := Some b;
                           mipmapLayer.dataSize := size |}]> (convLayers fr) |} /\
          length (Interface.requests e2) = S (length (Interface.requests (engine (mach fr))))).
      { intros q e2 src.
        assert (Hlook : forall p, Interface.heap e2 !! p <> None ->
                  p = b \/ Interface.heap (engine (mach fr)) !! p <> None).
        { intros p. subst e2. destruct newly.
          - rewrite free_pointer_lookup. destruct (decide _); [congruence|].
            cbn. rewrite Hheap, !lookup_insert.
            destruct (decide (b = p)); [auto|]. auto.
          - cbn. rewrite Hheap, !lookup_insert.
            destruct (decide (b = p)); [auto|]. auto. }
        assert (Hnb2 : Interface.next_block e2 = Pos.succ b).
        { subst e2. destruct newly; [rewrite (proj1 (free_pointer_frame _ _))|]; cbn; exact Hnb. }
        assert (Hreq2 : Interface.requests e2 = size :: Interface.requests (engine (mach fr))).
        { subst e2. destruct newly; [rewrite (proj2 (free_pointer_frame _ _))|]; cbn; exact Hreq. }
        split; [|rewrite Hreq2; reflexivity].
        unfold conversion_invariant.
        cbn [mach engine image input srcLayers srcLayersIsNewlyAllocated convLayers].
        rewrite Hnb2. repeat apply conj.
        - exact Himg.
        - reflexivity.
        - lia.
        - intros p Hp. rewrite Hnb2. destruct (Hlook p Hp) as [-> | Hp'].
          + lia.
          + specialize (Hbelow p Hp'). fold b in Hbelow. lia.
        - rewrite length_insert. exact Hlen.
        - intros p Hge Hp. destruct (Hlook p Hp) as [-> | Hp'].
          + exists n. eexists. split; [lia|].
            split; [apply list_lookup_insert_eq; lia | reflexivity].
          + destruct (Hlive p Hge Hp') as (k & l & Hk & Hkl & Hl).
            exists k, l. split; [lia|]. split; [|exact Hl].
            rewrite list_lookup_insert_ne by lia. exact Hkl.
        - intros k l p Hkl Hl. destruct (decide (k = n)) as [-> | Hne].
          + rewrite list_lookup_insert_eq in Hkl by lia.
            injection Hkl as <-. cbn in Hl. injection Hl as <-. exact Hnext.
          + rewrite list_lookup_insert_ne in Hkl by congruence. eauto.
        - intros -> p Hp. subst e2. cbn. rewrite Hheap, !lookup_insert_ne by lia.
          now apply Hold. }
      rewrite Hflag. destruct newly; intros [= <- <-].
      * apply (Hstep (mipmapLayer.texels (nth n (srcLayers fr) mipmapLayer.empty))).
      * apply (Hstep None).
    + intros [= <- <-].
      unfold conversion_invariant, on_engine.
      cbn [mach engine image input srcLayers srcLayersIsNewlyAllocated convLayers
           Interface.PixelFree Interface.heap Interface.next_block].
      assert (Hlook : forall p, delete b (Interface.heap e1) !! p <> None ->
                p <> b /\ Interface.heap (engine (mach fr)) !! p <> None).
      { intros p. rewrite lookup_delete. destruct (decide (b = p)); [congruence|].
        rewrite Hheap, lookup_insert_ne by assumption. auto. }
      rewrite Hnb. repeat apply conj; auto.
      * lia.
      * intros p Hp. cbn. rewrite Hnb. destruct (Hlook p Hp) as [_ Hp'].
        specialize (Hbelow p Hp'). fold b in Hbelow. lia.
      * intros p Hge Hp. destruct (Hlook p Hp) as [_ Hp']. eauto.
      * intros Hb p Hp. rewrite lookup_delete_ne, Hheap, lookup_insert_ne by lia.
        now apply Hold.
Qed.

(** The conversion loop keeps the invariant; if it does not throw, it has
    made one allocation for each level. *)
Lemma convert_levels_invariant (f : fetched) (sd : colorModelDispatcher)
    (dd : pvrColorDispatcher) (depth : Z) (e0 : Interface.t) (natImg : pvrNativeImage.t)
    (newly : bool) (count : nat) (todo : nat) : forall (n : nat) (fr fr' : frame) r,
  conversion_invariant e0 natImg newly count n fr ->
  (n + todo = count)%nat ->
  convert_levels f sd dd depth todo n fr = (r, fr') ->
  exists n',
    conversion_invariant e0 natImg newly count n' fr' /\
    (forall u, r = Ok u ->
       length (Interface.requests (engine (mach fr')))
       = (length (Interface.requests (engine (mach fr))) + todo)%nat).
Proof.
  induction todo as [|todo IH]; intros n fr fr' r Hinv Hcount.
  - cbn. intros [= <- <-]. exists n. split; [assumption|]. intros; lia.
  - cbn [convert_levels]. unfold bind at 1.
    destruct (convert_level f sd dd depth n fr) as [[[]|what] fr1] eqn:Hturn.
    + apply (convert_level_invariant _ _ _ _ _ _ _ _ _ _ _ _ Hinv) in Hturn; [|lia].
      destruct Hturn as [Hinv1 Hreq1]. intros Hrest.
      apply (IH _ _ _ _ Hinv1) in Hrest; [|lia].
      destruct Hrest as (n' & Hinv' & Hreq'). exists n'. split; [assumption|].
      intros u Hu. rewrite (Hreq' u Hu), Hreq1. lia.
    + apply (convert_level_invariant _ _ _ _ _ _ _ _ _ _ _ _ Hinv) in Hturn; [|lia].
      intros [= <- <-]. exists n. split; [assumption|]. intros; discriminate.
Qed.

Lemma entry_rolled_back (e0 : Interface.t) (natImg : pvrNativeImage.t)
    (layers : list mipmapLayer.t) (newly : bool) :
  heap_below_next e0 -> rolled_back e0 natImg newly (entry e0 natImg layers newly).
Proof.
  intros Hbelow. unfold rolled_back, entry. cbn. repeat split; auto.
  intros p Hp. destruct (Interface.heap e0 !! p) eqn:E; [|reflexivity].
  assert (Hlt : (p < Interface.next_block e0)%positive) by (apply Hbelow; congruence).
  lia.
Qed.

Lemma Exists_of_lookup {A} (P : A -> Prop) (l : list A) (k : nat) (x : A) :
  l !! k = Some x -> P x -> Exists P l.
Proof.
  revert k. induction l as [|y l IH]; intros [|k] Hk Hx; try discriminate.
  - injection Hk as ->. now constructor.
  - apply Exists_cons_tl. eapply IH; eassumption.
Qed.

Lemma lookup_of_Exists {A} (P : A -> Prop) (l : list A) :
  Exists P l -> exists k x, l !! k = Some x /\ P x.
Proof.
  induction 1 as [x l Hx | y l _ (k & x & Hk & Hx)].
  - exists 0%nat, x. auto.
  - exists (S k), x. auto.
Qed.

(** The handler of the outer [try] keeps a rolled-back state rolled back. *)
Lemma outer_handler_rolled_back (f : fetched) (e0 : Interface.t)
    (natImg : pvrNativeImage.t) (newly : bool) (fr : frame) :
  rolled_back e0 natImg newly fr ->
  rolled_back e0 natImg newly
    (if srcLayersIsNewlyAllocated fr
     then on_machine (on_engine (fun e =>
            free_pointer (frm_pvrPaletteData f) (deleteMipmapLayers (srcLayers fr) e))) fr
     else fr).
Proof.
  intros (Himg & Hflag & Hnew & Hold). rewrite Hflag.
  destruct newly; [|repeat split; auto].
  unfold rolled_back, on_machine, on_engine. cbn. repeat split; auto; [|discriminate].
  intros p Hp. rewrite free_pointer_lookup, deleteMipmapLayers_lookup.
  repeat destruct (decide _); auto.
Qed.

(** The conversion block: if it throws, the state is rolled back; if it does
    not, the layers are new and one allocation was made for each level. *)
Lemma convert_layers_outcome (f : fetched) (fmt depth : Z) (isLE : bool)
    (e0 : Interface.t) (natImg : pvrNativeImage.t) (layers : list mipmapLayer.t)
    (newly : bool) (r : result unit) (fr' : frame) :
  heap_below_next e0 ->
  convert_layers f fmt depth isLE (length layers) (entry e0 natImg layers newly) = (r, fr') ->
  match r with
  | Ok _ =>
      image (mach fr') = natImg /\
      srcLayersIsNewlyAllocated fr' = true /\
      length (Interface.requests (engine (mach fr')))
      = (length (Interface.requests e0) + length layers)%nat
  | Throw _ => rolled_back e0 natImg newly fr'
  end.
Proof.
  intros Hbelow. unfold convert_layers. cbv zeta.
  unfold bind at 1. unfold set_convLayers at 1. cbn [entry mach srcLayers
    srcLayersIsNewlyAllocated convLayers].
  set (fr1 := {| mach := _; srcLayers := layers; srcLayersIsNewlyAllocated := newly;
                 convLayers := replicate (length layers) mipmapLayer.empty |}).
  assert (Hinv : conversion_invariant e0 natImg newly (length layers) 0 fr1).
  { unfold conversion_invariant, fr1. cbn. repeat apply conj; auto.
    - lia.
    - apply length_replicate.
    - intros p Hge Hp. specialize (Hbelow p Hp). lia.
    - intros k l p Hkl Hl. apply lookup_replicate in Hkl as [-> _]. discriminate. }
  unfold bind at 1. unfold try_catch_rethrow.
  destruct (convert_levels _ _ _ _ _ _ fr1) as [[[]|what] fr2] eqn:Hloop;
    apply (convert_levels_invariant _ _ _ _ _ _ _ _ _ _ _ _ _ Hinv) in Hloop;
    try lia; destruct Hloop as (n' & Hinv' & Hreq).
  - unfold bind, get, set_srcLayers. intros [= <- <-]. cbn.
    destruct Hinv' as (Himg & _). split; [exact Himg|]. split; [reflexivity|].
    rewrite (Hreq tt eq_refl). reflexivity.
  - intros [= <- <-].
    destruct Hinv' as (Himg & Hflag & Hnext & _ & _ & Hlive & Hconv & Hold).
    unfold rolled_back, on_machine, on_engine. cbn. repeat split; auto.
    + intros p Hp. rewrite deleteMipmapLayers_lookup.
      destruct (decide _) as [|Hnex]; [reflexivity|].
      destruct (Interface.heap (engine (mach fr2)) !! p) eqn:E; [|reflexivity].
      exfalso. apply Hnex.
      destruct (Hlive p Hp ltac:(congruence)) as (k & lay & _ & Hk & Hlay).
      exact (Exists_of_lookup _ _ k lay Hk Hlay).
    + intros Hb p Hp. rewrite deleteMipmapLayers_lookup.
      destruct (decide _) as [Hex|]; [|now apply Hold].
      exfalso. apply lookup_of_Exists in Hex as (k & lay & Hk & Hlay).
      specialize (Hconv k lay p Hk Hlay). lia.
Qed.

(** The choice of the format: if it throws, the state is rolled back; if it
    does not, the image is still untouched, and the layers are new exactly
    when they were new at the entry or were converted. *)
Lemma choose_format_outcome (f : fetched) (e0 : Interface.t) (natImg : pvrNativeImage.t)
    (layers : list mipmapLayer.t) (newly : bool) (r : result (Z * Z * bool)) (fr' : frame) :
  heap_below_next e0 ->
  choose_format f true (entry e0 natImg layers newly) = (r, fr') ->
  match r with
  | Ok _ =>
      image (mach fr') = natImg /\
      srcLayersIsNewlyAllocated fr' = newly || converts f layers /\
      (converts f layers = false ->
       Interface.requests (engine (mach fr')) = Interface.requests e0 /\
       srcLayers fr' = layers) /\
      (converts f layers = true ->
       length (Interface.requests (engine (mach fr')))
       = (length (Interface.requests e0) + length layers)%nat)
  | Throw _ => rolled_back e0 natImg newly fr'
  end.
Proof.
  intros Hbelow. unfold choose_format, converts.
  unfold bind at 1. unfold get at 1. cbn [entry srcLayers].
  destruct (kind f).
  - destruct (frm_pvrCompressionType f).
    + destruct (raw_color_link f layers) as [[fmt depth] can]. cbn [snd].
      unfold bind at 1. unfold when. destruct can; cbn [negb].
      * unfold ret. intros [= <- <-]. cbn. rewrite orb_false_r. repeat split; auto; discriminate.
      * destruct (convert_layers _ _ _ _ _ _) as [[[]|what] fr1] eqn:Hconv;
          apply convert_layers_outcome in Hconv; try assumption.
        -- unfold ret. intros [= <- <-]. destruct Hconv as (Himg & Hflag & Hreq).
           rewrite orb_true_r. repeat split; auto; discriminate.
        -- intros [= <- <-]. exact Hconv.
    + unfold ret. intros [= <- <-]. cbn. rewrite orb_false_r. repeat split; auto; discriminate.
    + unfold ret. intros [= <- <-]. cbn. rewrite orb_false_r. repeat split; auto; discriminate.
    + unfold ret. intros [= <- <-]. cbn. rewrite orb_false_r. repeat split; auto; discriminate.
    + unfold ret. intros [= <- <-]. cbn. rewrite orb_false_r. repeat split; auto; discriminate.
    + unfold ret. intros [= <- <-]. cbn. rewrite orb_false_r. repeat split; auto; discriminate.
    + unfold throw. intros [= <- <-]. now apply entry_rolled_back.
  - destruct (pvrtc_comprType f);
      try (unfold ret; intros [= <- <-]; cbn; rewrite orb_false_r;
           repeat split; auto; discriminate).
    unfold throw. intros [= <- <-]. now apply entry_rolled_back.
Qed.

(** The loop runs its turns one after the other: what it does in [a + b]
    turns is what it does in [a] turns and then in [b] more, unless one of
    the first [a] throws. *)
Lemma convert_levels_split (f : fetched) (sd : colorModelDispatcher)
    (dd : pvrColorDispatcher) (depth : Z) (a b : nat) : forall (n : nat) (fr : frame),
  convert_levels f sd dd depth (a + b) n fr
  = match convert_levels f sd dd depth a n fr with
    | (Ok _, fr1) => convert_levels f sd dd depth b (n + a) fr1
    | (Throw what, fr1) => (Throw what, fr1)
    end.
Proof.
  induction a as [|a IH]; intros n fr.
  - cbn. now rewrite Nat.add_0_r.
  - cbn [Nat.add convert_levels]. unfold bind.
    destruct (convert_level f sd dd depth n fr) as [[[]|what] fr1]; [|reflexivity].
    rewrite IH. now rewrite Nat.add_succ_comm.
Qed.

(** The two ways a turn fails: the allocation returns null, or the
    conversion of the texels throws; the turn throws then. *)
Lemma convert_level_failure (f : fetched) (sd : colorModelDispatcher)
    (dd : pvrColorDispatcher) (depth : Z) (n : nat) (fr : frame) :
  let e := engine (mach fr) in
  let srcLayer := nth n (srcLayers fr) mipmapLayer.empty in
  let layerWidth := mipmapLayer.layerWidth srcLayer in
  let layerHeight := mipmapLayer.layerHeight srcLayer in
  let srcRowSize :=
    uint32 (getRasterDataRowSize layerWidth (frm_pvrDepth f) (frm_pvrRowAlignment f)) in
  let dstRowSize := getPVRNativeImageRasterDataRowSize layerWidth depth in
  let dstDataSize := uint32 (getRasterDataSizeByRowSize dstRowSize layerHeight) in
  let e1 := snd (Interface.PixelAllocate indeterminate dstDataSize e) in
  let content (p : option positive) := p ≫= fun block => Interface.heap e1 !! block in
  (hd false (Interface.oom e) = true ->
   fst (convert_level f sd dd depth n fr)
   = Throw "failed to allocate destination conversion layer in PVR native image color data acquisition") /\
  (forall what,
     hd false (Interface.oom e) = false ->
     copyTexelDataEx sd dd (content (mipmapLayer.texels srcLayer))
       (default [] (content (Some (Interface.next_block e))))
       layerWidth layerHeight srcRowSize dstRowSize = Throw what ->
     fst (convert_level f sd dd depth n fr) = Throw what).
Proof.
  cbv zeta. unfold convert_level. unfold_F. unfold Interface.PixelAllocate, hd.
  split.
  - intros ->. reflexivity.
  - intros what -> Hcopy. cbn [mach engine].
    match goal with
    | |- context [copyTexelDataEx ?a ?b ?c ?d ?w ?h ?s ?t] =>
        replace (copyTexelDataEx a b c d w h s t) with (@Throw (list Z) what)
          by (symmetry; exact Hcopy)
    end.
    reflexivity.
Qed.

Lemma converted_layer_dimensions (depth : Z) (a b : mipmapLayer.t) (p : positive) :
  mipmapLayer.layerWidth a = mipmapLayer.layerWidth b ->
  mipmapLayer.layerHeight a = mipmapLayer.layerHeight b ->
  converted_layer depth a p = converted_layer depth b p.
Proof. unfold converted_layer. now intros -> ->. Qed.

(** A turn that returns has put the converted layer at its index and has
    kept the dimensions of the source layers. *)
Lemma convert_level_layers (f : fetched) (sd : colorModelDispatcher)
    (dd : pvrColorDispatcher) (depth : Z) (n : nat) (fr fr' : frame) :
  convert_level f sd dd depth n fr = (Ok tt, fr') ->
  (forall k,
     mipmapLayer.layerWidth (nth k (srcLayers fr') mipmapLayer.empty)
     = mipmapLayer.layerWidth (nth k (srcLayers fr) mipmapLayer.empty) /\
     mipmapLayer.layerHeight (nth k (srcLayers fr') mipmapLayer.empty)
     = mipmapLayer.layerHeight (nth k (srcLayers fr) mipmapLayer.empty)) /\
  convLayers fr'
  = <[n := converted_layer depth (nth n (srcLayers fr) mipmapLayer.empty)
             (Interface.next_block (engine (mach fr)))]> (convLayers fr).
Proof.
  unfold convert_level. unfold_F.
  set (size := uint32 (getRasterDataSizeByRowSize _ _)).
  destruct (PixelAllocate_cases indeterminate size (engine (mach fr)))
    as [(e1 & -> & _) | (e1 & -> & _)]; [discriminate|].
  destruct (copyTexelDataEx _ _ _ _ _ _ _ _) as [bytes|what]; [|discriminate].
  destruct (srcLayersIsNewlyAllocated fr); intros [= <-]; cbn; (split; [|reflexivity]);
    [|now split].
  intros k. rewrite !nth_lookup.
  destruct (decide (k = n)) as [-> | Hne].
  - destruct (srcLayers fr !! n) as [l|] eqn:Hl.
    + rewrite list_lookup_insert_eq by (now apply lookup_lt_Some in Hl).
      cbn. now split.
    + rewrite list_insert_ge by (now apply lookup_ge_None). rewrite Hl. now split.
  - rewrite list_lookup_insert_ne by congruence. now split.
Qed.

(** The loop, when it returns, has put a converted layer at every index it
    went through. *)
Lemma convert_levels_layers (f : fetched) (sd : colorModelDispatcher)
    (dd : pvrColorDispatcher) (depth : Z) (todo : nat) : forall (n : nat) (fr fr' : frame),
  convert_levels f sd dd depth todo n fr = (Ok tt, fr') ->
  (forall k,
     mipmapLayer.layerWidth (nth k (srcLayers fr') mipmapLayer.empty)
     = mipmapLayer.layerWidth (nth k (srcLayers fr) mipmapLayer.empty) /\
     mipmapLayer.layerHeight (nth k (srcLayers fr') mipmapLayer.empty)
     = mipmapLayer.layerHeight (nth k (srcLayers fr) mipmapLayer.empty)) /\
  length (convLayers fr') = length (convLayers fr) /\
  (forall k, (k < n)%nat -> convLayers fr' !! k = convLayers fr !! k) /\
  (forall k, (n <= k < n + todo)%nat -> (k < length (convLayers fr))%nat ->
     exists p,
       convLayers fr' !! k
       = Some (converted_layer depth (nth k (srcLayers fr) mipmapLayer.empty) p)).
Proof.
  induction todo as [|todo IH]; intros n fr fr'.
  - cbn. intros [= <-]. repeat split; auto. intros k ?; lia.
  - cbn [convert_levels]. unfold bind at 1.
    destruct (convert_level f sd dd depth n fr) as [[[]|what] fr1] eqn:Hturn; [|discriminate].
    apply convert_level_layers in Hturn. destruct Hturn as [Hdim1 Hconv1].
    intros Hrest. apply IH in Hrest. destruct Hrest as (Hdim & Hlen & Hbefore & Hdone).
    rewrite Hconv1, length_insert in Hlen.
    split; [|split; [exact Hlen|split]].
    + intros k. destruct (Hdim k) as [-> ->]. apply Hdim1.
    + intros k Hk. rewrite Hbefore by lia. rewrite Hconv1.
      apply list_lookup_insert_ne. lia.
    + intros k Hk Hin. destruct (decide (k = n)) as [-> | Hne].
      * eexists. rewrite Hbefore by lia. rewrite Hconv1.
        apply list_lookup_insert_eq. exact Hin.
      * destruct (Hdone k) as (p & Hp); [lia | rewrite Hconv1, length_insert; exact Hin |].
        exists p. rewrite Hp. f_equal.
        apply converted_layer_dimensions; apply Hdim1.
Qed.

(** The conversion block, when it returns, has replaced the layers by the
    converted ones, whose texels were handed out since the entry. *)
Lemma convert_layers_layers (f : fetched) (fmt depth : Z) (isLE : bool)
    (e0 : Interface.t) (natImg : pvrNativeImage.t) (layers : list mipmapLayer.t)
    (newly : bool) (fr' : frame) :
  heap_below_next e0 ->
  convert_layers f fmt depth isLE (length layers) (entry e0 natImg layers newly)
  = (Ok tt, fr') ->
  Forall2 (fun srcLayer l =>
             exists dstTexels,
               l = converted_layer depth srcLayer dstTexels /\
               (Interface.next_block e0 <= dstTexels)%positive)
    layers (srcLayers fr').
Proof.
  intros Hbelow. unfold convert_layers. cbv zeta.
  unfold bind at 1. unfold set_convLayers at 1. cbn [entry mach srcLayers
    srcLayersIsNewlyAllocated convLayers].
  set (fr1 := {| mach := _; srcLayers := layers; srcLayersIsNewlyAllocated := newly;
                 convLayers := replicate (length layers) mipmapLayer.empty |}).
  assert (Hinv : conversion_invariant e0 natImg newly (length layers) 0 fr1).
  { unfold conversion_invariant, fr1. cbn. repeat apply conj; auto.
    - lia.
    - apply length_replicate.
    - intros p Hge Hp. specialize (Hbelow p Hp). lia.
    - intros k l p Hkl Hl. apply lookup_replicate in Hkl as [-> _]. discriminate. }
  unfold bind at 1. unfold try_catch_rethrow.
  destruct (convert_levels _ _ _ _ _ _ fr1) as [[[]|what] fr2] eqn:Hloop; [|discriminate].
  pose proof (convert_levels_invariant _ _ _ _ _ _ _ _ _ _ _ _ _ Hinv eq_refl Hloop)
    as (n' & (_ & _ & _ & _ & Hlen & _ & Hconv & _) & _).
  apply convert_levels_layers in Hloop. destruct Hloop as (_ & _ & _ & Hdone).
  unfold bind, get, set_srcLayers. intros [= <-]. cbn [srcLayers].
  apply Forall2_same_length_lookup_2; [now rewrite Hlen|].
  intros i x y Hx Hy.
  destruct (Hdone i) as (p & Hp).
  { apply lookup_lt_Some in Hx. lia. }
  { unfold fr1. cbn [convLayers]. rewrite length_replicate. now apply lookup_lt_Some in Hx. }
  rewrite Hy in Hp. injection Hp as ->. exists p. split.
  - unfold fr1. cbn [srcLayers]. now rewrite (nth_lookup_Some _ _ _ _ Hx).
  - apply (Hconv i _ p Hy). reflexivity.
Qed.

(** What [converts] says of the fetch and of the format link. *)
Lemma converts_true (f : fetched) (layers : list mipmapLayer.t) :
  converts f layers = true ->
  kind f = isFrameworkData /\ frm_pvrCompressionType f = RWCOMPRESS_NONE /\
  snd (raw_color_link f layers) = false.
Proof.
  unfold converts. destruct (kind f); [|discriminate].
  destruct (frm_pvrCompressionType f); try discriminate.
  intros H. apply negb_true_iff in H. auto.
Qed.

(** With conversion, the choice of the format returns the format of the
    link and the converted layers. *)
Lemma choose_format_converted (f : fetched) (e0 : Interface.t) (natImg : pvrNativeImage.t)
    (layers : list mipmapLayer.t) (newly : bool) (chosen : Z * Z * bool) (fr' : frame) :
  heap_below_next e0 ->
  converts f layers = true ->
  choose_format f true (entry e0 natImg layers newly) = (Ok chosen, fr') ->
  chosen = (fst (fst (raw_color_link f layers)), snd (fst (raw_color_link f layers)), false) /\
  Forall2 (fun srcLayer l =>
             exists dstTexels,
               l = converted_layer (snd (fst (raw_color_link f layers))) srcLayer dstTexels /\
               (Interface.next_block e0 <= dstTexels)%positive)
    layers (srcLayers fr').
Proof.
  intros Hbelow Hconverts. apply converts_true in Hconverts.
  destruct Hconverts as (Hkind & Hcompr & Hlink).
  unfold choose_format. unfold bind at 1. unfold get at 1. cbn [entry srcLayers].
  rewrite Hkind, Hcompr.
  destruct (raw_color_link f layers) as [[fmt depth] can]. cbn [fst snd] in Hlink |- *.
  subst can. unfold bind at 1. unfold when. cbn [negb].
  destruct (convert_layers _ _ _ _ _ _) as [[[]|what] fr1] eqn:Hconv; [|discriminate].
  apply convert_layers_layers in Hconv; [|assumption].
  unfold ret. intros [= <- <-]. split; [reflexivity | exact Hconv].
Qed.

(** An exception of the conversion loop leaves [ReadFromNativeTexture] as
    it is. *)
Lemma conversion_exception_propagates (f : fetched) (e0 : Interface.t)
    (natImg : pvrNativeImage.t) (layers : list mipmapLayer.t) (newly : bool)
    (what : String.string) (fr1 : frame) :
  converts f layers = true ->
  convert_levels f (srcDispatch_of f)
    (dstDispatch_of (fst (fst (raw_color_link f layers))) true)
    (snd (fst (raw_color_link f layers))) (length layers) 0
    (loop_entry e0 natImg layers newly) = (Throw what, fr1) ->
  fst (ReadFromNativeTexture f (entry e0 natImg layers newly)) = Throw what.
Proof.
  intros Hconverts Hloop. apply converts_true in Hconverts.
  destruct Hconverts as (Hkind & Hcompr & Hlink).
  unfold ReadFromNativeTexture. cbv zeta.
  unfold bind at 1. unfold try_catch_rethrow. unfold bind at 1.
  unfold choose_format. unfold bind at 1. unfold get at 1. cbn [entry srcLayers].
  rewrite Hkind, Hcompr.
  destruct (raw_color_link f layers) as [[fmt depth] can]. cbn [fst snd] in Hlink, Hloop.
  subst can. unfold bind at 1. unfold when. cbn [negb].
  unfold convert_layers. cbv zeta.
  unfold bind at 1. unfold set_convLayers at 1. cbn [mach srcLayers
    srcLayersIsNewlyAllocated convLayers].
  unfold bind at 1. unfold try_catch_rethrow.
  match goal with
  | |- context [convert_levels ?a ?b ?c ?d ?n ?k ?fr] =>
      replace (convert_levels a b c d n k fr) with (@Throw unit what, fr1)
        by (symmetry; exact Hloop)
  end.
  reflexivity.
Qed.

(** C10: when [ReadFromNativeTexture] throws, at whatever level of the
    conversion, the exception reaches the caller, the native image is as it
    was at the entry, and no block that the operation allocated is left
    allocated; blocks that it only borrowed are not freed.  When it returns,
    the feedback reports direct acquisition exactly when the layers are not
    new, that is when the fetch did not allocate them and no conversion took
    place; without conversion nothing is allocated and the image takes the
    source layers, with it one buffer is allocated for each level and the
    image takes the format of the link and, for each source layer, a layer
    of its dimensions in a block handed out since the entry.  With
    conversion it does throw when a level fails: if the turns before level
    [n] returned and the allocation of level [n] returns null, it throws the
    allocation failure; if that allocation succeeds and [copyTexelDataEx]
    throws for the level, it throws that same exception.  The heap at the
    entry has handed out no block twice. *)
Theorem ReadFromNativeTexture_rollback (f : fetched) (e0 : Interface.t)
    (natImg : pvrNativeImage.t) (layers : list mipmapLayer.t) (newly : bool)
    (r : result acquireFeedback_t) (fr' : frame) :
  heap_below_next e0 ->
  ReadFromNativeTexture f (entry e0 natImg layers newly) = (r, fr') ->
  match r with
  | Throw _ =>
      image (mach fr') = natImg /\
      (forall p, (Interface.next_block e0 <= p)%positive ->
         Interface.heap (engine (mach fr')) !! p = None) /\
      (newly = false -> Interface.heap (engine (mach fr')) = Interface.heap e0)
  | Ok feedback =>
      hasDirectlyAcquired feedback = negb (newly || converts f layers) /\
      hasDirectlyAcquiredPalette feedback = false /\
      (converts f layers = false ->
       Interface.requests (engine (mach fr')) = Interface.requests e0 /\
       pvrNativeImage.mipmaps (image (mach fr')) = layers) /\
      (converts f layers = true ->
       length (Interface.requests (engine (mach fr')))
       = (length (Interface.requests e0) + length layers)%nat) /\
      (exists pvrPixelFormat pvrDepth pvr_hasAlphaChannel_pvrtc,
         image (mach fr')
         = write_image f (pvrNativeImage.mipmaps (image (mach fr')))
             pvrPixelFormat pvrDepth pvr_hasAlphaChannel_pvrtc true natImg /\
         (converts f layers = true ->
          (pvrPixelFormat, pvrDepth) = fst (raw_color_link f layers) /\
          pvr_hasAlphaChannel_pvrtc = false /\
          Forall2 (fun srcLayer l =>
                     exists dstTexels,
                       l = converted_layer pvrDepth srcLayer dstTexels /\
                       (Interface.next_block e0 <= dstTexels)%positive)
            layers (pvrNativeImage.mipmaps (image (mach fr')))))
  end /\
  (converts f layers = true ->
   forall (n : nat) (fr : frame),
     (n < length layers)%nat ->
     let pvrPixelFormat := fst (fst (raw_color_link f layers)) in
     let pvrDepth := snd (fst (raw_color_link f layers)) in
     let srcDispatch := srcDispatch_of f in
     let dstDispatch := dstDispatch_of pvrPixelFormat true in
     convert_levels f srcDispatch dstDispatch pvrDepth n 0 (loop_entry e0 natImg layers newly)
     = (Ok tt, fr) ->
     let e := engine (mach fr) in
     let srcLayer := nth n (srcLayers fr) mipmapLayer.empty in
     let layerWidth := mipmapLayer.layerWidth srcLayer in
     let layerHeight := mipmapLayer.layerHeight srcLayer in
     let srcRowSize :=
       uint32 (getRasterDataRowSize layerWidth (frm_pvrDepth f) (frm_pvrRowAlignment f)) in
     let dstRowSize := getPVRNativeImageRasterDataRowSize layerWidth pvrDepth in
     let dstDataSize := uint32 (getRasterDataSizeByRowSize dstRowSize layerHeight) in
     let e1 := snd (Interface.PixelAllocate indeterminate dstDataSize e) in
     let content (p : option positive) := p ≫= fun block => Interface.heap e1 !! block in
     (hd false (Interface.oom e) = true ->
      r = Throw "failed to allocate destination conversion layer in PVR native image color data acquisition") /\
     (forall what,
        hd false (Interface.oom e) = false ->
        copyTexelDataEx srcDispatch dstDispatch (content (mipmapLayer.texels srcLayer))
          (default [] (content (Some (Interface.next_block e))))
          layerWidth layerHeight srcRowSize dstRowSize = Throw what ->
        r = Throw what)).
Proof.
  intros Hbelow Hrun. split.
  - revert Hrun. unfold ReadFromNativeTexture. cbv zeta.
    unfold bind at 1. unfold try_catch_rethrow. unfold bind at 1.
    destruct (choose_format f true (entry e0 natImg layers newly))
      as [[[[fmt depth] alpha]|what] fr1] eqn:Hchoose.
    + pose proof (fun H => choose_format_converted f e0 natImg layers newly _ fr1
                              Hbelow H Hchoose) as Hconverted.
      apply choose_format_outcome in Hchoose; [|assumption].
      destruct Hchoose as (Himg & Hflag & Hdirect & Hconv).
      unfold bind, get, lift, update_image, when, with_engine, ret, on_machine.
      destruct (frm_isPaletteNewlyAllocated f); intros [= <- <-]; cbn;
        rewrite ?(proj2 (free_pointer_frame _ _)), Hflag;
        (split; [reflexivity|]); (split; [reflexivity|]);
        (split; [assumption|]); (split; [assumption|]);
        exists fmt, depth, alpha; rewrite Himg; (split; [reflexivity|]);
        intros Hc; destruct (Hconverted Hc) as ([= -> -> ->] & Hlayers);
        (split; [now destruct (raw_color_link f layers) as [[? ?] ?]|]);
        (split; [reflexivity | exact Hlayers]).
    + apply choose_format_outcome in Hchoose; [|assumption].
      intros [= <- <-].
      destruct (outer_handler_rolled_back f e0 natImg newly fr1 Hchoose)
        as (Himg & _ & Hnew & Hold).
      split; [exact Himg|]. split; [exact Hnew|].
      intros Hb. apply map_eq. intros p.
      destruct (Pos.ltb_spec p (Interface.next_block e0)) as [Hlt | Hge].
      * now apply Hold.
      * rewrite (Hnew p Hge). symmetry.
        destruct (Interface.heap e0 !! p) eqn:E; [|reflexivity].
        assert (Hlt : (p < Interface.next_block e0)%positive) by (apply Hbelow; congruence).
        lia.
  - intros Hconverts n fr Hn. cbv zeta. intros Hbefore.
    assert (Hpropagates : forall what,
      fst (convert_level f (srcDispatch_of f)
             (dstDispatch_of (fst (fst (raw_color_link f layers))) true)
             (snd (fst (raw_color_link f layers))) n fr) = Throw what ->
      r = Throw what).
    { intros what Hturn.
      destruct (convert_level _ _ _ _ n fr) as [r1 frn] eqn:Hlevel.
      cbn [fst] in Hturn. subst r1.
      change r with (fst (r, fr')). rewrite <- Hrun.
      apply (conversion_exception_propagates f e0 natImg layers newly what frn Hconverts).
      replace (length layers) with (n + S (length layers - S n))%nat by lia.
      rewrite convert_levels_split, Hbefore. cbn [Nat.add convert_levels].
      unfold bind at 1. rewrite Hlevel. reflexivity. }
    destruct (convert_level_failure f (srcDispatch_of f)
                (dstDispatch_of (fst (fst (raw_color_link f layers))) true)
                (snd (fst (raw_color_link f layers))) n fr) as [Hnull Hcopy].
    split.
    + intros Hoom. apply Hpropagates, Hnull, Hoom.
    + intros what Hoom Hthrows. apply Hpropagates. now apply Hcopy.
Qed.

(** ** The format tables *)

(** Split a hypothesis [case_of f labels = true] into the labels. *)
Ltac labels_of E :=
  apply case_of_In in E; cbn [In] in E;
  repeat match type of E with
         | _ \/ _ => destruct E as [<- | E]
         | False => destruct E
         end.

(** X2: raster data that [getPVRLegacyRawColorFormatLink] says can be
    acquired directly gets a pixel format that, for little-endian data,
    [getPVRRasterFormatMapping] maps back directly to the same raster format
    without compression; the format has the depth of the data, and the same
    colour order unless the raster format is one of the two luminance
    formats, which have none. *)
Theorem direct_link_maps_back (rasterFormat : eRasterFormat) (depth : Z)
    (colorOrder : eColorOrdering) :
  snd (getPVRLegacyRawColorFormatLink rasterFormat depth colorOrder) = true ->
  let pixelFormat := fst (getPVRLegacyRawColorFormatLink rasterFormat depth colorOrder) in
  let '(rasterFormatOut, colorOrderingOut, compressionTypeOut, isDirectMappingOut) :=
    getPVRRasterFormatMapping pixelFormat true in
  rasterFormatOut = rasterFormat /\
  compressionTypeOut = RWCOMPRESS_NONE /\
  isDirectMappingOut = true /\
  getPVRLegacyFormatDepth pixelFormat = depth /\
  (rasterFormat <> RASTER_LUM -> rasterFormat <> RASTER_LUM_ALPHA ->
   colorOrderingOut = colorOrder).
Proof.
  unfold getPVRLegacyRawColorFormatLink.
  destruct rasterFormat, colorOrder; cbn [is_RASTER is_COLOR fst snd andb];
    try discriminate;
    repeat match goal with
           | |- context [?a =? ?b] =>
               let E := fresh "E" in
               destruct (a =? b) eqn:E; [apply Z.eqb_eq in E; subst|]
           end;
    cbn [fst snd andb]; try discriminate; intros _; cbv zeta;
    repeat split; try reflexivity; try congruence.
Qed.

(** X3: the other direction.  A format that [getPVRRasterFormatMapping] maps
    directly and without compression is linked back by
    [getPVRLegacyRawColorFormatLink], from the raster format, colour order and
    depth of the format, to a format that can be acquired directly and has the
    same mapping, depth and classification. *)
Theorem direct_mapping_links_back (format : ePVRLegacyPixelFormat.t)
    (rasterFormat : eRasterFormat) (colorOrder : eColorOrdering) :
  getPVRRasterFormatMapping format true = (rasterFormat, colorOrder, RWCOMPRESS_NONE, true) ->
  let link :=
    getPVRLegacyRawColorFormatLink rasterFormat (getPVRLegacyFormatDepth format) colorOrder in
  snd link = true /\
  getPVRRasterFormatMapping (fst link) true = (rasterFormat, colorOrder, RWCOMPRESS_NONE, true) /\
  getPVRLegacyFormatDepth (fst link) = getPVRLegacyFormatDepth format /\
  getPVRLegacyPixelFormatType (fst link) = getPVRLegacyPixelFormatType format.
Proof.
  unfold getPVRRasterFormatMapping.
  repeat match goal with
         | |- context [if case_of format ?l then _ else _] =>
             let E := fresh "E" in
             destruct (case_of format l) eqn:E; [labels_of E|]
         end;
    cbn [Bool.eqb]; intros [= <- <-]; cbv zeta; repeat split; reflexivity.
Qed.

(** X4: data that is not little-endian is never mapped directly; the
    compression type of the mapping is the DXT type that
    [getPVRLegacyFormatDXTType] gives, and a format that is mapped to a
    compression type is classified compressed and gets the default raster
    format. *)
Theorem mapping_compression_and_endianness (format : ePVRLegacyPixelFormat.t)
    (isLittleEndian : bool) :
  let '(rasterFormatOut, colorOrderingOut, compressionTypeOut, isDirectMappingOut) :=
    getPVRRasterFormatMapping format isLittleEndian in
  (isLittleEndian = false -> isDirectMappingOut = false) /\
  dxt_number compressionTypeOut = getPVRLegacyFormatDXTType format /\
  (compressionTypeOut = RWCOMPRESS_NONE <-> getPVRLegacyFormatDXTType format = 0) /\
  (compressionTypeOut <> RWCOMPRESS_NONE ->
   rasterFormatOut = RASTER_DEFAULT /\
   getPVRLegacyPixelFormatType format = COMPRESSED).
Proof.
  unfold getPVRRasterFormatMapping, getPVRLegacyFormatDXTType.
  repeat match goal with
         | |- context [if case_of format ?l then _ else _] =>
             let E := fresh "E" in
             destruct (case_of format l) eqn:E; [labels_of E|]
         end.
  all: eval_case_of.
  all: (split; [intros ->; reflexivity|]).
  all: (split; [reflexivity|]).
  all: try (split; [split; [reflexivity | intros _; reflexivity]
                   | intros Hne; congruence]).
  all: try (split; [split; discriminate | intros _; split; reflexivity]).
Qed.

(** X5: whatever the raster format, depth and colour order of the source,
    the format that [getPVRLegacyRawColorFormatLink] chooses is one the
    validity predicate accepts and the sample codec handles: it is classified
    RGBA or luminance, and the store and the fetch of its colour model both
    find a branch for it. *)
Theorem linked_formats_have_a_codec (rasterFormat : eRasterFormat) (depth : Z)
    (colorOrder : eColorOrdering) (isLE : bool) (buf : list Z)
    (colorIndex red green blue alpha lum : Z) (out : rgba_refs) (lout : lum_refs) :
  let pixelFormat := fst (getPVRLegacyRawColorFormatLink rasterFormat depth colorOrder) in
  let d := dispatcher_for pixelFormat isLE in
  isValidPVRLegacyPixelFormat pixelFormat = true /\
  ((getPVRLegacyPixelFormatType pixelFormat = RGBA /\
    (exists buf', setRGBA d buf colorIndex red green blue alpha = Ok (true, buf')) /\
    (exists c, getRGBA d buf colorIndex out = Ok (true, c))) \/
   (getPVRLegacyPixelFormatType pixelFormat = LUMINANCE /\
    (exists buf', setLuminance d buf colorIndex lum alpha = Ok (true, buf')) /\
    (exists c, getLuminance d buf colorIndex lout = Ok (true, c)))).
Proof.
  cbv zeta. unfold getPVRLegacyRawColorFormatLink.
  destruct rasterFormat, colorOrder; cbn [is_RASTER is_COLOR fst snd];
    repeat match goal with
           | |- context [if ?a =? ?b then _ else _] => destruct (a =? b)
           end;
    cbn [fst snd];
    (split; [reflexivity|]);
    unfold setRGBA, getRGBA, setLuminance, getLuminance, getLuminance_LUMINANCE,
      dispatcher_for;
    cbn [colorModel pixelFormat isLittleEndian]; eval_class;
    first [ left; split; [reflexivity|];
            unfold puttexelrgba, browsetexelrgba; eval_case_of;
            split; [eexists; reflexivity|];
            unfold load4, load3; cbv zeta; eexists; reflexivity
          | right; split; [reflexivity|];
            unfold puttexellum, browsetexellum; eval_case_of;
            split; [eexists; reflexivity|];
            unfold load2, load1; cbv zeta; eexists; reflexivity ].
Qed.

(** X6: every format that the validity predicate accepts, and every format
    that is classified, has a bit depth in the table: the depth is one of 1,
    2, 4, 8, 16, 24, 32, 64 and 128 and never the 0 that
    [getPVRLegacyFormatDepth] returns for a format it does not know. *)
Theorem classified_formats_have_a_depth (format : ePVRLegacyPixelFormat.t) :
  isValidPVRLegacyPixelFormat format = true \/
  getPVRLegacyPixelFormatType format <> UNKNOWN ->
  In (getPVRLegacyFormatDepth format) [1; 2; 4; 8; 16; 24; 32; 64; 128].
Proof.
  intros [Hvalid | Hclass].
  - unfold isValidPVRLegacyPixelFormat in Hvalid.
    destruct (case_of format _) eqn:E; [|discriminate].
    labels_of E; vm_compute; repeat first [left; reflexivity | right].
  - unfold getPVRLegacyPixelFormatType in Hclass.
    repeat match type of Hclass with
           | (if case_of format ?l then _ else _) <> _ =>
               let E := fresh "E" in
               destruct (case_of format l) eqn:E; [labels_of E; vm_compute; repeat first [left; reflexivity | right]|]
           end.
    contradiction.
Qed.

(** ** More on the sample codec *)

(** A store changes bytes of the indexed texel only. *)
Lemma store_item_frame (e : endianness) (color : list Z) (buf : list Z) (colorIndex : Z)
    (item : list Z) (i : nat) :
  (i < Z.to_nat colorIndex * sizeof color \/
   Z.to_nat colorIndex * sizeof color + sizeof color <= i)%nat ->
  store_item e color buf colorIndex item !! i = buf !! i.
Proof.
  intros Hi. unfold store_item.
  destruct (_ <=? _)%nat eqn:E; [|reflexivity].
  apply Nat.leb_le in E.
  set (n := sizeof color) in Hi, E |- *.
  set (off := (Z.to_nat colorIndex * n)%nat) in Hi, E |- *.
  destruct Hi as [Hlow | Hhigh].
  - rewrite lookup_app_l by (rewrite length_take_le; lia).
    apply lookup_take_lt. exact Hlow.
  - rewrite lookup_app_r by (rewrite length_take_le; lia).
    rewrite length_take_le by lia.
    rewrite lookup_app_r by (rewrite length_endian_store; lia).
    rewrite length_endian_store, lookup_drop. f_equal. lia.
Qed.

Lemma only_texel_changed_refl (n : nat) (colorIndex : Z) (buf : list Z) :
  only_texel_changed n colorIndex buf buf.
Proof. split; [reflexivity | intros; reflexivity]. Qed.

Lemma only_texel_changed_store (e : endianness) (color : list Z) (buf : list Z)
    (colorIndex : Z) (item : list Z) (n : nat) :
  n = sizeof color ->
  only_texel_changed n colorIndex buf (store_item e color buf colorIndex item).
Proof.
  intros ->. split; [apply length_store_item|].
  intros i Hi. now apply store_item_frame.
Qed.

Lemma puttexelrgba_frame (e : endianness) (f : Z) (buf : list Z)
    (colorIndex red green blue alpha : Z) :
  only_texel_changed (Z.to_nat (getPVRLegacyFormatDepth f / 8)) colorIndex buf
    (snd (puttexelrgba e buf colorIndex f red green blue alpha)).
Proof.
  unfold puttexelrgba.
  repeat match goal with
         | |- context [if case_of f ?l then _ else _] =>
             let E := fresh "E" in
             destruct (case_of f l) eqn:E;
             [labels_of E; cbn [snd]; apply only_texel_changed_store; reflexivity|]
         end.
  apply only_texel_changed_refl.
Qed.

Lemma puttexellum_frame (e : endianness) (f : Z) (buf : list Z) (colorIndex lum alpha : Z) :
  only_texel_changed (Z.to_nat (getPVRLegacyFormatDepth f / 8)) colorIndex buf
    (snd (puttexellum e buf colorIndex f lum alpha)).
Proof.
  unfold puttexellum.
  repeat match goal with
         | |- context [if case_of f ?l then _ else _] =>
             let E := fresh "E" in
             destruct (case_of f l) eqn:E;
             [labels_of E; cbn [snd]; apply only_texel_changed_store; reflexivity|]
         end.
  apply only_texel_changed_refl.
Qed.

(** X7: a store through the dispatcher of a format, by [setRGBA] or by
    [setLuminance], keeps the length of the buffer and changes no byte outside
    the texel at [colorIndex], a texel taking a number of bytes that is the
    eighth of the depth the format has in the depth table. *)
Theorem store_touches_one_texel (f : ePVRLegacyPixelFormat.t) (isLE : bool) (buf : list Z)
    (colorIndex red green blue alpha lum : Z) (didPut : bool) (buf' : list Z) :
  setRGBA (dispatcher_for f isLE) buf colorIndex red green blue alpha = Ok (didPut, buf') \/
  setLuminance (dispatcher_for f isLE) buf colorIndex lum alpha = Ok (didPut, buf') ->
  length buf' = length buf /\
  forall i : nat,
    (i < Z.to_nat colorIndex * Z.to_nat (getPVRLegacyFormatDepth f / 8) \/
     Z.to_nat colorIndex * Z.to_nat (getPVRLegacyFormatDepth f / 8)
       + Z.to_nat (getPVRLegacyFormatDepth f / 8) <= i)%nat ->
    buf' !! i = buf !! i.
Proof.
  change (setRGBA (dispatcher_for f isLE) buf colorIndex red green blue alpha
            = Ok (didPut, buf') \/
          setLuminance (dispatcher_for f isLE) buf colorIndex lum alpha = Ok (didPut, buf') ->
          only_texel_changed (Z.to_nat (getPVRLegacyFormatDepth f / 8)) colorIndex buf buf').
  unfold setLuminance, setRGBA, dispatcher_for. cbn [colorModel pixelFormat isLittleEndian].
  destruct (getPVRLegacyPixelFormatType f).
  - intros [H | H]; discriminate.
  - intros [H | H];
      apply (f_equal (fun r => match r with Ok x => snd x | Throw _ => buf end)) in H;
      cbn [snd] in H; subst buf'; apply puttexelrgba_frame.
  - intros [H | H];
      apply (f_equal (fun r => match r with Ok x => snd x | Throw _ => buf end)) in H;
      cbn [snd] in H; subst buf';
      [apply only_texel_changed_refl | apply puttexellum_frame].
  - intros [H | H]; discriminate.
Qed.

(** X8: a format that [doesPVRLegacyFormatHaveAlphaChannel] says has no
    alpha channel is fetched with the alpha 255, whatever the bytes of the
    texel, whenever [getRGBA] or [getLuminance] finds a colour for it. *)
Theorem formats_without_alpha_fetch_opaque (f : ePVRLegacyPixelFormat.t) (isLE : bool)
    (srcTexels : list Z) (colorIndex : Z) (out : rgba_refs) (lout : lum_refs) :
  doesPVRLegacyFormatHaveAlphaChannel f = false ->
  (forall c, getRGBA (dispatcher_for f isLE) srcTexels colorIndex out = Ok (true, c) ->
     alphaOut c = 255) /\
  (forall c, getLuminance (dispatcher_for f isLE) srcTexels colorIndex lout = Ok (true, c) ->
     lumAlphaOut c = 255).
Proof.
  intros Halpha.
  unfold getLuminance, getRGBA, getLuminance_LUMINANCE, dispatcher_for.
  cbn [colorModel pixelFormat isLittleEndian].
  unfold getPVRLegacyPixelFormatType.
  repeat match goal with
         | |- context [if case_of f ?l then _ else _] =>
             let E := fresh "E" in
             destruct (case_of f l) eqn:E;
             [ labels_of E; try discriminate Halpha; clear Halpha;
               unfold browsetexelrgba, browsetexellum; eval_case_of;
               unfold load4, load3, load2, load1; cbv zeta;
               (split; intros c H; try discriminate H; injection H as <-; reflexivity)
             | ]
         end.
  split; intros c H; discriminate H.
Qed.

(** ** getColor and setColor *)

(** X9: the generic fetch reports no failure for a format without a fetch
    branch.  For the half-float formats, which are classified RGBA, it returns
    an RGBA colour with all four channels 0, and for [MONOCHROME], which is
    classified luminance, a luminance colour of 0 with alpha 0, whatever the
    texels and whatever [colorOut] held; it throws exactly for the formats
    that are classified compressed or not at all. *)
Theorem getColor_of_formats_without_fetch (f : ePVRLegacyPixelFormat.t) (isLE : bool)
    (srcTexels : list Z) (colorIndex : Z) (colorOut : abstractColorItem) :
  (In f [ R_16F; GR_1616F; ABGR_16161616F ] ->
   exists c,
     getColor (dispatcher_for f isLE) srcTexels colorIndex colorOut = Ok c /\
     model c = COLORMODEL_RGBA /\
     rgbaColor c = {| redOut := 0; greenOut := 0; blueOut := 0; alphaOut := 0 |}) /\
  (f = MONOCHROME ->
   exists c,
     getColor (dispatcher_for f isLE) srcTexels colorIndex colorOut = Ok c /\
     model c = COLORMODEL_LUMINANCE /\
     luminance c = {| lumOut := 0; lumAlphaOut := 0 |}) /\
  ((exists what, getColor (dispatcher_for f isLE) srcTexels colorIndex colorOut = Throw what)
   <-> getPVRLegacyPixelFormatType f = COMPRESSED \/ getPVRLegacyPixelFormatType f = UNKNOWN).
Proof.
  split; [|split].
  - cbn [In]. intros H.
    repeat (destruct H as [<- | H];
            [eexists; split; [reflexivity|]; split; reflexivity|]).
    destruct H.
  - intros ->. eexists. split; [reflexivity|]. split; reflexivity.
  - unfold getColor, getRGBA, getLuminance, dispatcher_for.
    cbn [colorModel pixelFormat isLittleEndian].
    destruct (getPVRLegacyPixelFormatType f).
    + split; [intros _; now right | intros _; eexists; reflexivity].
    + destruct (browsetexelrgba _ _ _ _ _) as [got c].
      split; [intros [what H]; discriminate H | intros [H | H]; discriminate H].
    + destruct (getLuminance_LUMINANCE _ _ _ _) as [got c].
      split; [intros [what H]; discriminate H | intros [H | H]; discriminate H].
    + split; [intros _; now left | intros _; eexists; reflexivity].
Qed.

(** X10: a colour stored by [setColor] is fetched by [getColor] with every
    channel requantized as the format stores it: an RGBA colour through an
    RGBA format of [rgba_channels], a luminance colour through a luminance
    format of [lum_channels], and a luminance colour through an RGBA format
    as the grey of that luminance.  The channels of the colour are 8-bit
    values and the texel lies in the buffer. *)
Theorem getColor_after_setColor (f : ePVRLegacyPixelFormat.t) (isLE : bool) (buf : list Z)
    (colorIndex : Z) (color colorOut : abstractColorItem) :
  0 <= colorIndex ->
  (colorIndex + 1) * (getPVRLegacyFormatDepth f / 8) <= Z.of_nat (length buf) ->
  let d := dispatcher_for f isLE in
  (forall cr cg cb ca, rgba_channels f = Some (cr, cg, cb, ca) ->
   (model color = COLORMODEL_RGBA ->
    0 <= redOut (rgbaColor color) <= 255 -> 0 <= greenOut (rgbaColor color) <= 255 ->
    0 <= blueOut (rgbaColor color) <= 255 -> 0 <= alphaOut (rgbaColor color) <= 255 ->
    exists buf' c,
      setColor d buf colorIndex color = Ok buf' /\
      getColor d buf' colorIndex colorOut = Ok c /\
      model c = COLORMODEL_RGBA /\
      rgbaColor c
      = {| redOut := requantize cr (redOut (rgbaColor color));
           greenOut := requantize cg (greenOut (rgbaColor color));
           blueOut := requantize cb (blueOut (rgbaColor color));
           alphaOut := requantize ca (alphaOut (rgbaColor color)) |}) /\
   (model color = COLORMODEL_LUMINANCE ->
    0 <= lumOut (luminance color) <= 255 -> 0 <= lumAlphaOut (luminance color) <= 255 ->
    exists buf' c,
      setColor d buf colorIndex color = Ok buf' /\
      getColor d buf' colorIndex colorOut = Ok c /\
      model c = COLORMODEL_RGBA /\
      rgbaColor c
      = {| redOut := requantize cr (lumOut (luminance color));
           greenOut := requantize cg (lumOut (luminance color));
           blueOut := requantize cb (lumOut (luminance color));
           alphaOut := requantize ca (lumAlphaOut (luminance color)) |})) /\
  (forall cl ca, lum_channels f = Some (cl, ca) ->
   model color = COLORMODEL_LUMINANCE ->
   0 <= lumOut (luminance color) <= 255 -> 0 <= lumAlphaOut (luminance color) <= 255 ->
   exists buf' c,
     setColor d buf colorIndex color = Ok buf' /\
     getColor d buf' colorIndex colorOut = Ok c /\
     model c = COLORMODEL_LUMINANCE /\
     luminance c
     = {| lumOut := requantize cl (lumOut (luminance color));
          lumAlphaOut := requantize ca (lumAlphaOut (luminance color)) |}).
Proof.
  intros Hidx Hfit. cbv zeta.
  assert (Hrgba : forall cr cg cb ca, rgba_channels f = Some (cr, cg, cb, ca) ->
            getPVRLegacyPixelFormatType f = RGBA).
  { intros cr cg cb ca Hch. unfold rgba_channels in Hch.
    repeat match type of Hch with
           | (if case_of f ?l then _ else _) = _ =>
               let E := fresh "E" in
               destruct (case_of f l) eqn:E; [labels_of E; reflexivity|]
           end.
    discriminate Hch. }
  assert (Hlum : forall cl ca, lum_channels f = Some (cl, ca) ->
            getPVRLegacyPixelFormatType f = LUMINANCE).
  { intros cl ca Hch. unfold lum_channels in Hch.
    repeat match type of Hch with
           | (if case_of f ?l then _ else _) = _ =>
               let E := fresh "E" in
               destruct (case_of f l) eqn:E; [labels_of E; reflexivity|]
           end.
    discriminate Hch. }
  split.
  - intros cr cg cb ca Hch. pose proof (Hrgba _ _ _ _ Hch) as Hclass. split.
    + intros Hmodel Hr Hg Hb Ha.
      destruct (round_trip_rgba f isLE buf colorIndex _ _ _ _ (rgbaColor colorOut)
                  cr cg cb ca Hch Hidx Hfit Hr Hg Hb Ha) as (buf' & Hset & _ & Hget).
      exists buf'. eexists. unfold setColor, getColor. rewrite Hmodel, Hset.
      split; [reflexivity|].
      unfold dispatcher_for at 1. cbn [colorModel]. rewrite Hclass, Hget.
      split; [reflexivity|]. split; reflexivity.
    + intros Hmodel Hl Hla.
      destruct (round_trip_rgba f isLE buf colorIndex _ _ _ _ (rgbaColor colorOut)
                  cr cg cb ca Hch Hidx Hfit Hl Hl Hl Hla) as (buf' & Hset & _ & Hget).
      exists buf'. eexists. unfold setColor, getColor, setLuminance. rewrite Hmodel.
      unfold dispatcher_for at 1. cbn [colorModel]. rewrite Hclass, Hset.
      split; [reflexivity|].
      unfold dispatcher_for at 1. cbn [colorModel]. rewrite Hclass, Hget.
      split; [reflexivity|]. split; reflexivity.
  - intros cl ca Hch Hmodel Hl Hla. pose proof (Hlum _ _ Hch) as Hclass.
    destruct (round_trip_luminance f isLE buf colorIndex _ _ (luminance colorOut)
                cl ca Hch Hidx Hfit Hl Hla) as (buf' & Hset & _ & Hget).
    exists buf'. eexists. unfold setColor, getColor. rewrite Hmodel, Hset.
    split; [reflexivity|].
    unfold dispatcher_for at 1. cbn [colorModel]. rewrite Hclass, Hget.
    split; [reflexivity|]. split; reflexivity.
Qed.

(** ** The level loop, the heap and the stream *)

Lemma push_all_app (a b : list mipmapLayer.t) (natImg : pvrNativeImage.t) :
  push_all (a ++ b) natImg = push_all b (push_all a natImg).
Proof. unfold push_all. apply fold_left_app. Qed.

Lemma push_all_cons (l : mipmapLayer.t) (new : list mipmapLayer.t) (natImg : pvrNativeImage.t) :
  push_all (l :: new) natImg = push_all new (pvrNativeImage.push_back l natImg).
Proof. reflexivity. Qed.

(** [push_all] appends to the layers and keeps the other members. *)
Lemma push_all_members (new : list mipmapLayer.t) : forall natImg,
  pvrNativeImage.mipmaps (push_all new natImg) = pvrNativeImage.mipmaps natImg ++ new /\
  pvrNativeImage.pixelFormat (push_all new natImg) = pvrNativeImage.pixelFormat natImg /\
  pvrNativeImage.dataIsTwiddled (push_all new natImg) = pvrNativeImage.dataIsTwiddled natImg /\
  pvrNativeImage.containsNormalData (push_all new natImg)
    = pvrNativeImage.containsNormalData natImg /\
  pvrNativeImage.hasBorder (push_all new natImg) = pvrNativeImage.hasBorder natImg /\
  pvrNativeImage.isCubeMap (push_all new natImg) = pvrNativeImage.isCubeMap natImg /\
  pvrNativeImage.mipmapsHaveDebugColoring (push_all new natImg)
    = pvrNativeImage.mipmapsHaveDebugColoring natImg /\
  pvrNativeImage.isVolumeTexture (push_all new natImg) = pvrNativeImage.isVolumeTexture natImg /\
  pvrNativeImage.hasAlphaChannel_pvrtc (push_all new natImg)
    = pvrNativeImage.hasAlphaChannel_pvrtc natImg /\
  pvrNativeImage.isVerticallyFlipped (push_all new natImg)
    = pvrNativeImage.isVerticallyFlipped natImg /\
  pvrNativeImage.bitDepth (push_all new natImg) = pvrNativeImage.bitDepth natImg /\
  pvrNativeImage.isLittleEndian (push_all new natImg) = pvrNativeImage.isLittleEndian natImg.
Proof.
  induction new as [|l new IH]; intros natImg.
  - cbn. rewrite app_nil_r. repeat split.
  - rewrite push_all_cons.
    destruct (IH (pvrNativeImage.push_back l natImg))
      as (-> & -> & -> & -> & -> & -> & -> & -> & -> & -> & -> & ->).
    cbn. rewrite <- app_assoc. repeat split.
Qed.

(** The outcomes of a turn of the loop. *)
Lemma read_levels_step (n : nat) (fmt : Z) (gen : mipGenLevelGenerator) (rem idx : Z)
    (m m' : machine) (r : result (Z * Z)) :
  read_levels (S n) fmt (getPVRLegacyFormatDepth fmt) gen rem idx m = (r, m') ->
  let gen' := snd (next_level gen idx) in
  let size := level_size fmt gen' in
  (m' = m /\
   ((fst (next_level gen idx) = false /\ r = Ok (rem, idx)) \/ exists what, r = Throw what)) \/
  (exists e1 what,
     r = Throw what /\
     Interface.PixelAllocate indeterminate size (engine m) = (None, e1) /\
     m' = {| engine := e1; image := image m; input := input m |}) \/
  (exists block e1 what,
     r = Throw what /\
     Interface.PixelAllocate indeterminate size (engine m) = (Some block, e1) /\
     m' = {| engine := Interface.PixelFree block
                         (Interface.write block (take (Z.to_nat size) (input m)) e1);
             image := image m;
             input := drop (Z.to_nat size) (input m) |}) \/
  (exists block e1,
     fst (next_level gen idx) = true /\
     size <= rem /\
     Z.of_nat (length (take (Z.to_nat size) (input m))) = size /\
     Interface.PixelAllocate indeterminate size (engine m) = (Some block, e1) /\
     read_levels n fmt (getPVRLegacyFormatDepth fmt) gen' (rem - size) (idx + 1)
       {| engine := Interface.write block (take (Z.to_nat size) (input m)) e1;
          image := pvrNativeImage.push_back (level_layer fmt gen' block) (image m);
          input := drop (Z.to_nat size) (input m) |}
     = (r, m')).
Proof.
  cbn [read_levels]. unfold next_level, level_layer; unfold level_size; cbv zeta.
  destruct (if negb (idx =? 0) then incrementLevel gen else (true, gen)) as [est gen'].
  cbn [fst snd].
  destruct est; cbn [negb].
  2:{ intros [= <- <-]. left. split; [reflexivity|]. left. auto. }
  destruct (getPVRLegacyFormatSurfaceDimensions fmt (getLevelWidth gen') (getLevelHeight gen'))
    as [sw sh].
  destruct (rem <? _) eqn:Erem.
  { intros [= <- <-]. left. split; [reflexivity|]. right. eexists. reflexivity. }
  unfold_M.
  destruct (Z.of_nat (length (input m)) <? _) eqn:Eahead.
  { intros [= <- <-]. left. split; [reflexivity|]. right. eexists. reflexivity. }
  destruct (Interface.PixelAllocate _ _ _) as [[block|] e1] eqn:Ealloc.
  2:{ intros [= <- <-]. right. left. eexists. eexists. repeat split. }
  cbn [engine image input stream_read].
  destruct (negb (_ =? _)) eqn:Ecount.
  { cbn [engine image input]. intros [= <- <-].
    right. right. left. exists block, e1. eexists. repeat split. }
  cbn [engine image input].
  intros Hrun. right. right. right. exists block, e1.
  split; [reflexivity|]. split; [lia|].
  split; [apply negb_false_iff, Z.eqb_eq in Ecount; exact Ecount|].
  split; [reflexivity|]. exact Hrun.
Qed.

Lemma level_layer_members (fmt : Z) (gen : mipGenLevelGenerator) (block : positive) :
  mipmapLayer.texels (level_layer fmt gen block) = Some block /\
  mipmapLayer.dataSize (level_layer fmt gen block) = level_size fmt gen /\
  mipmapLayer.layerWidth (level_layer fmt gen block) = getLevelWidth gen /\
  mipmapLayer.layerHeight (level_layer fmt gen block) = getLevelHeight gen.
Proof.
  unfold level_layer.
  destruct (getPVRLegacyFormatSurfaceDimensions fmt (getLevelWidth gen) (getLevelHeight gen)).
  repeat split.
Qed.

(** A successful allocation hands out the next block. *)
Lemma PixelAllocate_block (fill size : Z) (e e1 : Interface.t) (block : positive) :
  Interface.PixelAllocate fill size e = (Some block, e1) ->
  block = Interface.next_block e /\
  Interface.heap e1 = <[block := replicate (Z.to_nat size) fill]> (Interface.heap e) /\
  Interface.next_block e1 = Pos.succ (Interface.next_block e) /\
  Interface.oom e1 = tail (Interface.oom e) /\
  Interface.warnings e1 = Interface.warnings e.
Proof.
  unfold Interface.PixelAllocate.
  destruct (match Interface.oom e with b :: _ => b | [] => false end); [discriminate|].
  intros [= <- <-]. cbn. repeat split.
Qed.

Lemma PixelAllocate_none (fill size : Z) (e e1 : Interface.t) :
  Interface.PixelAllocate fill size e = (None, e1) ->
  Interface.heap e1 = Interface.heap e /\
  Interface.next_block e1 = Interface.next_block e.
Proof.
  unfold Interface.PixelAllocate.
  destruct (match Interface.oom e with b :: _ => b | [] => false end); [|discriminate].
  intros [= <-]. cbn. split; reflexivity.
Qed.

Lemma holds_new_blocks_same (e e' : Interface.t) :
  heap_below_next e ->
  Interface.heap e' = Interface.heap e ->
  Interface.next_block e' = Interface.next_block e ->
  holds_new_blocks e e' [] /\ heap_below_next e'.
Proof.
  intros Hbelow Hheap Hnext. split.
  - unfold holds_new_blocks. rewrite Hheap, Hnext. repeat split.
    + lia.
    + intros p Hp Hlive. apply Hbelow in Hlive. lia.
    + constructor.
  - intros p. rewrite Hheap, Hnext. apply Hbelow.
Qed.

(** A block that is handed out, written and freed leaves the heap as it
    was. *)
Lemma holds_new_blocks_freed (e e1 : Interface.t) (fill size : Z) (block : positive)
    (bytes : list Z) :
  heap_below_next e ->
  Interface.PixelAllocate fill size e = (Some block, e1) ->
  holds_new_blocks e (Interface.PixelFree block (Interface.write block bytes e1)) [] /\
  heap_below_next (Interface.PixelFree block (Interface.write block bytes e1)).
Proof.
  intros Hbelow Halloc.
  apply PixelAllocate_block in Halloc as (-> & Hheap & Hnext & _).
  assert (Hlook : forall p,
    Interface.heap (Interface.PixelFree (Interface.next_block e)
                      (Interface.write (Interface.next_block e) bytes e1)) !! p
    = if decide (p = Interface.next_block e) then None else Interface.heap e !! p).
  { intros p. cbn. rewrite Hheap. destruct (decide (p = Interface.next_block e)) as [-> | Hne].
    - apply lookup_delete_eq.
    - rewrite lookup_delete_ne, !lookup_insert_ne by congruence. reflexivity. }
  split.
  - unfold holds_new_blocks. cbn [Interface.PixelFree Interface.write Interface.next_block].
    rewrite Hnext. repeat split.
    + lia.
    + intros p Hp. rewrite Hlook. rewrite decide_False by lia. reflexivity.
    + intros p Hp Hlive. rewrite Hlook in Hlive.
      destruct (decide _); [contradiction|]. apply Hbelow in Hlive. lia.
    + constructor.
  - intros p Hlive. rewrite Hlook in Hlive.
    destruct (decide _); [contradiction|]. apply Hbelow in Hlive.
    cbn [Interface.PixelFree Interface.write Interface.next_block]. lia.
Qed.

Lemma heap_below_next_written (e e1 : Interface.t) (fill size : Z) (block : positive)
    (bytes : list Z) :
  heap_below_next e ->
  Interface.PixelAllocate fill size e = (Some block, e1) ->
  heap_below_next (Interface.write block bytes e1).
Proof.
  intros Hbelow Halloc.
  apply PixelAllocate_block in Halloc as (-> & Hheap & Hnext & _).
  intros p. cbn. rewrite Hheap, Hnext.
  destruct (decide (p = Interface.next_block e)) as [-> | Hne]; [lia|].
  rewrite !lookup_insert_ne by congruence. intros Hlive. apply Hbelow in Hlive. lia.
Qed.

(** The layer of a block that is handed out and written comes before the
    layers that are stored after it. *)
Lemma holds_new_blocks_cons (e e1 e' : Interface.t) (fill size : Z) (block : positive)
    (bytes : list Z) (layer : mipmapLayer.t) (new : list mipmapLayer.t) :
  Interface.PixelAllocate fill size e = (Some block, e1) ->
  mipmapLayer.texels layer = Some block ->
  holds_new_blocks (Interface.write block bytes e1) e' new ->
  holds_new_blocks e e' (layer :: new).
Proof.
  intros Halloc Htexels (Hnb & Hold & Hlive & Hnew).
  apply PixelAllocate_block in Halloc as (-> & Hheap & Hnext & _).
  cbn [Interface.write Interface.next_block Interface.heap] in Hnb, Hold, Hlive, Hnew.
  rewrite Hnext in Hnb, Hold, Hlive, Hnew. rewrite Hheap in Hold.
  repeat split.
  - lia.
  - intros p Hp. rewrite Hold by lia. rewrite !lookup_insert_ne by lia. reflexivity.
  - intros p Hp Hl.
    destruct (decide (p = Interface.next_block e)) as [-> | Hne].
    + now apply Exists_cons_hd.
    + apply Exists_cons_tl, Hlive; [lia | exact Hl].
  - constructor.
    + exists (Interface.next_block e). split; [exact Htexels | lia].
    + eapply Forall_impl; [exact Hnew|]. cbn. intros l (p & Hp & Hrange).
      exists p. split; [exact Hp | lia].
Qed.

(** Whatever its outcome, the loop has pushed layers on the image and
    nothing else, and the blocks it has handed out and not freed are the
    texels of these layers. *)
Lemma read_levels_holds (n : nat) : forall fmt gen rem idx m r m',
  heap_below_next (engine m) ->
  read_levels n fmt (getPVRLegacyFormatDepth fmt) gen rem idx m = (r, m') ->
  exists new,
    image m' = push_all new (image m) /\
    holds_new_blocks (engine m) (engine m') new /\
    heap_below_next (engine m').
Proof.
  induction n as [|n IH]; intros fmt gen rem idx m r m' Hbelow Hrun.
  - cbn in Hrun. injection Hrun as <- <-. exists [].
    split; [reflexivity|]. now apply holds_new_blocks_same.
  - apply read_levels_step in Hrun. cbv zeta in Hrun.
    destruct Hrun as [(-> & _) | [(e1 & what & _ & Halloc & ->)
                     | [(block & e1 & what & _ & Halloc & ->)
                     | (block & e1 & _ & _ & _ & Halloc & Hrun)]]].
    + exists []. split; [reflexivity|]. now apply holds_new_blocks_same.
    + exists []. split; [reflexivity|]. cbn [engine].
      apply PixelAllocate_none in Halloc as [Hheap Hnext].
      now apply holds_new_blocks_same.
    + exists []. split; [reflexivity|]. cbn [engine].
      eapply holds_new_blocks_freed; eassumption.
    + apply IH in Hrun.
      2:{ cbn [engine]. eapply heap_below_next_written; eassumption. }
      destruct Hrun as (new & Himg & Hnew & Hbelow').
      cbn [engine image] in Himg, Hnew.
      eexists (_ :: new). split; [exact Himg|]. split; [|exact Hbelow'].
      eapply holds_new_blocks_cons; [exact Halloc | apply level_layer_members | exact Hnew].
Qed.

(** ** ClearImageData *)

(** X11: whatever the image held, [ClearImageData] leaves it as its
    constructor does, with no layer, and leaves the stream alone.  With
    [deallocate] it frees the texels of every layer the image had and no
    other block; without [deallocate] the heap is as it was. *)
Theorem ClearImageData_resets (deallocate : bool) (m : machine) :
  exists m',
    ClearImageData deallocate m = (Ok tt, m') /\
    image m' = pvrNativeImage.constructed /\
    input m' = input m /\
    (deallocate = false -> Interface.heap (engine m') = Interface.heap (engine m)) /\
    (deallocate = true ->
     forall p,
       Interface.heap (engine m') !! p
       = if decide (Exists (fun l => mipmapLayer.texels l = Some p)
                      (pvrNativeImage.mipmaps (image m)))
         then None else Interface.heap (engine m) !! p).
Proof.
  unfold ClearImageData. unfold_M. unfold get.
  destruct deallocate; cbn [engine image input]; eexists;
    (split; [reflexivity|]); cbn [engine image input];
    (split; [reflexivity|]); (split; [reflexivity|]);
    (split; [intros H; try discriminate H; reflexivity|]);
    intros H; try discriminate H.
  intros p. apply deleteMipmapLayers_lookup.
Qed.

(** The checks on the properties do not allocate. *)
Lemma verify_properties_engine (ff : pvr_legacy_formatField.t) (w h bpp : Z)
    (m m' : machine) (r : result unit) :
  verify_properties ff w h bpp m = (r, m') ->
  Interface.heap (engine m') = Interface.heap (engine m) /\
  Interface.next_block (engine m') = Interface.next_block (engine m) /\
  Interface.oom (engine m') = Interface.oom (engine m).
Proof.
  unfold verify_properties. unfold_M.
  repeat match goal with
         | |- context [if ?b then _ else _] => destruct b
         | |- context [match ?c with UNKNOWN => _ | _ => _ end] => destruct c
         end;
    intros [= <- <-]; cbn; auto.
Qed.

(** What [ReadNativeImage] has done to the heap and the image, whatever its
    outcome: it has appended layers to the image, the blocks of the heap at
    the entry are as they were, and every other block of the heap is the
    texels of one of these layers. *)
Lemma ReadNativeImage_holds (m m1 : machine) (r : result unit) :
  heap_below_next (engine m) ->
  ReadNativeImage m = (r, m1) ->
  exists new,
    pvrNativeImage.mipmaps (image m1) = pvrNativeImage.mipmaps (image m) ++ new /\
    (forall p, (p < Interface.next_block (engine m))%positive ->
       Interface.heap (engine m1) !! p = Interface.heap (engine m) !! p) /\
    (forall p, (Interface.next_block (engine m) <= p)%positive ->
       Interface.heap (engine m1) !! p <> None ->
       Exists (fun l => mipmapLayer.texels l = Some p) new) /\
    Forall (fun l => exists p, mipmapLayer.texels l = Some p /\
                       (Interface.next_block (engine m) <= p)%positive) new.
Proof.
  intros Hbelow Hrun.
  assert (Hnone : forall m1 : machine,
    pvrNativeImage.mipmaps (image m1) = pvrNativeImage.mipmaps (image m) ->
    Interface.heap (engine m1) = Interface.heap (engine m) ->
    exists new,
      pvrNativeImage.mipmaps (image m1) = pvrNativeImage.mipmaps (image m) ++ new /\
      (forall p, (p < Interface.next_block (engine m))%positive ->
         Interface.heap (engine m1) !! p = Interface.heap (engine m) !! p) /\
      (forall p, (Interface.next_block (engine m) <= p)%positive ->
         Interface.heap (engine m1) !! p <> None ->
         Exists (fun l => mipmapLayer.texels l = Some p) new) /\
      Forall (fun l => exists p, mipmapLayer.texels l = Some p /\
                         (Interface.next_block (engine m) <= p)%positive) new).
  { intros m2 Hmips Hheap. exists []. rewrite app_nil_r, Hheap.
    split; [exact Hmips|]. split; [reflexivity|]. split; [|constructor].
    intros p Hp Hlive. apply Hbelow in Hlive. lia. }
  destruct (readLegacyVersionHeader (input m)) as [[h|] rest] eqn:Hh.
  2:{ unfold ReadNativeImage, bind, with_input in Hrun. rewrite Hh in Hrun.
      injection Hrun as <- <-. apply Hnone; reflexivity. }
  rewrite (ReadNativeImage_after_header m h rest Hh) in Hrun.
  destruct (verify_properties (formatFieldOut h) (widthOut h) (heightOut h)
              (bitsPerPixelOut h) {| engine := engine m; image := image m; input := rest |})
    as [[[]|what] ma] eqn:Hv.
  2:{ rewrite (read_body_checks_throw _ _ _ _ Hv) in Hrun. injection Hrun as <- <-.
      pose proof (verify_properties_frame _ _ _ _ _ _ _ Hv) as (Himg & _).
      pose proof (verify_properties_engine _ _ _ _ _ _ _ Hv) as (Hheap & _).
      apply Hnone; [now rewrite Himg | exact Hheap]. }
  pose proof (verify_properties_frame _ _ _ _ _ _ _ Hv) as (Himg & _).
  pose proof (verify_properties_engine _ _ _ _ _ _ _ Hv) as (Hheap & Hnext & _).
  cbn [engine image] in Himg, Hheap, Hnext.
  rewrite (read_body_stages _ _ _ Hv) in Hrun. cbv zeta in Hrun.
  destruct (negb (isValidLevel _)).
  { injection Hrun as <- <-. apply Hnone; cbn [engine image store_properties
      pvrNativeImage.mipmaps]; [now rewrite Himg | exact Hheap]. }
  destruct (read_levels _ _ _ _ _ _ _) as [r3 m3] eqn:Hloop.
  apply read_levels_holds in Hloop.
  2:{ cbn [engine]. intros p. rewrite Hheap, Hnext. apply Hbelow. }
  destruct Hloop as (new & Himg3 & (Hnb & Hold & Hlive & Hnew) & _).
  cbn [engine image] in Himg3, Hnb, Hold, Hlive, Hnew.
  rewrite Hnext in Hnb, Hold, Hlive, Hnew.
  assert (Hmips3 : pvrNativeImage.mipmaps (image m3)
                   = pvrNativeImage.mipmaps (image m) ++ new).
  { rewrite Himg3. destruct (push_all_members new (store_properties
      (pvr_legacy_formatField.pixelFormat (formatFieldOut h))
      (pvr_legacy_formatField.dataIsTwiddled (formatFieldOut h)) (formatFieldOut h)
      (getPVRLegacyFormatDepth (pvr_legacy_formatField.pixelFormat (formatFieldOut h)))
      (isLittleEndianOut h) (image ma))) as (-> & _).
    cbn [store_properties pvrNativeImage.mipmaps]. now rewrite Himg. }
  assert (Hfinal : forall m4 : machine,
    image m4 = image m3 -> Interface.heap (engine m4) = Interface.heap (engine m3) ->
    exists new,
      pvrNativeImage.mipmaps (image m4) = pvrNativeImage.mipmaps (image m) ++ new /\
      (forall p, (p < Interface.next_block (engine m))%positive ->
         Interface.heap (engine m4) !! p = Interface.heap (engine m) !! p) /\
      (forall p, (Interface.next_block (engine m) <= p)%positive ->
         Interface.heap (engine m4) !! p <> None ->
         Exists (fun l => mipmapLayer.texels l = Some p) new) /\
      Forall (fun l => exists p, mipmapLayer.texels l = Some p /\
                         (Interface.next_block (engine m) <= p)%positive) new).
  { intros m4 Himg4 Hheap4. exists new. rewrite Himg4, Hheap4.
    split; [exact Hmips3|]. split; [|split; [exact Hlive|]].
    - intros p Hp. rewrite Hold by exact Hp. now rewrite Hheap.
    - eapply Forall_impl; [exact Hnew|]. cbn. intros l (p & Hp & Hrange).
      exists p. split; [exact Hp | lia]. }
  destruct r3 as [[rem idx]|what].
  - destruct (after_levels_succeeds ((mipmapCountOut h + 1) mod uint32_max) rem idx m3)
      as (m4 & Hafter & Himg4 & Hheap4 & _).
    rewrite Hafter in Hrun. injection Hrun as <- <-. now apply Hfinal.
  - injection Hrun as <- <-. now apply Hfinal.
Qed.

(** X12: when [ReadNativeImage] has run on an image without layers,
    [ClearImageData] with [deallocate] brings the heap back to what it was
    before the read and the image back to what its constructor makes it,
    whether the read returned or threw: no block of a read is lost. *)
Theorem ReadNativeImage_then_ClearImageData (m m1 : machine) (r : result unit) :
  heap_below_next (engine m) ->
  pvrNativeImage.mipmaps (image m) = [] ->
  ReadNativeImage m = (r, m1) ->
  exists m2,
    ClearImageData true m1 = (Ok tt, m2) /\
    Interface.heap (engine m2) = Interface.heap (engine m) /\
    image m2 = pvrNativeImage.constructed.
Proof.
  intros Hbelow Hempty Hrun.
  destruct (ReadNativeImage_holds m m1 r Hbelow Hrun) as (new & Hmips & Hold & Hlive & Hnew).
  rewrite Hempty in Hmips. cbn [app] in Hmips.
  unfold ClearImageData. unfold_M. unfold get. cbn [engine image input].
  eexists. split; [reflexivity|]. cbn [engine image]. split; [|reflexivity].
  apply map_eq. intros p. rewrite deleteMipmapLayers_lookup, Hmips.
  destruct (decide (Exists _ new)) as [Hex | Hnex].
  - apply Exists_exists in Hex. destruct Hex as (l & Hin & Hl).
    rewrite Forall_forall in Hnew. destruct (Hnew l Hin) as (q & Hq & Hrange).
    assert (q = p) by congruence. subst q.
    destruct (Interface.heap (engine m) !! p) eqn:Hp; [|reflexivity].
    exfalso. assert (Hlt : (p < Interface.next_block (engine m))%positive).
    { apply Hbelow. rewrite Hp. discriminate. }
    lia.
  - destruct (decide (p < Interface.next_block (engine m))%positive) as [Hlt | Hge].
    + now apply Hold.
    + destruct (Interface.heap (engine m1) !! p) eqn:Hp1.
      * exfalso. apply Hnex, Hlive; [lia|]. rewrite Hp1. discriminate.
      * destruct (Interface.heap (engine m) !! p) eqn:Hp; [|reflexivity].
        exfalso. apply Hge, Hbelow. rewrite Hp. discriminate.
Qed.

(** ** What a successful load has read *)

(** The loop leaves the blocks that were there before it as they were. *)
Lemma read_levels_keeps (n : nat) : forall fmt gen rem idx m r m',
  read_levels n fmt (getPVRLegacyFormatDepth fmt) gen rem idx m = (r, m') ->
  (Interface.next_block (engine m) <= Interface.next_block (engine m'))%positive /\
  forall p, (p < Interface.next_block (engine m))%positive ->
    Interface.heap (engine m') !! p = Interface.heap (engine m) !! p.
Proof.
  induction n as [|n IH]; intros fmt gen rem idx m r m' Hrun.
  - cbn in Hrun. injection Hrun as <- <-. split; [lia | reflexivity].
  - apply read_levels_step in Hrun. cbv zeta in Hrun.
    destruct Hrun as [(-> & _) | [(e1 & what & _ & Halloc & ->)
                     | [(block & e1 & what & _ & Halloc & ->)
                     | (block & e1 & _ & _ & _ & Halloc & Hrun)]]].
    + split; [lia | reflexivity].
    + cbn [engine]. apply PixelAllocate_none in Halloc as [-> ->].
      split; [lia | reflexivity].
    + cbn [engine]. apply PixelAllocate_block in Halloc as (-> & Hheap & Hnext & _).
      cbn [Interface.PixelFree Interface.write Interface.next_block Interface.heap].
      rewrite Hnext, Hheap. split; [lia|]. intros p Hp.
      rewrite lookup_delete_ne, !lookup_insert_ne by lia. reflexivity.
    + apply IH in Hrun. cbn [engine] in Hrun. destruct Hrun as (Hnb & Hold).
      apply PixelAllocate_block in Halloc as (-> & Hheap & Hnext & _).
      cbn [Interface.write Interface.next_block Interface.heap] in Hnb, Hold.
      rewrite Hnext in Hnb, Hold. rewrite Hheap in Hold.
      split; [lia|]. intros p Hp. rewrite Hold by lia.
      rewrite !lookup_insert_ne by lia. reflexivity.
Qed.

Lemma level_chain_total_size (fmt : Z) (layers : list mipmapLayer.t) :
  forall gen idx s h,
    level_chain fmt gen idx layers s h ->
    0 <= total_size layers /\
    Z.of_nat (length (take (Z.to_nat (total_size layers)) s)) = total_size layers.
Proof.
  induction layers as [|layer layers IH]; intros gen idx s h Hchain.
  - cbn. split; [lia | reflexivity].
  - cbn [level_chain] in Hchain. cbv zeta in Hchain.
    destruct Hchain as (_ & Hlen & block & -> & _ & Hchain).
    apply IH in Hchain as [Hpos Hlen'].
    cbn [total_size fold_right]. fold (total_size layers).
    destruct (level_layer_members fmt (snd (next_level gen idx)) block) as (_ & -> & _).
    set (size := level_size fmt (snd (next_level gen idx))) in Hlen, Hlen' |- *.
    assert (Hsize : 0 <= size) by lia.
    split; [lia|].
    rewrite length_take in Hlen, Hlen' |- *. rewrite length_drop in Hlen'. lia.
Qed.

(** The chain of layers only looks at the blocks of the layers. *)
Lemma level_chain_heap (fmt : Z) (layers : list mipmapLayer.t) :
  forall gen idx s (h h' : gmap positive (list Z)),
    (forall l p, In l layers -> mipmapLayer.texels l = Some p -> h' !! p = h !! p) ->
    level_chain fmt gen idx layers s h -> level_chain fmt gen idx layers s h'.
Proof.
  induction layers as [|layer layers IH]; intros gen idx s h h' Hsame Hchain.
  - exact I.
  - cbn [level_chain] in Hchain |- *. cbv zeta in Hchain |- *.
    destruct Hchain as (Hest & Hlen & block & Hlayer & Hblock & Hchain).
    split; [exact Hest|]. split; [exact Hlen|]. exists block.
    split; [exact Hlayer|]. split.
    + rewrite (Hsame layer block); [exact Hblock | now left |].
      rewrite Hlayer. apply level_layer_members.
    + apply (IH _ _ _ h h'); [|exact Hchain].
      intros l p Hin. apply Hsame. now right.
Qed.

(** A loop that returns has stored the layers of consecutive levels, their
    blocks hold the bytes it took from the stream, and the budget went down
    by their sizes. *)
Lemma read_levels_chain (n : nat) : forall fmt gen rem idx m rem' idx' m',
  read_levels n fmt (getPVRLegacyFormatDepth fmt) gen rem idx m = (Ok (rem', idx'), m') ->
  exists new,
    image m' = push_all new (image m) /\
    level_chain fmt gen idx new (input m) (Interface.heap (engine m')) /\
    Forall (fun l => exists p, mipmapLayer.texels l = Some p /\
                       (Interface.next_block (engine m) <= p)%positive) new /\
    input m' = drop (Z.to_nat (total_size new)) (input m) /\
    rem' = rem - total_size new /\
    idx' = idx + Z.of_nat (length new) /\
    (length new <= n)%nat /\
    (new <> [] -> 0 <= rem') /\
    Interface.warnings (engine m') = Interface.warnings (engine m).
Proof.
  induction n as [|n IH]; intros fmt gen rem idx m rem' idx' m' Hrun.
  - cbn in Hrun. injection Hrun as <- <- <-. exists []. cbn.
    repeat split; try lia; try constructor. congruence.
  - apply read_levels_step in Hrun. cbv zeta in Hrun.
    destruct Hrun as [(-> & [(_ & [= <- <-]) | (what & Hthrow)])
                     | [(e1 & what & Hthrow & _)
                     | [(block & e1 & what & Hthrow & _)
                     | (block & e1 & Hest & Hsize & Hlen & Halloc & Hrun)]]];
      try discriminate Hthrow.
    + exists []. cbn. repeat split; try lia; try constructor. congruence.
    + pose proof (read_levels_keeps _ _ _ _ _ _ _ _ Hrun) as (Hnb & Hold).
      apply IH in Hrun.
      destruct Hrun as (new & Himg & Hchain & Hnew & Hin & -> & -> & Hn & Hrem & Hwarn).
      cbn [engine image input] in Himg, Hchain, Hnew, Hin, Hwarn, Hnb, Hold.
      pose proof (level_chain_total_size _ _ _ _ _ _ Hchain) as (Hpos & _).
      pose proof (PixelAllocate_block _ _ _ _ _ Halloc) as (-> & Hheap & Hnext & _ & Hw).
      cbn [Interface.write Interface.next_block Interface.heap Interface.warnings]
        in Hnb, Hold, Hnew, Hwarn.
      rewrite Hnext in Hnb, Hold, Hnew.
      set (gen' := snd (next_level gen idx)) in *.
      set (size := level_size fmt gen') in *.
      destruct (level_layer_members fmt gen' (Interface.next_block (engine m)))
        as (Htexels & Hdata & _).
      exists (level_layer fmt gen' (Interface.next_block (engine m)) :: new).
      assert (Htotal : total_size (level_layer fmt gen' (Interface.next_block (engine m)) :: new)
                       = size + total_size new).
      { cbn [total_size fold_right]. fold (total_size new). now rewrite Hdata. }
      rewrite Htotal. cbn [length].
      split; [exact Himg|]. split.
      { cbn [level_chain]. cbv zeta. split; [exact Hest|]. split; [exact Hlen|].
        exists (Interface.next_block (engine m)). split; [reflexivity|]. split; [|exact Hchain].
        rewrite Hold by lia. apply lookup_insert_eq. }
      split.
      { constructor.
        - exists (Interface.next_block (engine m)). split; [exact Htexels | lia].
        - eapply Forall_impl; [exact Hnew|]. cbn. intros l (p & Hp & Hrange).
          exists p. split; [exact Hp | lia]. }
      split.
      { rewrite Hin, drop_drop. f_equal. lia. }
      split; [lia|]. split; [lia|]. split; [lia|].
      split; [|now rewrite Hwarn].
      intros _. destruct new as [|l new'].
      * cbn [total_size fold_right]. lia.
      * assert (Hne : l :: new' <> []) by discriminate. specialize (Hrem Hne). lia.
Qed.

(** X13: a load that returns leaves the stream right after the surface data
    that the header declares, however many levels it has read: what the
    levels did not take of the declared size is skipped. *)
Theorem ReadNativeImage_consumes_declared_size (m m' : machine) :
  ReadNativeImage m = (Ok tt, m') ->
  exists h rest,
    readLegacyVersionHeader (input m) = (Some h, rest) /\
    input m' = drop (Z.to_nat (surfaceSizeOut h)) rest.
Proof.
  intros Hrun.
  destruct (readLegacyVersionHeader (input m)) as [[h|] rest] eqn:Hh.
  2:{ unfold ReadNativeImage, bind, with_input in Hrun. rewrite Hh in Hrun. discriminate. }
  exists h, rest. split; [reflexivity|].
  rewrite (ReadNativeImage_after_header m h rest Hh) in Hrun.
  destruct (verify_properties (formatFieldOut h) (widthOut h) (heightOut h)
              (bitsPerPixelOut h) {| engine := engine m; image := image m; input := rest |})
    as [[[]|what] ma] eqn:Hv.
  2:{ rewrite (read_body_checks_throw _ _ _ _ Hv) in Hrun. discriminate. }
  pose proof (verify_properties_frame _ _ _ _ _ _ _ Hv) as (_ & Hin & _).
  cbn [input] in Hin.
  rewrite (read_body_stages _ _ _ Hv) in Hrun. cbv zeta in Hrun.
  destruct (negb (isValidLevel _)); [discriminate|].
  destruct (read_levels _ _ _ _ _ _ _) as [[[rem idx]|what] m3] eqn:Hloop; [|discriminate].
  apply read_levels_chain in Hloop.
  destruct Hloop as (new & _ & Hchain & _ & Hin3 & -> & _ & _ & Hrem & _).
  cbn [input] in Hin3, Hchain. rewrite Hin in Hin3, Hchain.
  pose proof (level_chain_total_size _ _ _ _ _ _ Hchain) as (Hpos & _).
  destruct (after_levels_succeeds ((mipmapCountOut h + 1) mod uint32_max)
              (surfaceSizeOut h - total_size new) idx m3)
    as (m4 & Hafter & _ & _ & _ & Hin4 & _).
  rewrite Hafter in Hrun. injection Hrun as <-. rewrite Hin4, Hin3.
  destruct new as [|l new'].
  - cbn [total_size fold_right]. rewrite Z.sub_0_r. cbn [Z.to_nat drop].
    destruct (surfaceSizeOut h =? 0) eqn:E; [|reflexivity].
    apply Z.eqb_eq in E. now rewrite E.
  - assert (Hne : l :: new' <> []) by discriminate. specialize (Hrem Hne).
    destruct (_ =? 0) eqn:E.
    + apply Z.eqb_eq in E. f_equal. lia.
    + unfold stream_skip. rewrite drop_drop. f_equal. lia.
Qed.

(** ** IsStreamNativeImage *)

(** Checks that pass say that the format is valid. *)
Lemma verify_properties_valid (ff : pvr_legacy_formatField.t) (w h bpp : Z) (m m' : machine) :
  verify_properties ff w h bpp m = (Ok tt, m') ->
  isValidPVRLegacyPixelFormat (pvr_legacy_formatField.pixelFormat ff) = true.
Proof.
  unfold verify_properties. unfold bind at 1. unfold when at 1.
  destruct (isValidPVRLegacyPixelFormat _); [reflexivity|].
  cbn [negb]. unfold throw. discriminate.
Qed.

(** X14: a stream that [ReadNativeImage] loads is a stream that
    [IsStreamNativeImage] accepts. *)
Theorem ReadNativeImage_implies_IsStreamNativeImage (m m' : machine) :
  ReadNativeImage m = (Ok tt, m') ->
  fst (IsStreamNativeImage (input m)) = true.
Proof.
  intros Hrun. unfold IsStreamNativeImage.
  destruct (readLegacyVersionHeader (input m)) as [[h|] rest] eqn:Hh.
  2:{ unfold ReadNativeImage, bind, with_input in Hrun. rewrite Hh in Hrun. discriminate. }
  rewrite (ReadNativeImage_after_header m h rest Hh) in Hrun.
  destruct (verify_properties (formatFieldOut h) (widthOut h) (heightOut h)
              (bitsPerPixelOut h) {| engine := engine m; image := image m; input := rest |})
    as [[[]|what] ma] eqn:Hv.
  2:{ rewrite (read_body_checks_throw _ _ _ _ Hv) in Hrun. discriminate. }
  rewrite (verify_properties_valid _ _ _ _ _ _ Hv). cbn [negb]. cbv zeta.
  rewrite (read_body_stages _ _ _ Hv) in Hrun. cbv zeta in Hrun.
  destruct (isValidLevel _); [reflexivity|].
  cbn [negb] in Hrun. discriminate.
Qed.

(** X15: [IsStreamNativeImage] accepts a stream exactly when the legacy
    header is read, its pixel format is valid and its width and height make a
    valid level; the answer depends on no flag, on no surface size and on no
    byte after the header.  For a stream it accepts, the depth of the format
    is not 0, as the source asserts. *)
Theorem IsStreamNativeImage_accepts (inputStream : Stream) :
  (fst (IsStreamNativeImage inputStream) = true <->
   exists h rest,
     readLegacyVersionHeader inputStream = (Some h, rest) /\
     isValidPVRLegacyPixelFormat (pvr_legacy_formatField.pixelFormat (formatFieldOut h)) = true /\
     isValidLevel {| getLevelWidth := widthOut h; getLevelHeight := heightOut h |} = true) /\
  (fst (IsStreamNativeImage inputStream) = true ->
   exists h rest,
     readLegacyVersionHeader inputStream = (Some h, rest) /\
     getPVRLegacyFormatDepth (pvr_legacy_formatField.pixelFormat (formatFieldOut h)) <> 0).
Proof.
  unfold IsStreamNativeImage.
  destruct (readLegacyVersionHeader inputStream) as [[h|] rest] eqn:Hh.
  2:{ cbn [fst]. split.
      - split; [discriminate|]. intros (h & rest' & Hsome & _). discriminate Hsome.
      - discriminate. }
  cbv zeta.
  destruct (isValidPVRLegacyPixelFormat _) eqn:Hvalid; cbn [negb fst].
  2:{ split.
      - split; [discriminate|]. intros (h' & rest' & [= <- <-] & Hv & _). congruence.
      - discriminate. }
  destruct (isValidLevel _) eqn:Hlevel; cbn [Bool.eqb fst].
  2:{ split.
      - split; [discriminate|]. intros (h' & rest' & [= <- <-] & _ & Hl). congruence.
      - discriminate. }
  split.
  - split; [|reflexivity]. intros _. exists h, rest. auto.
  - intros _. exists h, rest. split; [reflexivity|].
    unfold isValidPVRLegacyPixelFormat in Hvalid.
    destruct (case_of _ _) eqn:E; [|discriminate Hvalid].
    labels_of E; discriminate.
Qed.

(** ** WriteNativeImage *)

Lemma header_u32_here (e : endianness) (v : Z) (rest : list Z) :
  0 <= v < 2 ^ 32 ->
  header_u32 e (endian_store e 4 v ++ rest) 0 = v.
Proof.
  intros Hv. unfold header_u32. change (4 * 0)%nat with 0%nat. rewrite drop_0.
  rewrite take_app_length' by (now rewrite length_endian_store).
  apply endian_load_store. exact Hv.
Qed.

Lemma header_u32_last (e : endianness) (v : Z) :
  0 <= v < 2 ^ 32 ->
  header_u32 e (endian_store e 4 v) 0 = v.
Proof.
  intros Hv. rewrite <- (app_nil_r (endian_store e 4 v)). now apply header_u32_here.
Qed.

Lemma header_u32_next (e : endianness) (v : Z) (rest : list Z) (k : nat) :
  header_u32 e (endian_store e 4 v ++ rest) (S k) = header_u32 e rest k.
Proof.
  unfold header_u32. replace (4 * S k)%nat with (4 + 4 * k)%nat by lia.
  rewrite drop_app_add' by (now rewrite length_endian_store). reflexivity.
Qed.

Lemma length_pvr_header_ver2 (e : endianness) (height width count : Z)
    (flags : pvr_legacy_formatField.t) (surfaceSize bitsPerPixel : Z) :
  length (pvr_header_ver2 e height width count flags surfaceSize bitsPerPixel) = 48%nat.
Proof.
  unfold pvr_header_ver2. rewrite !length_app, !length_endian_store. reflexivity.
Qed.

Lemma to_word_range (ff : pvr_legacy_formatField.t) :
  0 <= pvr_legacy_formatField.to_word ff < 2 ^ 32.
Proof.
  unfold pvr_legacy_formatField.to_word. cbv zeta.
  apply (pack_bound pvr_legacy_formatField.layout). repeat constructor; lia.
Qed.

(** A format field whose pixel format is a byte and whose padding is clear
    comes back from its word as it was. *)
Lemma of_word_to_word (ff : pvr_legacy_formatField.t) :
  0 <= pvr_legacy_formatField.pixelFormat ff < 256 ->
  pvr_legacy_formatField.pad ff = 0 ->
  pvr_legacy_formatField.of_word (pvr_legacy_formatField.to_word ff) = ff.
Proof.
  intros Hfmt Hpad. destruct ff as [fmt b1 b2 b3 b4 b5 b6 b7 b8 b9 pad].
  cbn [pvr_legacy_formatField.pixelFormat pvr_legacy_formatField.pad] in Hfmt, Hpad.
  subst pad.
  unfold pvr_legacy_formatField.of_word, pvr_legacy_formatField.to_word. cbv zeta.
  cbn [pvr_legacy_formatField.pixelFormat pvr_legacy_formatField.mipmapsPresent
       pvr_legacy_formatField.dataIsTwiddled pvr_legacy_formatField.containsNormalData
       pvr_legacy_formatField.hasBorder pvr_legacy_formatField.isCubeMap
       pvr_legacy_formatField.mipmapsHaveDebugColoring pvr_legacy_formatField.isVolumeTexture
       pvr_legacy_formatField.hasAlphaChannel_pvrtc pvr_legacy_formatField.isVerticallyFlipped
       pvr_legacy_formatField.pad].
  rewrite unpack_pack by (try reflexivity; repeat constructor; lia).
  unfold pvr_legacy_formatField.layout. cbn [zip_with member nth].
  replace (fmt mod 2 ^ 8) with fmt by (symmetry; apply Z.mod_small; lia).
  destruct b1, b2, b3, b4, b5, b6, b7, b8, b9; reflexivity.
Qed.

(** The legacy header reader reads the little-endian header that
    [WriteNativeImage] writes, member by member. *)
Lemma read_written_header (height width count : Z) (flags : pvr_legacy_formatField.t)
    (surfaceSize bitsPerPixel : Z) (rest : list Z) :
  0 <= height < 2 ^ 32 -> 0 <= width < 2 ^ 32 -> 0 <= count < 2 ^ 32 ->
  0 <= surfaceSize < 2 ^ 32 -> 0 <= bitsPerPixel < 2 ^ 32 ->
  readLegacyVersionHeader
    (endian_store little_endian 4 52 ++
     pvr_header_ver2 little_endian height width count flags surfaceSize bitsPerPixel ++ rest)
  = (Some {| widthOut := width; heightOut := height; mipmapCountOut := count;
             formatFieldOut :=
               pvr_legacy_formatField.of_word (pvr_legacy_formatField.to_word flags);
             surfaceSizeOut := surfaceSize; bitsPerPixelOut := bitsPerPixel;
             redMaskOut := 0; greenMaskOut := 0; blueMaskOut := 0; alphaMaskOut := 0;
             isLittleEndianOut := true |},
     rest).
Proof.
  intros Hh Hw Hc Hs Hb.
  unfold readLegacyVersionHeader, readStreamStruct, stream_read.
  rewrite take_app_length', drop_app_length' by reflexivity.
  cbn [endian_store bytes_of length Z.of_nat].
  change (Z.of_nat 4 =? 4) with true. cbv iota.
  change (endian_load little_endian [52 mod 256; 52 / 256 mod 256; 52 / 256 / 256 mod 256;
            52 / 256 / 256 / 256 mod 256]) with 52.
  cbv zeta. change (52 =? 44) with false. change (52 =? 52) with true. cbv iota.
  unfold read_ver2, readStreamStruct, stream_read.
  rewrite take_app_length', drop_app_length' by (now rewrite length_pvr_header_ver2).
  rewrite length_pvr_header_ver2. change (Z.of_nat 48 =? 48) with true. cbv iota.
  pose proof (to_word_range flags) as Hf.
  unfold pvr_id, header_fields, pvr_header_ver2.
  rewrite !header_u32_next.
  rewrite header_u32_here by lia.
  change (negb (559044176 =? 559044176)) with false. cbv iota.
  rewrite ?header_u32_next.
  rewrite (header_u32_here _ height) by lia.
  f_equal. f_equal.
  repeat match goal with
         | |- context [header_u32 ?e (endian_store ?e 4 ?v ++ ?r) (S ?k)] =>
             rewrite (header_u32_next e v r k)
         | |- context [header_u32 ?e (endian_store ?e 4 ?v ++ ?r) 0] =>
             rewrite (header_u32_here e v r) by lia
         end.
  reflexivity.
Qed.

(** ** Reading what was written *)

Lemma format_depth_range (f : Z) : 0 <= getPVRLegacyFormatDepth f <= 128.
Proof.
  unfold getPVRLegacyFormatDepth.
  repeat match goal with
         | |- context [if ?b then _ else _] => destruct b
         end; lia.
Qed.

Lemma valid_format_is_byte (f : Z) : isValidPVRLegacyPixelFormat f = true -> 0 <= f < 256.
Proof.
  unfold isValidPVRLegacyPixelFormat.
  destruct (case_of f _) eqn:E; [|discriminate].
  intros _. labels_of E; vm_compute; split; congruence.
Qed.

Lemma word_of_range (bytes : list Z) :
  Forall is_byte bytes -> 0 <= word_of bytes < 256 ^ Z.of_nat (length bytes).
Proof.
  induction 1 as [|b bytes Hb _ IH].
  - cbn. lia.
  - cbn [word_of length]. rewrite Nat2Z.inj_succ, Z.pow_succ_r by lia.
    unfold is_byte in Hb. lia.
Qed.

Lemma header_u32_range (header : list Z) (k : nat) :
  Forall is_byte header -> 0 <= header_u32 little_endian header k < 2 ^ 32.
Proof.
  intros Hbytes. unfold header_u32. cbn [endian_load].
  set (bytes := take 4 (drop (4 * k) header)).
  assert (Hb : Forall is_byte bytes) by (apply Forall_take, Forall_drop, Hbytes).
  assert (Hlen : (length bytes <= 4)%nat) by (subst bytes; rewrite length_take; lia).
  pose proof (word_of_range bytes Hb) as Hr.
  assert (256 ^ Z.of_nat (length bytes) <= 256 ^ 4)
    by (apply Z.pow_le_mono_r; lia).
  change (2 ^ 32) with (256 ^ 4). lia.
Qed.

(** The members of a header that was read from a stream of bytes are 32-bit
    numbers. *)
Lemma read_header_ranges (s rest : Stream) (h : legacy_header) :
  Forall is_byte s ->
  readLegacyVersionHeader s = (Some h, rest) ->
  0 <= widthOut h < 2 ^ 32 /\ 0 <= heightOut h < 2 ^ 32 /\
  0 <= surfaceSizeOut h < 2 ^ 32 /\ 0 <= mipmapCountOut h < 2 ^ 32.
Proof.
  intros Hbytes. unfold readLegacyVersionHeader, readStreamStruct, stream_read.
  destruct (Z.of_nat (length (take (Z.to_nat 4) s)) =? 4); [|discriminate].
  assert (Hrest : Forall is_byte (drop (Z.to_nat 4) s)) by (now apply Forall_drop).
  cbv zeta.
  assert (Hfields : forall hd : list Z, Forall is_byte hd ->
    let h := header_fields little_endian hd true in
    0 <= widthOut h < 2 ^ 32 /\ 0 <= heightOut h < 2 ^ 32 /\
    0 <= surfaceSizeOut h < 2 ^ 32 /\ 0 <= mipmapCountOut h < 2 ^ 32).
  { intros hd Hhd. cbv zeta. unfold header_fields.
    cbn [widthOut heightOut surfaceSizeOut mipmapCountOut].
    split; [|split; [|split]]; apply header_u32_range; exact Hhd. }
  destruct (endian_load little_endian _ =? 44).
  - unfold read_ver1, readStreamStruct, stream_read.
    destruct (_ =? 40); [|discriminate].
    intros [= <- _]. apply Hfields. now apply Forall_take.
  - destruct (endian_load little_endian _ =? 52); [|discriminate].
    unfold read_ver2, readStreamStruct, stream_read.
    destruct (_ =? 48); [|discriminate].
    destruct (negb _); [discriminate|].
    intros [= <- _]. apply Hfields. now apply Forall_take.
Qed.

(** Checks that pass for a format field pass again, without a warning, for
    a format field with the same format and the same flags of the checks,
    when the bits per pixel are those of the format. *)
Lemma verify_properties_again (ff ff' : pvr_legacy_formatField.t) (w h bpp : Z)
    (m ma m2 : machine) :
  verify_properties ff w h bpp m = (Ok tt, ma) ->
  pvr_legacy_formatField.pixelFormat ff' = pvr_legacy_formatField.pixelFormat ff ->
  pvr_legacy_formatField.isCubeMap ff' = pvr_legacy_formatField.isCubeMap ff ->
  pvr_legacy_formatField.isVolumeTexture ff' = pvr_legacy_formatField.isVolumeTexture ff ->
  pvr_legacy_formatField.isVerticallyFlipped ff'
    = pvr_legacy_formatField.isVerticallyFlipped ff ->
  pvr_legacy_formatField.dataIsTwiddled ff' = pvr_legacy_formatField.dataIsTwiddled ff ->
  verify_properties ff' w h
    (getPVRLegacyFormatDepth (pvr_legacy_formatField.pixelFormat ff)) m2
  = (Ok tt, m2).
Proof.
  intros Hv E1 E2 E3 E4 E5. revert Hv. unfold verify_properties.
  rewrite E1, E2, E3, E4, E5, Z.eqb_refl. cbn [negb]. unfold_M.
  destruct (isValidPVRLegacyPixelFormat _); cbn [negb]; [|discriminate].
  destruct (negb (bpp =? _));
    (destruct (pvr_legacy_formatField.isCubeMap ff); [discriminate|];
     destruct (pvr_legacy_formatField.isVolumeTexture ff); [discriminate|];
     destruct (pvr_legacy_formatField.isVerticallyFlipped ff); [discriminate|];
     destruct (pvr_legacy_formatField.dataIsTwiddled ff); [|reflexivity];
     destruct (IsMipmapSizeValid_pot_squared w h); cbn [negb]; [|discriminate];
     destruct (getPVRLegacyPixelFormatType _); try discriminate; reflexivity).
Qed.

(** What checks that pass say of the flags. *)
Lemma verify_properties_flags (ff : pvr_legacy_formatField.t) (w h bpp : Z) (m ma : machine) :
  verify_properties ff w h bpp m = (Ok tt, ma) ->
  pvr_legacy_formatField.isCubeMap ff = false /\
  pvr_legacy_formatField.isVolumeTexture ff = false /\
  pvr_legacy_formatField.isVerticallyFlipped ff = false.
Proof.
  unfold verify_properties. unfold_M.
  destruct (isValidPVRLegacyPixelFormat _); cbn [negb]; [|discriminate].
  destruct (negb (bpp =? _));
    (destruct (pvr_legacy_formatField.isCubeMap ff); [discriminate|];
     destruct (pvr_legacy_formatField.isVolumeTexture ff); [discriminate|];
     destruct (pvr_legacy_formatField.isVerticallyFlipped ff); [discriminate|];
     auto).
Qed.

(** A turn of the loop that finds its level, the budget, the bytes and a
    block goes on with the next turn. *)
Lemma read_levels_turn_ok (n : nat) (fmt : Z) (gen : mipGenLevelGenerator) (rem idx : Z)
    (m : machine) (e1 : Interface.t) (block : positive) :
  fst (next_level gen idx) = true ->
  let gen' := snd (next_level gen idx) in
  let size := level_size fmt gen' in
  size <= rem ->
  Z.of_nat (length (take (Z.to_nat size) (input m))) = size ->
  Interface.PixelAllocate indeterminate size (engine m) = (Some block, e1) ->
  read_levels (S n) fmt (getPVRLegacyFormatDepth fmt) gen rem idx m
  = read_levels n fmt (getPVRLegacyFormatDepth fmt) gen' (rem - size) (idx + 1)
      {| engine := Interface.write block (take (Z.to_nat size) (input m)) e1;
         image := pvrNativeImage.push_back (level_layer fmt gen' block) (image m);
         input := drop (Z.to_nat size) (input m) |}.
Proof.
  cbn [read_levels]. unfold next_level, level_layer; unfold level_size; cbv zeta.
  destruct (if negb (idx =? 0) then incrementLevel gen else (true, gen)) as [est gen'].
  cbn [fst snd]. intros ->. cbn [negb].
  destruct (getPVRLegacyFormatSurfaceDimensions fmt (getLevelWidth gen') (getLevelHeight gen'))
    as [sw sh].
  set (size := uint32 (getRasterDataSizeByRowSize _ _)).
  intros Hrem Hlen Halloc.
  assert (Hltb : (rem <? size) = false) by (apply Z.ltb_ge; lia). rewrite Hltb.
  unfold_M.
  assert (Hahead : (Z.of_nat (length (input m)) <? size) = false).
  { apply Z.ltb_ge. rewrite length_take in Hlen. lia. }
  rewrite Hahead, Halloc. cbn [engine image input stream_read].
  rewrite Hlen, Z.eqb_refl. cbn [negb engine image input]. reflexivity.
Qed.

Lemma level_layer_same_dimensions (fmt : Z) (gen : mipGenLevelGenerator) (b b' : positive) :
  mipmapLayer.width (level_layer fmt gen b') = mipmapLayer.width (level_layer fmt gen b) /\
  mipmapLayer.height (level_layer fmt gen b') = mipmapLayer.height (level_layer fmt gen b) /\
  mipmapLayer.layerWidth (level_layer fmt gen b')
    = mipmapLayer.layerWidth (level_layer fmt gen b) /\
  mipmapLayer.layerHeight (level_layer fmt gen b')
    = mipmapLayer.layerHeight (level_layer fmt gen b) /\
  mipmapLayer.dataSize (level_layer fmt gen b') = mipmapLayer.dataSize (level_layer fmt gen b).
Proof.
  unfold level_layer.
  destruct (getPVRLegacyFormatSurfaceDimensions fmt (getLevelWidth gen) (getLevelHeight gen)).
  repeat split.
Qed.

(** The loop, given the bytes of a chain of layers and their total size as
    its budget, with no allocation failing, stores layers with the
    dimensions and the bytes of the chain and uses up the budget. *)
Lemma read_levels_replay (fmt : Z) (layers : list mipmapLayer.t) :
  forall gen idx s (h : gmap positive (list Z)) (m : machine) (rest : list Z),
    level_chain fmt gen idx layers s h ->
    input m = take (Z.to_nat (total_size layers)) s ++ rest ->
    Interface.oom (engine m) = [] ->
    exists m' new,
      read_levels (length layers) fmt (getPVRLegacyFormatDepth fmt) gen
        (total_size layers) idx m
      = (Ok (0, idx + Z.of_nat (length layers)), m') /\
      image m' = push_all new (image m) /\
      Forall2 (same_layer h (Interface.heap (engine m'))) layers new /\
      input m' = rest /\
      Interface.warnings (engine m') = Interface.warnings (engine m).
Proof.
  induction layers as [|layer layers IH]; intros gen idx s h m rest Hchain Hin Hoom.
  - exists m, []. cbn in Hin |- *. rewrite Z.add_0_r.
    repeat split; [constructor | exact Hin].
  - pose proof (level_chain_total_size _ _ _ _ _ _ Hchain) as (_ & Hlenall).
    cbn [level_chain] in Hchain. cbv zeta in Hchain.
    destruct Hchain as (Hest & Hlen & block & -> & Hblock & Hchain).
    pose proof (level_chain_total_size _ _ _ _ _ _ Hchain) as (Hpos & Hlen').
    set (gen' := snd (next_level gen idx)) in *.
    set (size := level_size fmt gen') in *.
    destruct (level_layer_members fmt gen' block) as (_ & Hdata & _).
    assert (Htotal : total_size (level_layer fmt gen' block :: layers)
                     = size + total_size layers).
    { cbn [total_size fold_right]. fold (total_size layers). now rewrite Hdata. }
    rewrite Htotal in Hin, Hlenall |- *.
    assert (Hsize : 0 <= size) by lia.
    assert (Hsplit : take (Z.to_nat (size + total_size layers)) s
                     = take (Z.to_nat size) s
                       ++ take (Z.to_nat (total_size layers)) (drop (Z.to_nat size) s)).
    { rewrite take_take_drop. f_equal. lia. }
    rewrite Hsplit, <- app_assoc in Hin.
    assert (Hlen_nat : length (take (Z.to_nat size) s) = Z.to_nat size) by lia.
    assert (Htake : take (Z.to_nat size) (input m) = take (Z.to_nat size) s).
    { rewrite Hin. apply take_app_length'. now rewrite Hlen_nat. }
    assert (Hdrop : drop (Z.to_nat size) (input m)
                    = take (Z.to_nat (total_size layers)) (drop (Z.to_nat size) s) ++ rest).
    { rewrite Hin. apply drop_app_length'. now rewrite Hlen_nat. }
    destruct (Interface.PixelAllocate indeterminate size (engine m)) as [[block'|] e1] eqn:Halloc.
    2:{ unfold Interface.PixelAllocate in Halloc. rewrite Hoom in Halloc. discriminate. }
    pose proof (PixelAllocate_block _ _ _ _ _ Halloc) as (-> & Hheap & Hnext & Hoom1 & Hw1).
    set (m1 := {| engine := Interface.write (Interface.next_block (engine m))
                              (take (Z.to_nat size) (input m)) e1;
                  image := pvrNativeImage.push_back
                             (level_layer fmt gen' (Interface.next_block (engine m))) (image m);
                  input := drop (Z.to_nat size) (input m) |}).
    destruct (IH gen' (idx + 1) (drop (Z.to_nat size) s) h m1 rest Hchain Hdrop)
      as (m' & new & Hrun & Himg & Hsame & Hin' & Hwarn).
    { cbn. now rewrite Hoom1, Hoom. }
    exists m', (level_layer fmt gen' (Interface.next_block (engine m)) :: new).
    cbn [length]. split.
    { rewrite (read_levels_turn_ok (length layers) fmt gen (size + total_size layers) idx m e1
                 (Interface.next_block (engine m)) Hest); fold gen'; fold size.
      - replace (size + total_size layers - size) with (total_size layers) by lia.
        fold m1. rewrite Hrun. f_equal. f_equal. f_equal. lia.
      - lia.
      - now rewrite Htake.
      - exact Halloc. }
    split; [exact Himg|]. split; [|split; [exact Hin'|]].
    2:{ rewrite Hwarn. cbn. exact Hw1. }
    constructor; [|exact Hsame].
    destruct (level_layer_same_dimensions fmt gen' block (Interface.next_block (engine m)))
      as (Hw & Hh & Hlw & Hlh & Hds).
    unfold same_layer. repeat (split; [assumption|]).
    exists block, (Interface.next_block (engine m)), (take (Z.to_nat size) s).
    split; [apply level_layer_members|]. split; [apply level_layer_members|].
    split; [exact Hblock|]. split; [|now rewrite Hdata].
    pose proof (read_levels_keeps _ _ _ _ _ _ _ _ Hrun) as (_ & Hold).
    rewrite Hold by (cbn; lia). cbn. rewrite Htake. apply lookup_insert_eq.
Qed.

(** The texels that [WriteNativeImage] writes for a chain of layers are the
    bytes of the chain. *)
Lemma write_body_chain (fmt : Z) (layers : list mipmapLayer.t) :
  forall gen idx s (e : Interface.t) (out : list Z),
    level_chain fmt gen idx layers s (Interface.heap e) ->
    fold_left (fun out mipLayer =>
                 out ++ block_bytes e (mipmapLayer.texels mipLayer)
                          (mipmapLayer.dataSize mipLayer)) layers out
    = out ++ take (Z.to_nat (total_size layers)) s.
Proof.
  induction layers as [|layer layers IH]; intros gen idx s e out Hchain.
  - cbn. now rewrite app_nil_r.
  - cbn [level_chain] in Hchain. cbv zeta in Hchain.
    destruct Hchain as (Hest & Hlen & block & -> & Hblock & Hchain).
    pose proof (level_chain_total_size _ _ _ _ _ _ Hchain) as (Hpos & _).
    cbn [fold_left]. rewrite (IH _ _ _ _ _ Hchain).
    destruct (level_layer_members fmt (snd (next_level gen idx)) block) as (-> & Hdata & _).
    cbn [total_size fold_right]. fold (total_size layers). rewrite Hdata.
    set (size := level_size fmt (snd (next_level gen idx))) in *.
    unfold block_bytes. cbn [mbind option_bind]. rewrite Hblock. cbn [default from_option]. unfold id.
    rewrite take_take, Nat.min_id, <- app_assoc. f_equal.
    rewrite take_take_drop. f_equal. lia.
Qed.

(** The sizes of a chain of layers add up without wrapping when their total
    is a 32-bit number. *)
Lemma total_surface_size (fmt : Z) (layers : list mipmapLayer.t) :
  forall gen idx s h acc,
    level_chain fmt gen idx layers s h ->
    0 <= acc -> acc + total_size layers < uint32_max ->
    fold_left (fun total srcLayer => (total + mipmapLayer.dataSize srcLayer) mod uint32_max)
      layers acc
    = acc + total_size layers.
Proof.
  induction layers as [|layer layers IH]; intros gen idx s h acc Hchain Hacc Hsum.
  - cbn. lia.
  - cbn [level_chain] in Hchain. cbv zeta in Hchain.
    destruct Hchain as (_ & Hlen & block & -> & _ & Hchain).
    pose proof (level_chain_total_size _ _ _ _ _ _ Hchain) as (Hpos & _).
    destruct (level_layer_members fmt (snd (next_level gen idx)) block) as (_ & Hdata & _).
    cbn [total_size fold_right] in Hsum |- *. fold (total_size layers) in Hsum |- *.
    rewrite Hdata in Hsum |- *.
    set (size := level_size fmt (snd (next_level gen idx))) in *.
    cbn [fold_left]. rewrite Hdata. fold size.
    rewrite Z.mod_small by lia.
    rewrite (IH _ _ _ _ _ Hchain) by lia. lia.
Qed.

(** What [WriteNativeImage] writes for a little-endian image whose layers
    are a chain from the first level on: the header size, the header of the
    base level, and the bytes of the chain. *)
Lemma WriteNativeImage_chain (e : Interface.t) (natImg : pvrNativeImage.t) (fmt : Z)
    (gen : mipGenLevelGenerator) (s : Stream) (out0 : list Z) :
  pvrNativeImage.isLittleEndian natImg = true ->
  pvrNativeImage.mipmaps natImg <> [] ->
  level_chain fmt gen 0 (pvrNativeImage.mipmaps natImg) s (Interface.heap e) ->
  total_size (pvrNativeImage.mipmaps natImg) < uint32_max ->
  WriteNativeImage e natImg out0
  = (Ok tt,
     out0 ++ endian_store little_endian 4 52 ++
     pvr_header_ver2 little_endian (getLevelHeight gen) (getLevelWidth gen)
       ((Z.of_nat (length (pvrNativeImage.mipmaps natImg)) - 1) mod uint32_max)
       (prepared_formatField natImg (length (pvrNativeImage.mipmaps natImg)))
       (total_size (pvrNativeImage.mipmaps natImg)) (pvrNativeImage.bitDepth natImg) ++
     take (Z.to_nat (total_size (pvrNativeImage.mipmaps natImg))) s).
Proof.
  intros Hle Hne Hchain Htotal. unfold WriteNativeImage. cbv zeta. rewrite Hle.
  destruct (pvrNativeImage.mipmaps natImg) as [|base layers] eqn:Hmips; [contradiction|].
  cbn [length Nat.eqb endianness_of]. rewrite <- Hmips in Hchain, Htotal |- *.
  rewrite (write_body_chain fmt _ gen 0 s e _ Hchain).
  rewrite (total_surface_size fmt _ gen 0 s _ 0 Hchain) by lia.
  rewrite Z.add_0_l. rewrite Hmips in Hchain |- *.
  cbn [level_chain] in Hchain. cbv zeta in Hchain.
  destruct Hchain as (_ & _ & block & -> & _).
  cbn [nth].
  destruct (level_layer_members fmt (snd (next_level gen 0)) block) as (_ & _ & -> & ->).
  change (snd (next_level gen 0)) with gen.
  rewrite <- !app_assoc. reflexivity.
Qed.

(** X16: an image that [ReadNativeImage] has loaded from a stream of bytes,
    written by [WriteNativeImage] and loaded again by [ReadNativeImage], is
    the same image: the second load returns, pushes no warning, takes exactly
    the bytes that were written, and gives the same format, flags and bit
    depth and layers with the same dimensions, sizes and bytes.  Both loads
    start with an image without layers; no allocation of the second load
    fails. *)
Theorem WriteNativeImage_then_ReadNativeImage (m0 m1 m2 : machine) (out rest : list Z) :
  ReadNativeImage m0 = (Ok tt, m1) ->
  pvrNativeImage.mipmaps (image m0) = [] ->
  Forall is_byte (input m0) ->
  WriteNativeImage (engine m1) (image m1) [] = (Ok tt, out) ->
  input m2 = out ++ rest ->
  pvrNativeImage.mipmaps (image m2) = [] ->
  Interface.oom (engine m2) = [] ->
  exists m3,
    ReadNativeImage m2 = (Ok tt, m3) /\
    same_properties (image m3) (image m1) /\
    Forall2 (same_layer (Interface.heap (engine m1)) (Interface.heap (engine m3)))
      (pvrNativeImage.mipmaps (image m1)) (pvrNativeImage.mipmaps (image m3)) /\
    input m3 = rest /\
    Interface.warnings (engine m3) = Interface.warnings (engine m2).
Proof.
  intros Hread Hempty Hbytes Hwrite Hin2 Hempty2 Hoom2.
  (* the first load *)
  destruct (readLegacyVersionHeader (input m0)) as [[h|] rest0] eqn:Hh.
  2:{ unfold ReadNativeImage, bind, with_input in Hread. rewrite Hh in Hread. discriminate. }
  pose proof (read_header_ranges _ _ _ Hbytes Hh) as (Hw & Hht & Hsurf & Hcnt).
  pose proof (readLegacyVersionHeader_never_big_endian _ _ _ Hh) as Hle.
  rewrite (ReadNativeImage_after_header m0 h rest0 Hh) in Hread.
  destruct (verify_properties (formatFieldOut h) (widthOut h) (heightOut h)
              (bitsPerPixelOut h) {| engine := engine m0; image := image m0; input := rest0 |})
    as [[[]|what] ma] eqn:Hv.
  2:{ rewrite (read_body_checks_throw _ _ _ _ Hv) in Hread. discriminate. }
  pose proof (verify_properties_frame _ _ _ _ _ _ _ Hv) as (Himga & Hina & _).
  pose proof (verify_properties_valid _ _ _ _ _ _ Hv) as Hvalid.
  pose proof (valid_format_is_byte _ Hvalid) as Hfmt.
  pose proof (verify_properties_flags _ _ _ _ _ _ Hv) as (Hcube & Hvol & Hflip).
  cbn [image input] in Himga, Hina.
  rewrite (read_body_stages _ _ _ Hv) in Hread. cbv zeta in Hread.
  destruct (isValidLevel _) eqn:Hlevel; cbn [negb] in Hread; [|discriminate].
  destruct (read_levels _ _ _ _ _ _ _) as [[[rem idx]|what] mb] eqn:Hloop; [|discriminate].
  destruct (after_levels_succeeds ((mipmapCountOut h + 1) mod uint32_max) rem idx mb)
    as (mc & Hafter & Himgc & Hheapc & _).
  rewrite Hafter in Hread. injection Hread as <-.
  apply read_levels_chain in Hloop.
  destruct Hloop as (new & Himgb & Hchain & _ & _ & -> & _ & Hn & Hrem & _).
  cbn [engine image input] in Himgb, Hchain.
  rewrite Hina in Hchain. rewrite <- Hheapc in Hchain.
  set (fmt := pvr_legacy_formatField.pixelFormat (formatFieldOut h)) in *.
  set (gen0 := {| getLevelWidth := widthOut h; getLevelHeight := heightOut h |}) in *.
  set (img0 := store_properties fmt (pvr_legacy_formatField.dataIsTwiddled (formatFieldOut h))
                 (formatFieldOut h) (getPVRLegacyFormatDepth fmt) (isLittleEndianOut h)
                 (image ma)) in *.
  assert (Himg1 : image mc = push_all new img0) by (now rewrite Himgc).
  destruct (push_all_members new img0)
    as (Hmips & Hpf & Htw & Hnd & Hbo & Hcm & Hdc & Hvt & Hal & Hvf & Hbd & Hlend).
  rewrite <- Himg1 in Hmips, Hpf, Htw, Hnd, Hbo, Hcm, Hdc, Hvt, Hal, Hvf, Hbd, Hlend.
  cbn [img0 store_properties pvrNativeImage.mipmaps pvrNativeImage.pixelFormat
       pvrNativeImage.dataIsTwiddled pvrNativeImage.containsNormalData
       pvrNativeImage.hasBorder pvrNativeImage.isCubeMap
       pvrNativeImage.mipmapsHaveDebugColoring pvrNativeImage.isVolumeTexture
       pvrNativeImage.hasAlphaChannel_pvrtc pvrNativeImage.isVerticallyFlipped
       pvrNativeImage.bitDepth pvrNativeImage.isLittleEndian]
    in Hmips, Hpf, Htw, Hnd, Hbo, Hcm, Hdc, Hvt, Hal, Hvf, Hbd, Hlend.
  rewrite Himga, Hempty in Hmips. cbn [app] in Hmips. rewrite Hle in Hlend.
  (* what was written *)
  assert (Hne : new <> []).
  { intros ->. unfold WriteNativeImage in Hwrite. rewrite Hmips in Hwrite.
    cbn in Hwrite. discriminate. }
  specialize (Hrem Hne).
  pose proof (level_chain_total_size _ _ _ _ _ _ Hchain) as (Hpos & _).
  rewrite (WriteNativeImage_chain (engine mc) (image mc) fmt gen0 rest0 [])
    in Hwrite; rewrite ?Hmips; try assumption; [|unfold uint32_max; lia].
  rewrite Hmips, Hbd, app_nil_l in Hwrite. apply pair_equal_spec in Hwrite as [_ <-].
  change (getLevelHeight gen0) with (heightOut h) in Hin2.
  change (getLevelWidth gen0) with (widthOut h) in Hin2.
  assert (Hlen : 1 <= Z.of_nat (length new) < uint32_max).
  { destruct new; [contradiction|]. cbn [length] in Hn |- *.
    pose proof (Z.mod_pos_bound (mipmapCountOut h + 1) uint32_max ltac:(reflexivity)).
    lia. }
  rewrite (Z.mod_small (Z.of_nat (length new) - 1)) in Hin2 by lia.
  rewrite <- !app_assoc in Hin2.
  (* the second load *)
  set (prepared := prepared_formatField (image mc) (length new)) in *.
  assert (Hprepared : pvr_legacy_formatField.of_word (pvr_legacy_formatField.to_word prepared)
                      = prepared).
  { apply of_word_to_word; [|reflexivity].
    cbn [prepared prepared_formatField pvr_legacy_formatField.pixelFormat].
    apply Z.mod_pos_bound. lia. }
  assert (Hpfmt : pvr_legacy_formatField.pixelFormat prepared = fmt).
  { cbn [prepared prepared_formatField pvr_legacy_formatField.pixelFormat].
    rewrite Hpf. apply Z.mod_small. exact Hfmt. }
  pose proof (format_depth_range fmt) as Hdepth.
  pose proof (read_written_header (heightOut h) (widthOut h) (Z.of_nat (length new) - 1)
                prepared (total_size new) (getPVRLegacyFormatDepth fmt)
                (take (Z.to_nat (total_size new)) rest0 ++ rest)
                Hht Hw ltac:(unfold uint32_max in Hlen; lia) ltac:(lia) ltac:(lia)) as Hh2.
  rewrite <- Hin2, Hprepared in Hh2.
  rewrite (ReadNativeImage_after_header m2 _ _ Hh2).
  set (m2a := {| engine := engine m2; image := image m2;
                 input := take (Z.to_nat (total_size new)) rest0 ++ rest |}).
  set (h2 := {| widthOut := widthOut h; heightOut := heightOut h;
                mipmapCountOut := Z.of_nat (length new) - 1; formatFieldOut := prepared;
                surfaceSizeOut := total_size new;
                bitsPerPixelOut := getPVRLegacyFormatDepth fmt;
                redMaskOut := 0; greenMaskOut := 0; blueMaskOut := 0; alphaMaskOut := 0;
                isLittleEndianOut := true |}).
  assert (Hv2 : verify_properties (formatFieldOut h2) (widthOut h2) (heightOut h2)
                  (bitsPerPixelOut h2) m2a = (Ok tt, m2a)).
  { cbn [h2 formatFieldOut widthOut heightOut bitsPerPixelOut].
    apply (verify_properties_again (formatFieldOut h) prepared _ _ _ _ _ m2a Hv).
    - exact Hpfmt.
    - cbn [prepared prepared_formatField pvr_legacy_formatField.isCubeMap].
      now rewrite Hcm, Hcube.
    - cbn [prepared prepared_formatField pvr_legacy_formatField.isVolumeTexture].
      now rewrite Hvt, Hvol.
    - cbn [prepared prepared_formatField pvr_legacy_formatField.isVerticallyFlipped].
      now rewrite Hvf.
    - cbn [prepared prepared_formatField pvr_legacy_formatField.dataIsTwiddled].
      now rewrite Htw. }
  rewrite (read_body_stages h2 m2a m2a Hv2). cbv zeta.
  cbn [h2 formatFieldOut widthOut heightOut bitsPerPixelOut mipmapCountOut surfaceSizeOut
       isLittleEndianOut].
  fold gen0. rewrite Hlevel. cbn [negb]. rewrite Hpfmt.
  replace (Z.of_nat (length new) - 1 + 1) with (Z.of_nat (length new)) by lia.
  rewrite (Z.mod_small (Z.of_nat (length new))) by lia. rewrite Nat2Z.id.
  set (m2b := {| engine := engine m2a;
                 image := store_properties fmt (pvr_legacy_formatField.dataIsTwiddled prepared)
                            prepared (getPVRLegacyFormatDepth fmt) true (image m2a);
                 input := input m2a |}).
  destruct (read_levels_replay fmt new gen0 0 rest0 (Interface.heap (engine mc)) m2b rest
              Hchain eq_refl Hoom2)
    as (m3 & new' & Hrun & Himg3 & Hsame & Hin3 & Hwarn3).
  rewrite Hrun. cbn [Z.add].
  unfold after_levels. rewrite !Z.eqb_refl. cbn [negb]. unfold_M.
  exists m3. split; [reflexivity|].
  destruct (push_all_members new' (image m2b))
    as (Hmips' & Hpf' & Htw' & Hnd' & Hbo' & Hcm' & Hdc' & Hvt' & Hal' & Hvf' & Hbd' & Hlend').
  rewrite <- Himg3 in Hmips', Hpf', Htw', Hnd', Hbo', Hcm', Hdc', Hvt', Hal', Hvf', Hbd', Hlend'.
  cbn [m2b m2a image store_properties pvrNativeImage.mipmaps pvrNativeImage.pixelFormat
       pvrNativeImage.dataIsTwiddled pvrNativeImage.containsNormalData
       pvrNativeImage.hasBorder pvrNativeImage.isCubeMap
       pvrNativeImage.mipmapsHaveDebugColoring pvrNativeImage.isVolumeTexture
       pvrNativeImage.hasAlphaChannel_pvrtc pvrNativeImage.isVerticallyFlipped
       pvrNativeImage.bitDepth pvrNativeImage.isLittleEndian
       prepared prepared_formatField pvr_legacy_formatField.dataIsTwiddled
       pvr_legacy_formatField.containsNormalData pvr_legacy_formatField.hasBorder
       pvr_legacy_formatField.mipmapsHaveDebugColoring
       pvr_legacy_formatField.hasAlphaChannel_pvrtc
       pvr_legacy_formatField.isVerticallyFlipped]
    in Hmips', Hpf', Htw', Hnd', Hbo', Hcm', Hdc', Hvt', Hal', Hvf', Hbd', Hlend'.
  rewrite Hempty2 in Hmips'. cbn [app] in Hmips'.
  split.
  { unfold same_properties.
    rewrite Hpf', Htw', Hnd', Hbo', Hcm', Hdc', Hvt', Hal', Hvf', Hbd', Hlend'.
    rewrite Hpf, Hcm, Hvt, Hbd, Hlend. repeat split. }
  rewrite ?Hmips, Hmips'. split; [exact Hsame|].
  split; [exact Hin3|].
  rewrite Hwarn3. reflexivity.
Qed.

Lemma write_layers_concat (e : Interface.t) (layers : list mipmapLayer.t) :
  forall out : list Z,
    fold_left (fun out mipLayer =>
                 out ++ block_bytes e (mipmapLayer.texels mipLayer)
                          (mipmapLayer.dataSize mipLayer)) layers out
    = out ++ concat (map (fun mipLayer =>
                            block_bytes e (mipmapLayer.texels mipLayer)
                              (mipmapLayer.dataSize mipLayer)) layers).
Proof.
  induction layers as [|l layers IH]; intros out; cbn [fold_left map concat].
  - now rewrite app_nil_r.
  - rewrite IH, <- app_assoc. reflexivity.
Qed.

(** X17: [WriteNativeImage] refuses an image without layers and writes
    nothing then.  For any other image it returns and appends, to what the
    stream held, a header of 52 bytes followed by the texels of the layers in
    their order, as many bytes of each block as the data size of the layer
    says; the header starts with the number 52 and holds the number
    0x21525650 in its bytes 44 to 47, both in the byte order of the image. *)
Theorem WriteNativeImage_output (e : Interface.t) (natImg : pvrNativeImage.t)
    (outputStream : list Z) :
  (pvrNativeImage.mipmaps natImg = [] ->
   WriteNativeImage e natImg outputStream
   = (Throw "attempt to write empty PVR native image file", outputStream)) /\
  (pvrNativeImage.mipmaps natImg <> [] ->
   exists header,
     WriteNativeImage e natImg outputStream
     = (Ok tt,
        outputStream ++ header ++
        concat (map (fun mipLayer =>
                       block_bytes e (mipmapLayer.texels mipLayer)
                         (mipmapLayer.dataSize mipLayer))
                  (pvrNativeImage.mipmaps natImg))) /\
     length header = 52%nat /\
     take 4 header
     = endian_store (endianness_of (pvrNativeImage.isLittleEndian natImg)) 4 52 /\
     take 4 (drop 44 header)
     = endian_store (endianness_of (pvrNativeImage.isLittleEndian natImg)) 4 0x21525650).
Proof.
  split.
  - intros Hempty. unfold WriteNativeImage. rewrite Hempty. reflexivity.
  - intros Hne. unfold WriteNativeImage. cbv zeta.
    destruct (pvrNativeImage.mipmaps natImg) as [|base layers] eqn:Hmips; [contradiction|].
    cbn [length Nat.eqb].
    set (en := endianness_of (pvrNativeImage.isLittleEndian natImg)).
    set (header := pvr_header_ver2 en _ _ _ _ _ _).
    exists (endian_store en 4 52 ++ header).
    split; [|split; [|split]].
    + rewrite write_layers_concat, <- !app_assoc. reflexivity.
    + rewrite length_app, length_endian_store. unfold header.
      now rewrite length_pvr_header_ver2.
    + apply take_app_length'. now rewrite length_endian_store.
    + unfold header, pvr_header_ver2. rewrite !app_assoc, <- app_assoc.
      rewrite drop_app_length'
        by (rewrite !length_app, !length_endian_store; reflexivity).
      apply take_app_length'. now rewrite length_endian_store.
Qed.

(** X18: every way this file has of filling a native image leaves it marked
    little-endian: a load by [ReadNativeImage] that returns, an acquisition
    by [ReadFromNativeTexture] that returns, and [ClearImageData]. *)
Theorem filled_images_are_little_endian :
  (forall m m', ReadNativeImage m = (Ok tt, m') ->
     pvrNativeImage.isLittleEndian (image m') = true) /\
  (forall f fr feedback fr', ReadFromNativeTexture f fr = (Ok feedback, fr') ->
     pvrNativeImage.isLittleEndian (image (mach fr')) = true) /\
  (forall deallocate m m', ClearImageData deallocate m = (Ok tt, m') ->
     pvrNativeImage.isLittleEndian (image m') = true).
Proof.
  split; [|split].
  - intros m m' Hread.
    destruct (readLegacyVersionHeader (input m)) as [[h|] rest0] eqn:Hh.
    2:{ unfold ReadNativeImage, bind, with_input in Hread. rewrite Hh in Hread. discriminate. }
    pose proof (readLegacyVersionHeader_never_big_endian _ _ _ Hh) as Hle.
    rewrite (ReadNativeImage_after_header m h rest0 Hh) in Hread.
    destruct (verify_properties (formatFieldOut h) (widthOut h) (heightOut h)
                (bitsPerPixelOut h) {| engine := engine m; image := image m; input := rest0 |})
      as [[[]|what] ma] eqn:Hv.
    2:{ rewrite (read_body_checks_throw _ _ _ _ Hv) in Hread. discriminate. }
    rewrite (read_body_stages _ _ _ Hv) in Hread. cbv zeta in Hread.
    destruct (negb (isValidLevel _)); [discriminate|].
    destruct (read_levels _ _ _ _ _ _ _) as [[[rem idx]|what] mb] eqn:Hloop; [|discriminate].
    destruct (after_levels_succeeds ((mipmapCountOut h + 1) mod uint32_max) rem idx mb)
      as (mc & Hafter & Himgc & _).
    rewrite Hafter in Hread. injection Hread as <-. rewrite Himgc.
    apply read_levels_chain in Hloop. destruct Hloop as (new & -> & _).
    destruct (push_all_members new (image {|
      engine := engine ma;
      image := store_properties (pvr_legacy_formatField.pixelFormat (formatFieldOut h))
                 (pvr_legacy_formatField.dataIsTwiddled (formatFieldOut h)) (formatFieldOut h)
                 (getPVRLegacyFormatDepth (pvr_legacy_formatField.pixelFormat (formatFieldOut h)))
                 (isLittleEndianOut h) (image ma);
      input := input ma |})) as (_ & _ & _ & _ & _ & _ & _ & _ & _ & _ & _ & ->).
    exact Hle.
  - intros f fr feedback fr'. unfold ReadFromNativeTexture. cbv zeta.
    unfold bind at 1. unfold try_catch_rethrow. unfold bind at 1.
    destruct (choose_format f true fr) as [[[[fmt depth] alpha]|what] fr1].
    + unfold bind, get, lift, update_image, when, with_engine, ret, on_machine.
      destruct (frm_isPaletteNewlyAllocated f); intros [= _ <-]; reflexivity.
    + discriminate.
  - intros deallocate m m'. unfold ClearImageData. unfold_M. unfold get.
    destruct deallocate; intros [= <-]; reflexivity.
Qed.

(** ** The twiddled flag *)

Lemma valid_size_is_valid_level (width height : Z) :
  IsMipmapSizeValid_pot_squared width height = true ->
  isValidLevel {| getLevelWidth := width; getLevelHeight := height |} = true.
Proof.
  unfold IsMipmapSizeValid_pot_squared, is_power_of_two, isValidLevel.
  cbn [getLevelWidth getLevelHeight].
  destruct (0 <? width) eqn:Ew; [|discriminate].
  destruct (0 <? height) eqn:Eh; [|cbn; rewrite andb_false_r; discriminate].
  intros _. apply Z.ltb_lt in Ew, Eh.
  destruct (width =? 0) eqn:E1; [apply Z.eqb_eq in E1; lia|].
  destruct (height =? 0) eqn:E2; [apply Z.eqb_eq in E2; lia|].
  reflexivity.
Qed.

Lemma level_size_range (fmt : Z) (gen : mipGenLevelGenerator) :
  0 <= level_size fmt gen < uint32_max.
Proof.
  unfold level_size.
  destruct (getPVRLegacyFormatSurfaceDimensions fmt (getLevelWidth gen) (getLevelHeight gen)).
  apply uint32_range.
Qed.

(** C6: with the twiddled flag set, the load fails when width and height are
    not an equal power of two, and fails for every classification other than
    compressed whatever the size.  For a power-of-two square of a compressed
    format (none of the unsupported flags being set) the load proceeds: the
    checks pass, the properties of the header are stored, and the load is
    what the loop over the levels and the code after it make of the stream,
    so that it throws only where the loop does; a file of one level whose
    bytes are there and that declares them is loaded, with its layer, its
    format and the twiddled flag in the image. *)
Theorem twiddled_flag_validation (m : machine) (h : legacy_header) (rest : Stream) :
  readLegacyVersionHeader (input m) = (Some h, rest) ->
  pvr_legacy_formatField.dataIsTwiddled (formatFieldOut h) = true ->
  let ff := formatFieldOut h in
  let pixelFormat := pvr_legacy_formatField.pixelFormat ff in
  let class := getPVRLegacyPixelFormatType pixelFormat in
  let mipmapCount := (mipmapCountOut h + 1) mod uint32_max in
  let mipGen := {| getLevelWidth := widthOut h; getLevelHeight := heightOut h |} in
  let m0 := {| engine := engine m; image := image m; input := rest |} in
  let fails :=
    exists what m',
      ReadNativeImage m = (Throw what, m') /\
      image m' = image m /\
      Interface.requests (engine m') = Interface.requests (engine m) in
  (IsMipmapSizeValid_pot_squared (widthOut h) (heightOut h) = false -> fails) /\
  (class = RGBA \/ class = LUMINANCE \/ class = UNKNOWN -> fails) /\
  (IsMipmapSizeValid_pot_squared (widthOut h) (heightOut h) = true ->
   class = COMPRESSED ->
   pvr_legacy_formatField.isCubeMap ff = false ->
   pvr_legacy_formatField.isVolumeTexture ff = false ->
   pvr_legacy_formatField.isVerticallyFlipped ff = false ->
   (exists m1,
      verify_properties ff (widthOut h) (heightOut h) (bitsPerPixelOut h) m0 = (Ok tt, m1) /\
      image m1 = image m /\ input m1 = rest /\
      ReadNativeImage m
      = match read_levels (Z.to_nat mipmapCount) pixelFormat
                (getPVRLegacyFormatDepth pixelFormat) mipGen (surfaceSizeOut h) 0
                {| engine := engine m1;
                   image := store_properties pixelFormat true ff
                              (getPVRLegacyFormatDepth pixelFormat) (isLittleEndianOut h)
                              (image m);
                   input := rest |} with
        | (Ok r, m3) => after_levels mipmapCount r m3
        | (Throw what, m3) => (Throw what, m3)
        end) /\
   (mipmapCountOut h = 0 ->
    level_size pixelFormat mipGen <= surfaceSizeOut h ->
    level_size pixelFormat mipGen <= Z.of_nat (length rest) ->
    hd false (Interface.oom (engine m)) = false ->
    exists m',
      ReadNativeImage m = (Ok tt, m') /\
      pvrNativeImage.mipmaps (image m')
      = pvrNativeImage.mipmaps (image m)
        ++ [level_layer pixelFormat mipGen (Interface.next_block (engine m))] /\
      pvrNativeImage.pixelFormat (image m') = pixelFormat /\
      pvrNativeImage.dataIsTwiddled (image m') = true /\
      Interface.heap (engine m') !! Interface.next_block (engine m)
      = Some (take (Z.to_nat (level_size pixelFormat mipGen)) rest))).
Proof.
  intros Hh Htw. cbv zeta.
  assert (Hfail :
    IsMipmapSizeValid_pot_squared (widthOut h) (heightOut h) = false \/
    getPVRLegacyPixelFormatType (pvr_legacy_formatField.pixelFormat (formatFieldOut h))
      <> COMPRESSED ->
    exists what m',
      ReadNativeImage m = (Throw what, m') /\
      image m' = image m /\
      Interface.requests (engine m') = Interface.requests (engine m)).
  { intros Hbad.
    destruct (verify_properties_twiddled_throws (formatFieldOut h) (widthOut h) (heightOut h)
                (bitsPerPixelOut h) {| engine := engine m; image := image m; input := rest |}
                Htw Hbad) as (what & m' & Hv).
    exists what, m'. rewrite (ReadNativeImage_after_header m h rest Hh).
    split; [now apply read_body_checks_throw|].
    apply verify_properties_frame in Hv. cbn [engine image input] in Hv.
    destruct Hv as (Himg & _ & Hreq & _). split; assumption. }
  split; [|split].
  - intros Hsize. apply Hfail. now left.
  - intros Hclass. apply Hfail. right.
    destruct Hclass as [-> | [-> | ->]]; discriminate.
  - intros Hsize Hclass Hcube Hvol Hflip.
    destruct (verify_properties_twiddled_passes (formatFieldOut h) (widthOut h) (heightOut h)
                (bitsPerPixelOut h) {| engine := engine m; image := image m; input := rest |}
                Hsize Hclass Hcube Hvol Hflip) as (m1 & Hv).
    pose proof (verify_properties_frame _ _ _ _ _ _ _ Hv) as (Himg & Hin & _).
    pose proof (verify_properties_engine _ _ _ _ _ _ _ Hv) as (Hheap & Hnext & Hoom).
    cbn [engine image input] in Himg, Hin, Hheap, Hnext, Hoom.
    assert (Hload :
      ReadNativeImage m
      = match read_levels (Z.to_nat ((mipmapCountOut h + 1) mod uint32_max))
                (pvr_legacy_formatField.pixelFormat (formatFieldOut h))
                (getPVRLegacyFormatDepth (pvr_legacy_formatField.pixelFormat (formatFieldOut h)))
                {| getLevelWidth := widthOut h; getLevelHeight := heightOut h |}
                (surfaceSizeOut h) 0
                {| engine := engine m1;
                   image := store_properties
                              (pvr_legacy_formatField.pixelFormat (formatFieldOut h)) true
                              (formatFieldOut h)
                              (getPVRLegacyFormatDepth
                                 (pvr_legacy_formatField.pixelFormat (formatFieldOut h)))
                              (isLittleEndianOut h) (image m);
                   input := rest |} with
        | (Ok r, m3) => after_levels ((mipmapCountOut h + 1) mod uint32_max) r m3
        | (Throw what, m3) => (Throw what, m3)
        end).
    { rewrite (ReadNativeImage_after_header m h rest Hh), (read_body_stages _ _ _ Hv).
      cbv zeta. rewrite (valid_size_is_valid_level _ _ Hsize), Htw, Himg, Hin.
      reflexivity. }
    split.
    + exists m1. repeat split; assumption.
    + intros Hcount Hbudget Hbytes Hoom0.
      rewrite Hload, Hcount.
      change (Z.to_nat ((0 + 1) mod uint32_max)) with 1%nat.
      change ((0 + 1) mod uint32_max) with 1.
      set (fmt := pvr_legacy_formatField.pixelFormat (formatFieldOut h)) in *.
      set (gen := {| getLevelWidth := widthOut h; getLevelHeight := heightOut h |}) in *.
      pose proof (level_size_range fmt gen) as Hrange.
      assert (Halloc :
        Interface.PixelAllocate indeterminate (level_size fmt gen) (engine m1)
        = (Some (Interface.next_block (engine m)),
           {| Interface.heap :=
                <[Interface.next_block (engine m) :=
                    replicate (Z.to_nat (level_size fmt gen)) indeterminate]>
                  (Interface.heap (engine m1));
              Interface.next_block := Pos.succ (Interface.next_block (engine m));
              Interface.requests := level_size fmt gen :: Interface.requests (engine m1);
              Interface.warnings := Interface.warnings (engine m1);
              Interface.oom := tail (Interface.oom (engine m1)) |})).
      { unfold Interface.PixelAllocate. rewrite Hoom, Hnext.
        destruct (Interface.oom (engine m)) as [|b oom]; cbn [hd] in Hoom0;
          [|subst b]; reflexivity. }
      rewrite (read_levels_turn_ok 0 fmt gen (surfaceSizeOut h) 0 _ _ _ eq_refl)
        by (cbn [next_level snd negb Z.eqb input];
            first [ exact Hbudget
                  | exact Halloc
                  | rewrite length_take; lia ]).
      cbn [read_levels next_level snd negb Z.eqb]. unfold ret.
      destruct (after_levels_succeeds 1 (surfaceSizeOut h - level_size fmt gen) (0 + 1)
                  {| engine :=
                       Interface.write (Interface.next_block (engine m))
                         (take (Z.to_nat (level_size fmt gen)) rest)
                         {| Interface.heap :=
                              <[Interface.next_block (engine m) :=
                                  replicate (Z.to_nat (level_size fmt gen)) indeterminate]>
                                (Interface.heap (engine m1));
                            Interface.next_block := Pos.succ (Interface.next_block (engine m));
                            Interface.requests :=
                              level_size fmt gen :: Interface.requests (engine m1);
                            Interface.warnings := Interface.warnings (engine m1);
                            Interface.oom := tail (Interface.oom (engine m1)) |};
                     image :=
                       pvrNativeImage.push_back
                         (level_layer fmt gen (Interface.next_block (engine m)))
                         (store_properties fmt true (formatFieldOut h)
                            (getPVRLegacyFormatDepth fmt) (isLittleEndianOut h) (image m));
                     input := drop (Z.to_nat (level_size fmt gen)) rest |})
        as (m' & Hafter & Himg' & Hheap' & _).
      exists m'. split; [exact Hafter|].
      rewrite Himg', Hheap'.
      cbn [image engine pvrNativeImage.push_back store_properties pvrNativeImage.mipmaps
           pvrNativeImage.pixelFormat pvrNativeImage.dataIsTwiddled
           Interface.write Interface.heap].
      repeat split. apply lookup_insert_eq.
Qed.

(** ** The layers of a loaded image *)

Lemma block_dimensions_positive (f : Z) :
  pvrtc_blocks_positive ->
  0 < fst (block_dimensions f) /\ 0 < snd (block_dimensions f).
Proof.
  intros Hpos. unfold block_dimensions.
  destruct (case_of f [V_Y1_U_Y0; Y1_V_Y0_U; UYVY; YUY2]); [cbn; lia|].
  destruct (case_of f [DXT1; DXT2; DXT3; DXT4; DXT5; ETC]); [cbn; lia|].
  destruct (case_of f [PVRTC2; PVRTC4; PVRTC2_SEC; PVRTC4_SEC]) eqn:Ep; [|cbn; lia].
  apply Hpos. labels_of Ep; vm_compute; auto.
Qed.

(** The surface dimensions are the logical ones rounded up to the block and
    stored in a [uint32]. *)
Lemma surface_dimensions_blocks (f layerWidth layerHeight : Z) :
  0 <= layerWidth < uint32_max -> 0 <= layerHeight < uint32_max ->
  getPVRLegacyFormatSurfaceDimensions f layerWidth layerHeight
  = (uint32 (ALIGN_SIZE layerWidth (fst (block_dimensions f))),
     uint32 (ALIGN_SIZE layerHeight (snd (block_dimensions f)))).
Proof.
  intros Hw Hh. unfold getPVRLegacyFormatSurfaceDimensions, block_dimensions.
  destruct (case_of f [V_Y1_U_Y0; Y1_V_Y0_U; UYVY; YUY2]); [reflexivity|].
  destruct (case_of f [DXT1; DXT2; DXT3; DXT4; DXT5; ETC]); [reflexivity|].
  destruct (case_of f [PVRTC2; PVRTC4; PVRTC2_SEC; PVRTC4_SEC]).
  - destruct (getPVRCompressionBlockDimensions _) as [bw bh]. reflexivity.
  - cbn [fst snd]. now rewrite !ALIGN_SIZE_one, !uint32_small.
Qed.

(** The layer that a turn of the loop stores has the invariant of C9 when no
    [uint32] wrapped. *)
Lemma level_layer_invariant (fmt : Z) (gen : mipGenLevelGenerator) (block : positive) :
  pvrtc_blocks_positive ->
  layer_fits fmt (level_layer fmt gen block) ->
  layer_invariant (getPVRLegacyFormatDepth fmt) (level_layer fmt gen block).
Proof.
  intros Hpos. unfold layer_fits, layer_invariant, level_layer, level_size.
  destruct (block_dimensions_positive fmt Hpos) as [Hbw Hbh].
  pose proof (surface_dimensions_blocks fmt (getLevelWidth gen) (getLevelHeight gen)) as Hdims.
  destruct (block_dimensions fmt) as [bw bh]. cbn [fst snd] in Hbw, Hbh, Hdims.
  destruct (getPVRLegacyFormatSurfaceDimensions fmt (getLevelWidth gen) (getLevelHeight gen))
    as [sw sh].
  cbn [mipmapLayer.width mipmapLayer.height mipmapLayer.layerWidth
       mipmapLayer.layerHeight mipmapLayer.dataSize].
  intros (Hw0 & Hh0 & Hw & Hh & Hsize).
  injection (Hdims ltac:(lia) ltac:(lia)) as -> ->.
  pose proof (ALIGN_SIZE_round_up (getLevelWidth gen) bw Hbw) as [_ Hrw].
  pose proof (ALIGN_SIZE_round_up (getLevelHeight gen) bh Hbh) as [_ Hrh].
  rewrite !uint32_small by lia.
  split; [lia|]. split; [lia|].
  set (W := ALIGN_SIZE (getLevelWidth gen) bw) in *.
  set (H := ALIGN_SIZE (getLevelHeight gen) bh) in *.
  unfold getPVRNativeImageRasterDataRowSize, getRasterDataSizeByRowSize.
  set (R := getRasterDataRowSize W (getPVRLegacyFormatDepth fmt) getPVRNativeImageRowAlignment)
    in *.
  assert (HR : 0 <= R).
  { unfold R, getRasterDataRowSize, getPVRNativeImageRowAlignment.
    rewrite ALIGN_SIZE_one.
    pose proof (format_depth_range fmt) as Hd.
    destruct (ALIGN_SIZE_round_up (W * getPVRLegacyFormatDepth fmt) 8 ltac:(lia))
      as [[k Hk] Hb].
    rewrite Hk, Z.div_mul by lia. nia. }
  destruct (Z.eq_dec H 0) as [-> | Hne].
  - now rewrite !Z.mul_0_r.
  - rewrite (uint32_small R) by nia. apply uint32_small. lia.
Qed.

(** The loop only appends layers, each with the invariant unless a [uint32]
    wrapped, and does not touch the other members of the image. *)
Lemma read_levels_appends (n : nat) : forall fmt gen rem idx m r m',
  pvrtc_blocks_positive ->
  read_levels n fmt (getPVRLegacyFormatDepth fmt) gen rem idx m = (Ok r, m') ->
  exists new,
    pvrNativeImage.mipmaps (image m') = pvrNativeImage.mipmaps (image m) ++ new /\
    Forall (fun l => layer_fits fmt l -> layer_invariant (getPVRLegacyFormatDepth fmt) l) new /\
    pvrNativeImage.bitDepth (image m') = pvrNativeImage.bitDepth (image m) /\
    pvrNativeImage.pixelFormat (image m') = pvrNativeImage.pixelFormat (image m).
Proof.
  induction n as [|n IH]; intros fmt gen rem idx m r m' Hpos Hrun.
  - cbn in Hrun. injection Hrun as <- <-. exists []. rewrite app_nil_r. auto.
  - apply read_levels_turn in Hrun.
    destruct Hrun as [(_ & _ & ->) | (_ & Hrun)].
    + exists []. rewrite app_nil_r. auto.
    + cbv zeta in Hrun. destruct Hrun as (_ & block & e' & _ & Hrun).
      apply IH in Hrun; [|assumption].
      destruct Hrun as (new & Hmips & Hinv & Hdepth & Hformat).
      cbn [image pvrNativeImage.push_back pvrNativeImage.mipmaps pvrNativeImage.bitDepth
           pvrNativeImage.pixelFormat] in Hmips, Hdepth, Hformat.
      eexists (_ :: new). rewrite Hmips, <- app_assoc. split; [reflexivity|].
      split; [|split; assumption].
      constructor; [|assumption]. now apply level_layer_invariant.
Qed.

(** After a successful [ReadNativeImage] into an image that held no layers,
    every layer for which no [uint32] wrapped is at least as wide and as high
    as its logical size, and its data size is the row size of its width at
    the bit depth of the image, the row alignment being 1, times its
    height. *)
Lemma ReadNativeImage_layer_invariant_unless_wrapped (m m' : machine) :
  pvrtc_blocks_positive ->
  pvrNativeImage.mipmaps (image m) = [] ->
  ReadNativeImage m = (Ok tt, m') ->
  Forall (fun l => layer_fits (pvrNativeImage.pixelFormat (image m')) l ->
                   layer_invariant (pvrNativeImage.bitDepth (image m')) l)
         (pvrNativeImage.mipmaps (image m')).
Proof.
  intros Hpos Hempty Hrun.
  destruct (readLegacyVersionHeader (input m)) as [[h|] rest] eqn:Hh.
  2:{ unfold ReadNativeImage, bind, with_input in Hrun. rewrite Hh in Hrun. discriminate. }
  rewrite (ReadNativeImage_after_header m h rest Hh) in Hrun.
  destruct (verify_properties (formatFieldOut h) (widthOut h) (heightOut h)
              (bitsPerPixelOut h) {| engine := engine m; image := image m; input := rest |})
    as [[[]|what] m1] eqn:Hv.
  2:{ rewrite (read_body_checks_throw _ _ _ _ Hv) in Hrun. discriminate. }
  rewrite (read_body_stages _ _ _ Hv) in Hrun. cbv zeta in Hrun.
  destruct (negb (isValidLevel _)); [discriminate|].
  destruct (read_levels _ _ _ _ _ _ _) as [[[rem idx]|what] m3] eqn:Hloop; [|discriminate].
  destruct (after_levels_succeeds ((mipmapCountOut h + 1) mod uint32_max) rem idx m3)
    as (m4 & Hafter & Himg & _).
  rewrite Hafter in Hrun. injection Hrun as <-. rewrite Himg.
  apply read_levels_appends in Hloop; [|assumption].
  destruct Hloop as (new & Hmips & Hinv & Hdepth & Hformat).
  apply verify_properties_frame in Hv. destruct Hv as (Himg1 & _).
  cbn [image store_properties pvrNativeImage.mipmaps pvrNativeImage.bitDepth
       pvrNativeImage.pixelFormat] in Hmips, Hdepth, Hformat.
  rewrite Himg1 in Hmips. cbn [image] in Hmips. rewrite Hempty in Hmips. cbn [app] in Hmips.
  rewrite Hmips, Hdepth, Hformat. exact Hinv.
Qed.

(** C9: every layer of an image that [ReadNativeImage] has loaded is claimed
    to be at least as wide as its logical width.  The surface width is kept
    in a [uint32]: for a DXT1 file of 4294967295 x 1 texels that declares no
    surface data the width rounds up to 2^32 and is stored as 0, the level
    has the size 0, and the load returns with a layer of surface width 0 and
    logical width 4294967295. *)
Theorem ReadNativeImage_layer_width_wraps :
  let header :=
    [ 44; 0; 0; 0;        1; 0; 0; 0;          255; 255; 255; 255;    0; 0; 0; 0;
      32; 0; 0; 0;        0; 0; 0; 0;          4; 0; 0; 0;
      0; 0; 0; 0;  0; 0; 0; 0;  0; 0; 0; 0;  0; 0; 0; 0 ] in
  let m := {| engine := Interface.start []; image := pvrNativeImage.constructed;
              input := header |} in
  (exists h rest,
     readLegacyVersionHeader (input m) = (Some h, rest) /\
     pvr_legacy_formatField.pixelFormat (formatFieldOut h) = DXT1 /\
     widthOut h = 4294967295 /\ heightOut h = 1 /\
     mipmapCountOut h = 0 /\ surfaceSizeOut h = 0) /\
  exists m' l,
    ReadNativeImage m = (Ok tt, m') /\
    pvrNativeImage.mipmaps (image m') = [l] /\
    mipmapLayer.layerWidth l = 4294967295 /\ mipmapLayer.width l = 0 /\
    mipmapLayer.layerHeight l = 1 /\ mipmapLayer.height l = 4 /\
    mipmapLayer.dataSize l = 0 /\
    Interface.warnings (engine m') = [] /\
    ~ layer_invariant (pvrNativeImage.bitDepth (image m')) l.
Proof.
  cbv zeta. split.
  - eexists. eexists. repeat split; vm_compute; reflexivity.
  - eexists. eexists.
    split; [vm_compute; reflexivity|].
    split; [reflexivity|].
    repeat (split; [reflexivity|]).
    intros (Hwidth & _). cbn in Hwidth. lia.
Qed.

End PVR.

(** * Closed examples

    The theorems above at concrete inputs, with the parameters fixed as in
    the instances at the head of the file. *)

Lemma setRGBA_luminance_no_write_witness :
  setRGBA sample_destscalecolorf sample_rgb2lum 0 (dispatcher_for I8 true)
    [7; 7] 1 10 20 30 255
  = Ok (false, [7; 7]).
Proof.
  apply (setRGBA_luminance_no_write sample_destscalecolorf sample_rgb2lum 0
           I8 true [7; 7] 1 10 20 30 255).
  reflexivity.
Defined.

Lemma twiddled_flag_validation_witness :
  (exists what m',
     ReadNativeImage 0 sample_blocks sample_twiddled_not_square = (Throw what, m') /\
     image m' = image sample_twiddled_not_square /\
     Interface.requests (engine m') = []) /\
  (exists what m',
     ReadNativeImage 0 sample_blocks sample_twiddled_raw = (Throw what, m') /\
     image m' = image sample_twiddled_raw /\
     Interface.requests (engine m') = []) /\
  (exists m',
     ReadNativeImage 0 sample_blocks sample_twiddled_compressed = (Ok tt, m') /\
     pvrNativeImage.mipmaps (image m')
     = [ {| mipmapLayer.width := 64; mipmapLayer.height := 64;
            mipmapLayer.layerWidth := 64; mipmapLayer.layerHeight := 64;
            mipmapLayer.texels := Some 1%positive; mipmapLayer.dataSize := 2048 |} ] /\
     pvrNativeImage.pixelFormat (image m') = DXT1 /\
     pvrNativeImage.dataIsTwiddled (image m') = true /\
     Interface.heap (engine m') !! 1%positive = Some (replicate 2048 0)).
Proof.
  split; [|split].
  - edestruct (twiddled_flag_validation 0 sample_blocks sample_twiddled_not_square)
      as (Hsize & _ & _); [vm_compute; reflexivity | reflexivity |].
    apply Hsize. reflexivity.
  - edestruct (twiddled_flag_validation 0 sample_blocks sample_twiddled_raw)
      as (_ & Hclass & _); [vm_compute; reflexivity | reflexivity |].
    apply Hclass. left. reflexivity.
  - edestruct (twiddled_flag_validation 0 sample_blocks sample_twiddled_compressed)
      as (_ & _ & Hpass); [vm_compute; reflexivity | reflexivity |].
    destruct (Hpass eq_refl eq_refl eq_refl eq_refl eq_refl) as [_ Hload].
    destruct Hload as (m' & Hrun & Hmips & Hformat & Htwiddled & Hheap);
      [reflexivity | vm_compute; discriminate | vm_compute; discriminate | reflexivity |].
    exists m'. split; [exact Hrun|]. split; [exact Hmips|].
    split; [exact Hformat|]. split; [exact Htwiddled|]. exact Hheap.
Defined.

Lemma sample_codec_round_trip_witness :
  (exists buf',
     setRGBA sample_destscalecolorf sample_rgb2lum 0 (dispatcher_for ARGB_1555 true)
       [0; 0; 0; 0] 1 130 20 30 255 = Ok (true, buf') /\
     length buf' = 4%nat /\
     getRGBA sample_destscalecolorf 0 (dispatcher_for ARGB_1555 true) buf' 1 no_color
     = Ok (true, {| redOut := 132; greenOut := 16; blueOut := 33; alphaOut := 255 |})) /\
  (exists buf',
     setLuminance sample_destscalecolorf sample_rgb2lum 0 (dispatcher_for AL_44 false)
       [0; 0] 1 130 255 = Ok (true, buf') /\
     length buf' = 2%nat /\
     getLuminance sample_destscalecolorf sample_rgb2lum 0 (dispatcher_for AL_44 false)
       buf' 1 no_luminance
     = Ok (true, {| lumOut := 136; lumAlphaOut := 255 |})) /\
  (exists buf',
     setRGBA sample_single_of_channel sample_rgb2lum 0 (dispatcher_for GR_3232F true)
       [0; 0; 0; 0; 0; 0; 0; 0] 0 130 20 30 7 = Ok (true, buf') /\
     length buf' = 8%nat /\
     getRGBA sample_channel_of_single 0 (dispatcher_for GR_3232F true) buf' 0 no_color
     = Ok (true, {| redOut := 130; greenOut := 20; blueOut := 0; alphaOut := 255 |})).
Proof.
  split; [|split].
  - destruct (sample_codec_round_trip sample_destscalecolorf sample_destscalecolorf
                sample_rgb2lum 0 ARGB_1555 true [0; 0; 0; 0] 1 130 20 30 255 0
                no_color no_luminance)
      as (Hrgba & _); try lia; [vm_compute; discriminate|].
    destruct (Hrgba (scaled 31) (scaled 31) (scaled 31) presence eq_refl) as (_ & H).
    exact H.
  - destruct (sample_codec_round_trip sample_destscalecolorf sample_destscalecolorf
                sample_rgb2lum 0 AL_44 false [0; 0] 1 0 0 0 255 130
                no_color no_luminance)
      as (_ & Hlum & _); try lia; [vm_compute; discriminate|].
    destruct (Hlum (scaled 15) (scaled 15) eq_refl) as (_ & H).
    exact H.
  - destruct (sample_codec_round_trip sample_channel_of_single sample_single_of_channel
                sample_rgb2lum 0 GR_3232F true [0; 0; 0; 0; 0; 0; 0; 0] 0 130 20 30 7 0
                no_color no_luminance)
      as (_ & _ & Hfloat & _); try lia; [vm_compute; discriminate|].
    destruct (Hfloat (or_intror (or_introl eq_refl))
                (fun v => Z.mod_pos_bound v (2 ^ 32) eq_refl)) as (_ & H).
    exact H.
Defined.

(** C8 as it is stated fails.  [R_16F] is classified RGBA, yet the store
    refuses it and the fetch returns no colour; a one-bit alpha brings 128
    back as 0 where scaling to the maximum 1 and back gives 255;
    [MONOCHROME] is classified luminance, yet the store refuses it. *)
Lemma sample_codec_round_trip_counterexample :
  (getPVRLegacyPixelFormatType R_16F = RGBA /\
   setRGBA sample_destscalecolorf sample_rgb2lum 0 (dispatcher_for R_16F true)
     [0; 0] 0 255 128 0 255 = Ok (false, [0; 0]) /\
   getRGBA sample_destscalecolorf 0 (dispatcher_for R_16F true) [0; 0] 0 no_color
   = Ok (false, no_color)) /\
  (getPVRLegacyPixelFormatType ARGB_1555 = RGBA /\
   setRGBA sample_destscalecolorf sample_rgb2lum 0 (dispatcher_for ARGB_1555 true)
     [0; 0] 0 0 0 0 128 = Ok (true, [0; 0]) /\
   getRGBA sample_destscalecolorf 0 (dispatcher_for ARGB_1555 true) [0; 0] 0 no_color
   = Ok (true, {| redOut := 0; greenOut := 0; blueOut := 0; alphaOut := 0 |}) /\
   destscalecolor (putscalecolor 128 1) 1 = 255) /\
  (getPVRLegacyPixelFormatType MONOCHROME = LUMINANCE /\
   setLuminance sample_destscalecolorf sample_rgb2lum 0 (dispatcher_for MONOCHROME true)
     [0] 0 255 255 = Ok (false, [0])).
Proof. repeat split; reflexivity. Qed.

Lemma sample_engine_below_next : heap_below_next sample_engine.
Proof.
  intros p. cbn. rewrite !lookup_insert, lookup_empty.
  repeat destruct (decide _); subst; intros H; try lia; congruence.
Qed.

Lemma sample_engine_with_memory_below_next : heap_below_next sample_engine_with_memory.
Proof.
  intros p. cbn. rewrite !lookup_insert, lookup_empty.
  repeat destruct (decide _); subst; intros H; try lia; congruence.
Qed.

Lemma ReadFromNativeTexture_rollback_witness :
  let borrowed :=
    ReadFromNativeTexture 0 sample_copyTexelDataEx sample_adjustment sample_fetched
      (entry sample_engine pvrNativeImage.constructed sample_layers false) in
  let owned :=
    ReadFromNativeTexture 0 sample_throwing_copyTexelDataEx sample_adjustment sample_fetched
      (entry sample_engine_with_memory pvrNativeImage.constructed sample_layers true) in
  (fst borrowed = Throw "failed to allocate destination conversion layer in PVR native image color data acquisition" /\
   Interface.requests (engine (mach (snd borrowed))) = [2; 8] /\
   image (mach (snd borrowed)) = pvrNativeImage.constructed /\
   Interface.heap (engine (mach (snd borrowed))) = Interface.heap sample_engine) /\
  (fst owned = Throw "texel conversion failed" /\
   Interface.requests (engine (mach (snd owned))) = [2; 8] /\
   image (mach (snd owned)) = pvrNativeImage.constructed /\
   forall p, (3 <= p)%positive -> Interface.heap (engine (mach (snd owned))) !! p = None).
Proof.
  cbv zeta. split.
  - destruct (ReadFromNativeTexture_rollback 0 sample_copyTexelDataEx sample_adjustment
                sample_fetched sample_engine pvrNativeImage.constructed sample_layers false
                _ _ sample_engine_below_next (surjective_pairing _)) as [Hout Hfail].
    edestruct (Hfail eq_refl 1%nat) as [Hnull _];
      [cbn; lia | vm_compute; reflexivity |].
    specialize (Hnull eq_refl). rewrite Hnull in Hout.
    destruct Hout as (Himg & _ & Hheap).
    split; [exact Hnull|]. split; [vm_compute; reflexivity|].
    split; [exact Himg | exact (Hheap eq_refl)].
  - destruct (ReadFromNativeTexture_rollback 0 sample_throwing_copyTexelDataEx
                sample_adjustment sample_fetched sample_engine_with_memory
                pvrNativeImage.constructed sample_layers true
                _ _ sample_engine_with_memory_below_next (surjective_pairing _))
      as [Hout Hfail].
    edestruct (Hfail eq_refl 1%nat) as [_ Hcopy];
      [cbn; lia | vm_compute; reflexivity |].
    specialize (Hcopy "texel conversion failed"%string eq_refl eq_refl).
    rewrite Hcopy in Hout. destruct Hout as (Himg & Hnew & _).
    split; [exact Hcopy|]. split; [vm_compute; reflexivity|].
    split; [exact Himg | exact Hnew].
Defined.

Lemma read_levels_too_little_surface_data_witness :
  read_levels 0 sample_blocks 1 ARGB_8888 32
    {| getLevelWidth := 4; getLevelHeight := 4 |} 16 0 (sample_machine [])
  = (Throw "too little surface data in PVR native image", sample_machine []).
Proof.
  apply (read_levels_too_little_surface_data 0 sample_blocks 0 ARGB_8888
           {| getLevelWidth := 4; getLevelHeight := 4 |} 16 0 (sample_machine []));
    reflexivity.
Defined.

Lemma small_surfaceSize_rejected_witness :
  exists m',
    ReadNativeImage 0 sample_blocks sample_small_surfaceSize
    = (Throw "too little surface data in PVR native image", m') /\
    Interface.requests (engine m') = [] /\
    pvrNativeImage.mipmaps (image m') = [].
Proof.
  erewrite ReadNativeImage_after_header by (vm_compute; reflexivity).
  eapply (small_surfaceSize_rejected 0 sample_blocks); vm_compute; reflexivity.
Defined.

Lemma readLegacyVersionHeader_never_big_endian_witness :
  option_map isLittleEndianOut
    (fst (readLegacyVersionHeader (input sample_three_levels))) = Some true.
Proof.
  eassert (H : readLegacyVersionHeader (input sample_three_levels) = (Some _, _))
    by (vm_compute; reflexivity).
  rewrite H. cbn [fst option_map]. apply (f_equal Some).
  exact (readLegacyVersionHeader_never_big_endian _ _ _ H).
Defined.

(** * Properties of the engine interface *)

Section EngineInterfaceProperties.

Variable LibraryVersion : Type.

Lemma deliver_all (to : EngineInterface.receiver) (messages : list String.string) :
  forall e : EngineInterface.t LibraryVersion,
    fold_left (fun e message => EngineInterface.deliver to message e) messages e
    = EngineInterface.with_delivered
        (rev (map (pair to) messages) ++ EngineInterface.delivered e) e.
Proof.
  induction messages as [|message messages IH]; intros e.
  - destruct e; reflexivity.
  - cbn [fold_left map rev]. rewrite IH, <- app_assoc. reflexivity.
Qed.

Lemma PushWarning_to_handler (message : String.string) (h : positive)
    (stack : list (option positive)) (e : EngineInterface.t LibraryVersion) :
  EngineInterface.warningHandlerStack e = Some (stack ++ [Some h]) ->
  0 < EngineInterface.warningLevel e ->
  EngineInterface.PushWarning message e
  = EngineInterface.deliver (EngineInterface.to_handler h) message e.
Proof.
  intros Hstack Hlevel.
  unfold EngineInterface.PushWarning, EngineInterface.currentWarningHandler.
  rewrite Hstack, last_snoc.
  destruct (0 <? EngineInterface.warningLevel e) eqn:E; [reflexivity|].
  apply Z.ltb_ge in E. lia.
Qed.

Lemma PushWarning_all_to_handler (h : positive) (stack : list (option positive))
    (messages : list String.string) :
  forall e : EngineInterface.t LibraryVersion,
    EngineInterface.warningHandlerStack e = Some (stack ++ [Some h]) ->
    0 < EngineInterface.warningLevel e ->
    fold_left (fun e message => EngineInterface.PushWarning message e) messages e
    = fold_left (fun e message =>
                   EngineInterface.deliver (EngineInterface.to_handler h) message e)
        messages e.
Proof.
  induction messages as [|message messages IH]; intros e Hstack Hlevel; [reflexivity|].
  cbn [fold_left]. rewrite (PushWarning_to_handler message h stack e Hstack Hlevel).
  apply IH; assumption.
Qed.

(** X19: while a handler sits on top of the warning handler stack it is
    given every warning, in the order of the pushes, and the warning manager
    and the handlers below are given none; popping the handler leaves the
    interface as it was before the handler was pushed, but for what was
    delivered.  This needs the warning handler plugin and a warning level
    above zero. *)
Theorem scoped_handler_receives_warnings (e : EngineInterface.t LibraryVersion)
    (stack : list (option positive)) (h : positive) (messages : list String.string) :
  EngineInterface.warningHandlerStack e = Some stack ->
  0 < EngineInterface.warningLevel e ->
  EngineInterface.GlobalPopWarningHandler
    (fold_left (fun e message => EngineInterface.PushWarning message e) messages
       (EngineInterface.GlobalPushWarningHandler (Some h) e))
  = Some (EngineInterface.with_delivered
            (rev (map (pair (EngineInterface.to_handler h)) messages)
             ++ EngineInterface.delivered e) e).
Proof.
  intros Hstack Hlevel.
  unfold EngineInterface.GlobalPushWarningHandler. rewrite Hstack.
  rewrite (PushWarning_all_to_handler h stack) by (try reflexivity; exact Hlevel).
  rewrite deliver_all.
  unfold EngineInterface.GlobalPopWarningHandler.
  cbn [EngineInterface.with_delivered EngineInterface.with_warningHandlerStack
       EngineInterface.warningHandlerStack].
  rewrite length_app, Nat.add_comm. cbn [length Nat.add Nat.eqb].
  rewrite removelast_last.
  destruct e; cbn in Hstack |- *; subst; reflexivity.
Qed.

(** X20: with a warning level of zero or less a warning reaches nobody, and
    without a handler on the stack it reaches the warning manager if there is
    one and nobody otherwise; so an interface as the constructor leaves it
    drops its warnings until a manager is set or a handler is pushed. *)
Theorem warnings_without_handler (message : String.string)
    (e : EngineInterface.t LibraryVersion) :
  (EngineInterface.warningLevel e <= 0 -> EngineInterface.PushWarning message e = e) /\
  (0 < EngineInterface.warningLevel e ->
   EngineInterface.warningHandlerStack e = None \/
   EngineInterface.warningHandlerStack e = Some [] ->
   EngineInterface.PushWarning message e
   = match EngineInterface.warningManager e with
     | Some warningMan =>
         EngineInterface.deliver (EngineInterface.to_manager warningMan) message e
     | None => e
     end) /\
  (forall v hasRefMan,
     EngineInterface.PushWarning message
       (EngineInterface.Interface (LibraryVersion := LibraryVersion) v (Some []) hasRefMan)
     = EngineInterface.Interface v (Some []) hasRefMan).
Proof.
  split; [|split].
  - intros Hlevel. unfold EngineInterface.PushWarning.
    destruct (0 <? EngineInterface.warningLevel e) eqn:E; [|reflexivity].
    apply Z.ltb_lt in E. lia.
  - intros Hlevel Hstack. unfold EngineInterface.PushWarning,
      EngineInterface.currentWarningHandler.
    destruct (0 <? EngineInterface.warningLevel e) eqn:E.
    + destruct Hstack as [-> | ->]; reflexivity.
    + apply Z.ltb_ge in E. lia.
  - intros v hasRefMan. reflexivity.
Qed.

Variable ulong_max : Z.

Lemma AcquireObject_times (obj : positive) (refCount : Z) (n : nat)
    (e : EngineInterface.t LibraryVersion) :
  EngineInterface.refMan e = true ->
  EngineInterface.objects e !! obj = Some (Some refCount) ->
  0 <= refCount -> refCount + Z.of_nat n < ulong_max ->
  Nat.iter n (EngineInterface.AcquireObject ulong_max obj) e
  = EngineInterface.with_objects
      (<[obj := Some (refCount + Z.of_nat n)]> (EngineInterface.objects e)) e.
Proof.
  intros Hman Hobj Hpos. induction n as [|n IH]; intros Hmax.
  - change (Nat.iter 0 (EngineInterface.AcquireObject ulong_max obj) e) with e.
    rewrite Z.add_0_r, insert_id by exact Hobj.
    destruct e; reflexivity.
  - rewrite Nat.iter_succ, IH by lia.
    unfold EngineInterface.AcquireObject, EngineInterface.GetPluginStruct.
    cbn [EngineInterface.with_objects EngineInterface.refMan EngineInterface.objects].
    rewrite Hman, lookup_insert_eq, insert_insert_eq.
    unfold EngineInterface.AddRef. rewrite Z.mod_small by lia.
    replace (refCount + Z.of_nat n + 1) with (refCount + Z.of_nat (S n)) by lia.
    reflexivity.
Qed.

Lemma ReleaseObject_shared (obj : positive) (refCount : Z)
    (e : EngineInterface.t LibraryVersion) :
  EngineInterface.refMan e = true ->
  EngineInterface.objects e !! obj = Some (Some refCount) ->
  1 < refCount < ulong_max ->
  EngineInterface.ReleaseObject ulong_max obj e
  = EngineInterface.with_objects
      (<[obj := Some (refCount - 1)]> (EngineInterface.objects e)) e.
Proof.
  intros Hman Hobj Hrange.
  unfold EngineInterface.ReleaseObject, EngineInterface.GetPluginStruct,
    EngineInterface.DeleteRwObject, EngineInterface.RemoveRef.
  rewrite Hman, Hobj. cbv zeta. rewrite Z.mod_small by lia.
  destruct (refCount - 1 =? 0) eqn:E; [apply Z.eqb_eq in E; lia|reflexivity].
Qed.

Lemma ReleaseObject_last (obj : positive) (e : EngineInterface.t LibraryVersion) :
  EngineInterface.refMan e = true ->
  EngineInterface.objects e !! obj = Some (Some 1) ->
  1 < ulong_max ->
  EngineInterface.ReleaseObject ulong_max obj e
  = EngineInterface.with_objects (delete obj (EngineInterface.objects e)) e.
Proof.
  intros Hman Hobj Hmax.
  unfold EngineInterface.ReleaseObject, EngineInterface.GetPluginStruct,
    EngineInterface.DeleteRwObject, EngineInterface.RemoveRef.
  rewrite Hman, Hobj. cbv zeta. rewrite Z.mod_small by lia. reflexivity.
Qed.

Lemma ReleaseObject_times (obj : positive) (refCount : Z) (n : nat)
    (objs : gmap positive (option Z)) (e : EngineInterface.t LibraryVersion) :
  EngineInterface.refMan e = true ->
  0 < refCount -> refCount + Z.of_nat n < ulong_max ->
  Nat.iter n (EngineInterface.ReleaseObject ulong_max obj)
    (EngineInterface.with_objects (<[obj := Some (refCount + Z.of_nat n)]> objs) e)
  = EngineInterface.with_objects (<[obj := Some refCount]> objs) e.
Proof.
  intros Hman Hpos. induction n as [|n IH]; intros Hmax.
  - unfold Nat.iter. cbn [nat_rect Z.of_nat]. now rewrite Z.add_0_r.
  - rewrite Nat.iter_succ_r.
    rewrite (ReleaseObject_shared obj (refCount + Z.of_nat (S n)))
      by (try exact Hman; try apply lookup_insert_eq; lia).
    cbn [EngineInterface.with_objects EngineInterface.objects].
    rewrite insert_insert_eq.
    replace (refCount + Z.of_nat (S n) - 1) with (refCount + Z.of_nat n) by lia.
    rewrite <- IH by lia. reflexivity.
Qed.

(** X21: reference counts balance.  For an object that is held (a count
    above zero) in an engine with the reference count plugin, [n]
    acquisitions that do not overflow the count raise [GetRefCount] by [n]
    (up to its 32 bits), and [n] releases after them give back the engine as
    it was; a release of an object held more than once only lowers its
    count, and the release of an object held once destroys it. *)
Theorem AcquireObject_ReleaseObject_balance (e : EngineInterface.t LibraryVersion)
    (obj : positive) (refCount : Z) (n : nat) :
  EngineInterface.refMan e = true ->
  EngineInterface.objects e !! obj = Some (Some refCount) ->
  0 < refCount -> refCount + Z.of_nat n < ulong_max ->
  EngineInterface.GetRefCount obj
    (Nat.iter n (EngineInterface.AcquireObject ulong_max obj) e)
  = (refCount + Z.of_nat n) mod 2 ^ 32 /\
  Nat.iter n (EngineInterface.ReleaseObject ulong_max obj)
    (Nat.iter n (EngineInterface.AcquireObject ulong_max obj) e) = e /\
  (1 < refCount ->
   EngineInterface.objects (EngineInterface.ReleaseObject ulong_max obj e) !! obj
   = Some (Some (refCount - 1))) /\
  (refCount = 1 ->
   EngineInterface.objects (EngineInterface.ReleaseObject ulong_max obj e) !! obj = None).
Proof.
  intros Hman Hobj Hpos Hmax.
  rewrite (AcquireObject_times obj refCount n e Hman Hobj) by lia.
  split; [|split; [|split]].
  - unfold EngineInterface.GetRefCount, EngineInterface.GetPluginStruct.
    cbn [EngineInterface.with_objects EngineInterface.refMan EngineInterface.objects].
    now rewrite Hman, lookup_insert_eq.
  - rewrite (ReleaseObject_times obj refCount n) by assumption.
    rewrite insert_id by exact Hobj. destruct e; reflexivity.
  - intros Hshared. rewrite (ReleaseObject_shared obj refCount e Hman Hobj) by lia.
    cbn [EngineInterface.with_objects EngineInterface.objects].
    apply lookup_insert_eq.
  - intros ->. rewrite (ReleaseObject_last obj e Hman Hobj) by lia.
    cbn [EngineInterface.with_objects EngineInterface.objects].
    apply lookup_delete_eq.
Qed.

(** X22: [ReleaseObject] and [DeleteRwObject] differ on an object without a
    reference count (no plugin in the engine, or no plugin struct on the
    object): [DeleteRwObject] destroys it, [ReleaseObject] leaves it, and
    [GetRefCount] says 1 both before and after the release. *)
Theorem objects_without_reference_count (e : EngineInterface.t LibraryVersion)
    (obj : positive) (plugin : option Z) :
  EngineInterface.objects e !! obj = Some plugin ->
  EngineInterface.refMan e = false \/ plugin = None ->
  EngineInterface.objects (EngineInterface.DeleteRwObject ulong_max obj e) !! obj = None /\
  EngineInterface.ReleaseObject ulong_max obj e = e /\
  EngineInterface.AcquireObject ulong_max obj e = e /\
  EngineInterface.GetRefCount obj e = 1.
Proof.
  intros Hobj Hno.
  assert (EngineInterface.GetPluginStruct obj e = None) as Hstruct.
  { unfold EngineInterface.GetPluginStruct. rewrite Hobj.
    destruct Hno as [-> | ->]; [reflexivity|].
    destruct (EngineInterface.refMan e); reflexivity. }
  split; [|split; [|split]].
  - unfold EngineInterface.DeleteRwObject. rewrite Hobj.
    assert ((if EngineInterface.refMan e then plugin else None) = None) as ->.
    { destruct Hno as [-> | ->]; [reflexivity|].
      destruct (EngineInterface.refMan e); reflexivity. }
    cbn [EngineInterface.with_objects EngineInterface.objects].
    apply lookup_delete_eq.
  - unfold EngineInterface.ReleaseObject. now rewrite Hstruct.
  - unfold EngineInterface.AcquireObject. now rewrite Hstruct.
  - unfold EngineInterface.GetRefCount. now rewrite Hstruct.
Qed.

Variable toString : LibraryVersion -> String.string.

(** X23: the software information is empty when meta data tagging is off.
    When it is on and no application name was given (NULL or the empty
    string), the text names the generic RenderWare and the library version,
    then the description if one was given, and never the application
    version, whatever was passed for it. *)
Theorem software_information_without_name (e : EngineInterface.t LibraryVersion)
    (metaInfo : EngineInterface.softwareMetaInfo) :
  EngineInterface.GetRunningSoftwareInformation toString
    (EngineInterface.SetMetaDataTagging false e) = ""%string /\
  (default ""%string (EngineInterface.mi_applicationName metaInfo) = ""%string ->
   EngineInterface.GetRunningSoftwareInformation toString
     (EngineInterface.SetMetaDataTagging true (EngineInterface.SetApplicationInfo metaInfo e))
   = match EngineInterface.mi_description metaInfo with
     | Some (String c description) =>
         (("RenderWare (generic)" ++ " [rwver: " ++ toString (EngineInterface.version e) ++ "]")
          ++ " " ++ String c description)%string
     | _ =>
         ("RenderWare (generic)" ++ " [rwver: " ++ toString (EngineInterface.version e) ++ "]")%string
     end).
Proof.
  split; [reflexivity|].
  intros Hname. unfold EngineInterface.GetRunningSoftwareInformation.
  cbn [EngineInterface.SetMetaDataTagging EngineInterface.SetApplicationInfo
       EngineInterface.enableMetaDataTagging EngineInterface.applicationName
       EngineInterface.applicationVersion EngineInterface.applicationDescription
       EngineInterface.version].
  rewrite Hname. cbn [String.length Nat.eqb negb andb]. cbv zeta.
  destruct (EngineInterface.mi_description metaInfo) as [[|c description]|];
    cbn [default from_option id String.length Nat.eqb negb].
  - reflexivity.
  - reflexivity.
  - reflexivity.
Qed.

End EngineInterfaceProperties.

(** * More closed examples *)

Lemma direct_link_maps_back_witness :
  getPVRLegacyRawColorFormatLink RASTER_565 16 COLOR_BGRA = (RGB_565_SEC, true) /\
  getPVRRasterFormatMapping RGB_565_SEC true
  = (RASTER_565, COLOR_BGRA, RWCOMPRESS_NONE, true) /\
  getPVRLegacyFormatDepth RGB_565_SEC = 16.
Proof.
  pose proof (direct_link_maps_back RASTER_565 16 COLOR_BGRA eq_refl) as H.
  cbv zeta in H.
  change (fst (getPVRLegacyRawColorFormatLink RASTER_565 16 COLOR_BGRA))
    with RGB_565_SEC in H.
  destruct (getPVRRasterFormatMapping RGB_565_SEC true) as [[[rf co] ct] dm].
  destruct H as (-> & -> & -> & Hdepth & Horder).
  split; [reflexivity|]. split; [|exact Hdepth].
  rewrite Horder by discriminate. reflexivity.
Defined.

Lemma direct_mapping_links_back_witness :
  getPVRRasterFormatMapping RGB_565 true = (RASTER_565, COLOR_BGRA, RWCOMPRESS_NONE, true) /\
  getPVRLegacyRawColorFormatLink RASTER_565 (getPVRLegacyFormatDepth RGB_565) COLOR_BGRA
  = (RGB_565_SEC, true) /\
  getPVRLegacyFormatDepth RGB_565_SEC = getPVRLegacyFormatDepth RGB_565 /\
  getPVRLegacyPixelFormatType RGB_565_SEC = getPVRLegacyPixelFormatType RGB_565.
Proof.
  split; [reflexivity|].
  destruct (direct_mapping_links_back RGB_565 RASTER_565 COLOR_BGRA eq_refl)
    as (_ & _ & Hdepth & Hclass).
  split; [reflexivity|]. split; [exact Hdepth | exact Hclass].
Defined.

Lemma store_touches_one_texel_witness :
  setRGBA sample_destscalecolorf sample_rgb2lum 0 (dispatcher_for ARGB_1555 true)
    [1; 2; 3; 4; 5; 6] 1 130 20 30 255
  = Ok (true, [1; 2; 137; 128; 5; 6]) /\
  [1; 2; 137; 128; 5; 6] !! 1%nat = [1; 2; 3; 4; 5; 6] !! 1%nat /\
  [1; 2; 137; 128; 5; 6] !! 4%nat = [1; 2; 3; 4; 5; 6] !! 4%nat.
Proof.
  split; [reflexivity|].
  destruct (store_touches_one_texel sample_destscalecolorf sample_rgb2lum 0 ARGB_1555 true
              [1; 2; 3; 4; 5; 6] 1 130 20 30 255 0 true [1; 2; 137; 128; 5; 6]
              (or_introl eq_refl)) as [_ Hframe].
  split; apply Hframe; [left | right]; vm_compute; lia.
Defined.

Lemma formats_without_alpha_fetch_opaque_witness :
  doesPVRLegacyFormatHaveAlphaChannel RGB_565 = false /\
  exists c,
    getRGBA sample_destscalecolorf 0 (dispatcher_for RGB_565 true) [255; 255] 0 no_color
    = Ok (true, c) /\
    alphaOut c = 255.
Proof.
  split; [reflexivity|].
  eexists. split; [reflexivity|].
  apply (proj1 (formats_without_alpha_fetch_opaque sample_destscalecolorf sample_rgb2lum 0
                  RGB_565 true [255; 255] 0 no_color no_luminance eq_refl)).
  reflexivity.
Defined.

Lemma classified_formats_have_a_depth_witness :
  isValidPVRLegacyPixelFormat ARGB_8888 = true /\
  In (getPVRLegacyFormatDepth ARGB_8888) [1; 2; 4; 8; 16; 24; 32; 64; 128].
Proof.
  split; [reflexivity|].
  apply (classified_formats_have_a_depth ARGB_8888). left. reflexivity.
Defined.

Lemma getColor_after_setColor_witness :
  let color :=
    {| model := COLORMODEL_RGBA;
       rgbaColor := {| redOut := 130; greenOut := 20; blueOut := 30; alphaOut := 255 |};
       luminance := no_luminance |} in
  let colorOut :=
    {| model := COLORMODEL_LUMINANCE; rgbaColor := no_color; luminance := no_luminance |} in
  exists buf' c,
    setColor sample_destscalecolorf sample_rgb2lum 0 (dispatcher_for ARGB_1555 true)
      [0; 0; 0; 0] 1 color = Ok buf' /\
    getColor sample_destscalecolorf sample_rgb2lum 0 (dispatcher_for ARGB_1555 true)
      buf' 1 colorOut = Ok c /\
    model c = COLORMODEL_RGBA /\
    rgbaColor c = {| redOut := 132; greenOut := 16; blueOut := 33; alphaOut := 255 |}.
Proof.
  intros color colorOut.
  destruct (getColor_after_setColor sample_destscalecolorf sample_destscalecolorf
              sample_rgb2lum 0 ARGB_1555 true [0; 0; 0; 0] 1 color colorOut)
    as (Hrgba & _); [lia | vm_compute; discriminate |].
  destruct (Hrgba (scaled 31) (scaled 31) (scaled 31) presence eq_refl) as (H & _).
  apply (H eq_refl); cbn; lia.
Defined.

Lemma ReadNativeImage_then_ClearImageData_witness :
  let run := ReadNativeImage 0 sample_blocks sample_three_levels in
  fst run = Ok tt /\
  length (pvrNativeImage.mipmaps (image (snd run))) = 3%nat /\
  exists m2,
    ClearImageData true (snd run) = (Ok tt, m2) /\
    Interface.heap (engine m2) = Interface.heap (engine sample_three_levels) /\
    image m2 = pvrNativeImage.constructed.
Proof.
  intros run. split; [vm_compute; reflexivity|]. split; [vm_compute; reflexivity|].
  apply (ReadNativeImage_then_ClearImageData 0 sample_blocks sample_three_levels
           (snd run) (fst run)).
  - intros p. cbn. rewrite lookup_empty. intros H. now contradiction H.
  - reflexivity.
  - apply surjective_pairing.
Defined.

Lemma ReadNativeImage_consumes_declared_size_witness :
  let m := sample_machine (sample_header 2 2 1 ARGB_8888 20 32 ++ replicate 20 7 ++ [1; 2; 3]) in
  let run := ReadNativeImage 0 sample_blocks m in
  fst run = Ok tt /\
  input (snd run) = [1; 2; 3] /\
  exists h rest,
    readLegacyVersionHeader (input m) = (Some h, rest) /\
    input (snd run) = drop (Z.to_nat (surfaceSizeOut h)) rest.
Proof.
  intros m run. split; [vm_compute; reflexivity|]. split; [vm_compute; reflexivity|].
  apply (ReadNativeImage_consumes_declared_size 0 sample_blocks m (snd run)).
  vm_compute. reflexivity.
Defined.

Lemma ReadNativeImage_implies_IsStreamNativeImage_witness :
  fst (ReadNativeImage 0 sample_blocks sample_three_levels) = Ok tt /\
  fst (IsStreamNativeImage sample_blocks (fun s n => stream_skip n s)
         (input sample_three_levels)) = true.
Proof.
  split; [vm_compute; reflexivity|].
  apply (ReadNativeImage_implies_IsStreamNativeImage 0 sample_blocks
           (fun s n => stream_skip n s) sample_three_levels
           (snd (ReadNativeImage 0 sample_blocks sample_three_levels))).
  vm_compute. reflexivity.
Defined.

Lemma WriteNativeImage_then_ReadNativeImage_witness :
  let m0 :=
    sample_machine (sample_header 2 2 1 ARGB_8888 20 32 ++ replicate 16 7 ++ replicate 4 8) in
  let m1 := snd (ReadNativeImage 0 sample_blocks m0) in
  let out := snd (WriteNativeImage (engine m1) (image m1) []) in
  let m2 := sample_machine (out ++ [1; 2; 3]) in
  fst (ReadNativeImage 0 sample_blocks m0) = Ok tt /\
  fst (WriteNativeImage (engine m1) (image m1) []) = Ok tt /\
  length out = 72%nat /\
  exists m3,
    ReadNativeImage 0 sample_blocks m2 = (Ok tt, m3) /\
    same_properties (image m3) (image m1) /\
    Forall2 (same_layer (Interface.heap (engine m1)) (Interface.heap (engine m3)))
      (pvrNativeImage.mipmaps (image m1)) (pvrNativeImage.mipmaps (image m3)) /\
    input m3 = [1; 2; 3] /\
    Interface.warnings (engine m3) = Interface.warnings (engine m2).
Proof.
  intros m0 m1 out m2.
  split; [vm_compute; reflexivity|]. split; [vm_compute; reflexivity|].
  split; [vm_compute; reflexivity|].
  apply (WriteNativeImage_then_ReadNativeImage 0 sample_blocks m0 m1 m2 out [1; 2; 3]).
  - vm_compute. reflexivity.
  - reflexivity.
  - vm_compute. repeat (constructor; [split; [discriminate | reflexivity]|]). constructor.
  - vm_compute. reflexivity.
  - reflexivity.
  - reflexivity.
  - reflexivity.
Defined.

Lemma scoped_handler_receives_warnings_witness :
  let e :=
    EngineInterface.SetWarningManager (Some 7%positive)
      (EngineInterface.Interface tt (Some [Some 5%positive]) true) in
  EngineInterface.GlobalPopWarningHandler
    (EngineInterface.PushWarning "second"
       (EngineInterface.PushWarning "first"
          (EngineInterface.GlobalPushWarningHandler (Some 9%positive) e)))
  = Some (EngineInterface.with_delivered
            [(EngineInterface.to_handler 9%positive, "second"%string);
             (EngineInterface.to_handler 9%positive, "first"%string)] e).
Proof.
  intros e.
  apply (scoped_handler_receives_warnings unit e [Some 5%positive] 9%positive
           ["first"%string; "second"%string]).
  - reflexivity.
  - reflexivity.
Defined.

Lemma AcquireObject_ReleaseObject_balance_witness :
  let e :=
    EngineInterface.with_objects (<[3%positive := Some 1]> ∅)
      (EngineInterface.Interface tt (Some []) true) in
  EngineInterface.GetRefCount 3%positive
    (Nat.iter 2 (EngineInterface.AcquireObject (2 ^ 64) 3%positive) e) = 3 /\
  Nat.iter 2 (EngineInterface.ReleaseObject (2 ^ 64) 3%positive)
    (Nat.iter 2 (EngineInterface.AcquireObject (2 ^ 64) 3%positive) e) = e /\
  EngineInterface.objects (EngineInterface.ReleaseObject (2 ^ 64) 3%positive e) !! 3%positive
  = None.
Proof.
  intros e.
  destruct (AcquireObject_ReleaseObject_balance unit (2 ^ 64) e 3%positive 1 2)
    as (Hcount & Hback & _ & Hlast).
  - reflexivity.
  - apply lookup_insert_eq.
  - reflexivity.
  - reflexivity.
  - split; [exact Hcount|]. split; [exact Hback|]. apply Hlast. reflexivity.
Defined.

Lemma objects_without_reference_count_witness :
  let e :=
    EngineInterface.with_objects (<[3%positive := Some 1]> ∅)
      (EngineInterface.Interface tt (Some []) false) in
  EngineInterface.objects (EngineInterface.DeleteRwObject (2 ^ 64) 3%positive e) !! 3%positive
  = None /\
  EngineInterface.ReleaseObject (2 ^ 64) 3%positive e = e /\
  EngineInterface.AcquireObject (2 ^ 64) 3%positive e = e /\
  EngineInterface.GetRefCount 3%positive e = 1.
Proof.
  intros e.
  apply (objects_without_reference_count unit (2 ^ 64) e 3%positive (Some 1)).
  - apply lookup_insert_eq.
  - left. reflexivity.
Defined.
